(** * conda-lock: the conda solver adapter ([conda_lock/conda_solver.py])

    A shallow embedding of the adapter that drives conda, mamba or micromamba
    in dry-run mode, repairs the install plan and replays a previous lock as
    a synthetic environment, followed by the properties proved about it.

    Conventions of the embedding.
    - A Python [str] is a Rocq [string]; a character stands for the code
      point of the same number (below 256).
    - A [TypedDict] of the source is a record whose fields are options:
      [None] is a key the document does not have.
    - A [dict] whose iteration order is observable is an association list
      in insertion order ([PyDict]); a [dict] used for look-ups and key sets
      only is a [gmap]; a [set] is a [gset], iterated in the order the
      environment chooses.
    - Exceptions are values of [exn]; effectful code runs in the monad [M]
      over the state [World] (file system, standard error, the log of the
      sub-processes run). *)

From Stdlib Require Import ZArith Ascii String Lia.
From stdpp Require Import gmap strings list fin_maps sets.

Open Scope Z_scope.
Open Scope nat_scope.

(* ================================================================== *)
(** * Part I. Definitions *)
(* ================================================================== *)

(** ** Python's [str] methods used by the adapter *)

Module PyStr.

(** [str.isspace] on one character: the code points below 256 that
    Python counts as white space. *)
Definition isspace (c : ascii) : bool :=
  let n := nat_of_ascii c in
  ((9 <=? n) && (n <=? 13)) || ((28 <=? n) && (n <=? 32))
  || (n =? 133) || (n =? 160).

Definition isdigit (c : ascii) : bool :=
  let n := nat_of_ascii c in (48 <=? n) && (n <=? 57).

Definition isalpha_ascii (c : ascii) : bool :=
  let n := nat_of_ascii c in
  ((65 <=? n) && (n <=? 90)) || ((97 <=? n) && (n <=? 122)).

Definition eqc (a b : ascii) : bool := Ascii.eqb a b.

(** [bool(s)]: a string is true when it is not empty. *)
Definition nonempty (s : string) : bool :=
  match s with EmptyString => false | _ => true end.

(** [all(p(c) for c in s)] *)
Fixpoint all (p : ascii → bool) (s : string) : bool :=
  match s with
  | EmptyString => true
  | String c s' => p c && all p s'
  end.

(** [c in s] for a character [c] *)
Fixpoint contains (c : ascii) (s : string) : bool :=
  match s with
  | EmptyString => false
  | String a s' => eqc a c || contains c s'
  end.

(** [s.lstrip()], [s.rstrip()], [s.strip()] *)
Fixpoint lstrip (s : string) : string :=
  match s with
  | EmptyString => EmptyString
  | String c s' => if isspace c then lstrip s' else s
  end.

Fixpoint rstrip (s : string) : string :=
  match s with
  | EmptyString => EmptyString
  | String c s' =>
      match rstrip s' with
      | EmptyString => if isspace c then EmptyString else String c EmptyString
      | r => String c r
      end
  end.

Definition strip (s : string) : string := rstrip (lstrip s).

(** [s.split(sep)] for a separator of one character: never empty. *)
Fixpoint split_on (sep : ascii) (s : string) : list string :=
  match s with
  | EmptyString => [EmptyString]
  | String c s' =>
      if eqc c sep then EmptyString :: split_on sep s'
      else match split_on sep s' with
           | w :: ws => String c w :: ws
           | [] => [String c EmptyString]
           end
  end.

(** [s.split()]: the maximal runs of characters that are not white
    space. *)
Fixpoint split (s : string) : list string :=
  match s with
  | EmptyString => []
  | String c s' =>
      if isspace c then split s'
      else match s' with
           | EmptyString => [String c EmptyString]
           | String c' _ =>
               if isspace c' then String c EmptyString :: split s'
               else match split s' with
                    | w :: ws => String c w :: ws
                    | [] => [String c EmptyString]
                    end
           end
  end.

(** [sep.join(l)] *)
Fixpoint join (sep : string) (l : list string) : string :=
  match l with
  | [] => EmptyString
  | [x] => x
  | x :: xs => x +:+ sep +:+ join sep xs
  end.

(** [s.startswith(p)] *)
Fixpoint startswith (p s : string) : bool :=
  match p, s with
  | EmptyString, _ => true
  | String a p', String b s' => eqc a b && startswith p' s'
  | String _ _, EmptyString => false
  end.

(** [s.lower()] on the code points below 256 *)
Definition lower_char (c : ascii) : ascii :=
  let n := nat_of_ascii c in
  if ((65 <=? n) && (n <=? 90))
     || ((192 <=? n) && (n <=? 222) && negb (n =? 215))
  then ascii_of_nat (n + 32) else c.

Fixpoint lower (s : string) : string :=
  match s with
  | EmptyString => EmptyString
  | String c s' => String (lower_char c) (lower s')
  end.

(** The longest prefix of [s] without a character satisfying [p], and
    the rest (which is empty or starts with such a character): the
    common core of [find], [partition] and [split(sep, 1)]. *)
Fixpoint span (p : ascii → bool) (s : string) : string * string :=
  match s with
  | EmptyString => (EmptyString, EmptyString)
  | String c s' =>
      if p c then (EmptyString, s)
      else let '(a, b) := span p s' in (String c a, b)
  end.

(** [s.partition(c)]: head, whether the separator was found, tail. *)
Definition partition (c : ascii) (s : string) : string * bool * string :=
  match span (eqc c) s with
  | (a, String _ b) => (a, true, b)
  | (a, EmptyString) => (a, false, EmptyString)
  end.

(** The third component of [s.rpartition(c)]: what follows the last
    [c], or all of [s] when there is none. *)
Fixpoint after_last (c : ascii) (s : string) : string :=
  match s with
  | EmptyString => EmptyString
  | String a s' =>
      if contains c s' then after_last c s'
      else if eqc a c then s' else s
  end.

(** [l[-1]] on a list of strings; [IndexError] is [None]. *)
Definition last_item (l : list string) : option string := last l.

(** [l[0]] *)
Definition first_item (l : list string) : option string := head l.

(** The digits of a decimal numeral with single underscores allowed
    between digits, as [int] reads them. [after_digit] tells whether
    the previous character was a digit. *)
Fixpoint digits_value (after_digit : bool) (acc : Z) (s : string)
  : option Z :=
  match s with
  | EmptyString => if after_digit then Some acc else None
  | String c s' =>
      if isdigit c
      then digits_value true
             (10 * acc + Z.of_nat (nat_of_ascii c - 48))%Z s'
      else if eqc c "_" && after_digit
           then match s' with
                | String d _ =>
                    if isdigit d then digits_value false acc s' else None
                | EmptyString => None
                end
           else None
  end.

(** [int(s)] in base 10; [ValueError] is [None]. *)
Definition int (s : string) : option Z :=
  match strip s with
  | String "+" r => digits_value false 0%Z r
  | String "-" r => Z.opp <$> digits_value false 0%Z r
  | r => digits_value false 0%Z r
  end.

(** [str(n)] for a natural number *)
Fixpoint digits_of (fuel n : nat) (acc : string) : string :=
  match fuel with
  | O => acc
  | S fuel' =>
      let acc' := String (ascii_of_nat (48 + n mod 10)) acc in
      if n / 10 =? 0 then acc' else digits_of fuel' (n / 10) acc'
  end.

Definition of_nat (n : nat) : string := digits_of (S n) n EmptyString.

End PyStr.

(** ** Exceptions and results *)

Inductive exn : Type :=
| KeyError (key : string)
| IndexError
| ValueError (msg : string)
| AssertionError
| FileExistsError (msg : string)
| FileNotFoundError (path : string)
| IsADirectoryError (path : string)
| JSONDecodeError
| CalledProcessError (returncode : Z) (cmd : list string)
| RuntimeError (msg : string) (cause : exn).

Inductive result (A : Type) : Type :=
| Ok (a : A)
| Raise (e : exn).
Arguments Ok {A} a.
Arguments Raise {A} e.

Definition is_ok {A} (r : result A) : bool :=
  match r with Ok _ => true | Raise _ => false end.

Definition result_bind {A B} (r : result A) (k : A → result B) : result B :=
  match r with
  | Ok a => k a
  | Raise e => Raise e
  end.

(** [d[key]] on an optional field: a missing key raises [KeyError]. *)
Definition item {A} (key : string) (field : option A) : result A :=
  match field with
  | Some a => Ok a
  | None => Raise (KeyError key)
  end.

(** ** [pathlib.PurePosixPath] *)

Module PurePosixPath.

Record t : Type := mk { root : string; parts : list string }.

(** [PurePosixPath(s)]: empty and ["."] components are dropped; two
    leading slashes (exactly) are kept as the root. *)
Definition of_string (s : string) : t :=
  let r :=
    match s with
    | String "/" (String "/" (String "/" _)) => "/"
    | String "/" (String "/" _) => "//"
    | String "/" _ => "/"
    | _ => ""
    end in
  mk r (filter (λ x, x ≠ "" ∧ x ≠ ".") (PyStr.split_on "/" s)).

(** [str(p)] *)
Definition to_string (p : t) : string :=
  match root p, parts p with
  | EmptyString, [] => "."
  | r, ps => r +:+ PyStr.join "/" ps
  end.

(** [p.name]: the final component, if any *)
Definition name (p : t) : string := default "" (last (parts p)).

(** [p.parent] *)
Definition parent (p : t) : t :=
  match parts p with
  | [] => p
  | _ => mk (root p) (removelast (parts p))
  end.

(** What precedes the last [c] of [s]; empty when there is none. *)
Fixpoint before_last (c : ascii) (s : string) : string :=
  match s with
  | EmptyString => EmptyString
  | String a s' =>
      if PyStr.contains c s' then String a (before_last c s')
      else EmptyString
  end.

(** [p.suffix]: from the last dot of the name on, unless that dot is
    the first or the last character of the name. *)
Definition suffix_of_name (n : string) : string :=
  if PyStr.contains "." n
  then let stem := before_last "." n in
       let ext := PyStr.after_last "." n in
       if PyStr.nonempty stem && PyStr.nonempty ext then String "." ext else ""
  else "".

Definition suffix (p : t) : string := suffix_of_name (name p).

(** [p.with_suffix("")]: the name without its suffix; [ValueError] on
    an empty name. *)
Definition with_suffix_empty (p : t) : result t :=
  let n := name p in
  if PyStr.nonempty n
  then let n' := if PyStr.nonempty (suffix p) then before_last "." n else n in
       Ok (mk (root p) (removelast (parts p) ++ [n']))
  else Raise (ValueError "empty name").

(** [p / child] for a relative child of one component *)
Definition joinpath (p : t) (child : string) : t :=
  mk (root p) (parts p ++ [child]).

End PurePosixPath.

(** ** [urllib.parse.urlsplit] and [urlunsplit] *)

Module UrlParse.

Record SplitResult : Type := mk {
  scheme : string;
  netloc : string;
  path : string;
  query : string;
  fragment : string
}.

Definition scheme_char (c : ascii) : bool :=
  PyStr.isalpha_ascii c || PyStr.isdigit c
  || PyStr.eqc c "+" || PyStr.eqc c "-" || PyStr.eqc c ".".

(** Leading C0 control characters and spaces are dropped, and so are
    tabs and newlines anywhere in the URL. *)
Definition c0_or_space (c : ascii) : bool := nat_of_ascii c <=? 32.

Fixpoint lstrip_c0 (s : string) : string :=
  match s with
  | EmptyString => EmptyString
  | String c s' => if c0_or_space c then lstrip_c0 s' else s
  end.

Definition unsafe_char (c : ascii) : bool :=
  let n := nat_of_ascii c in (n =? 9) || (n =? 10) || (n =? 13).

Fixpoint remove_unsafe (s : string) : string :=
  match s with
  | EmptyString => EmptyString
  | String c s' =>
      if unsafe_char c then remove_unsafe s' else String c (remove_unsafe s')
  end.

Definition netloc_end (c : ascii) : bool :=
  PyStr.eqc c "/" || PyStr.eqc c "?" || PyStr.eqc c "#".

Definition split_scheme (url : string) : string * string :=
  match PyStr.span (PyStr.eqc ":") url with
  | (String c s, String _ rest) =>
      if PyStr.isalpha_ascii c && PyStr.all scheme_char (String c s)
      then (PyStr.lower (String c s), rest)
      else ("", url)
  | _ => ("", url)
  end.

Definition split_netloc (url : string) : string * string :=
  match url with
  | String "/" (String "/" rest) => PyStr.span netloc_end rest
  | _ => ("", url)
  end.

Definition urlsplit (url : string) : result SplitResult :=
  let url := remove_unsafe (lstrip_c0 url) in
  let '(scheme, url) := split_scheme url in
  let '(netloc, url) := split_netloc url in
  if xorb (PyStr.contains "[" netloc) (PyStr.contains "]" netloc)
  then Raise (ValueError "Invalid IPv6 URL")
  else
    let '(url, _, fragment) := PyStr.partition "#" url in
    let '(url, _, query) := PyStr.partition "?" url in
    Ok (mk scheme netloc url query fragment).

(** [SplitResult.hostname]: the host without user information and
    port, in lower case; [None] when it is empty. *)
Definition hostname (r : SplitResult) : option string :=
  let hostinfo := PyStr.after_last "@" (netloc r) in
  let '(_, have_open_br, bracketed) := PyStr.partition "[" hostinfo in
  let h := if have_open_br : bool
           then (PyStr.partition "]" bracketed).1.1
           else (PyStr.partition ":" hostinfo).1.1 in
  match h with
  | EmptyString => None
  | _ => Some (PyStr.lower h)
  end.

Definition uses_netloc : list string :=
  [""; "ftp"; "http"; "gopher"; "nntp"; "telnet"; "imap"; "wais"; "file";
   "mms"; "https"; "shttp"; "snews"; "prospero"; "rtsp"; "rtspu"; "rsync";
   "svn"; "svn+ssh"; "sftp"; "nfs"; "git"; "git+ssh"; "ws"; "wss"].

(** [urlunsplit((scheme, netloc, url, None, None))] *)
Definition urlunsplit (scheme : string) (netloc : option string)
    (url : string) : string :=
  let nl := default "" netloc in
  let url :=
    if PyStr.nonempty nl
       || (PyStr.nonempty scheme
           && bool_decide (scheme ∈ uses_netloc)
           && negb (PyStr.startswith "//" url))
    then "//" +:+ nl +:+
         (if PyStr.nonempty url && negb (PyStr.startswith "/" url)
          then "/" +:+ url else url)
    else url in
  if PyStr.nonempty scheme then scheme +:+ ":" +:+ url else url.

End UrlParse.

(** ** Ordered dictionaries

    A Python [dict] keeps its keys in insertion order; assigning to a key
    that is present replaces the value in place. *)

Module PyDict.

Definition t (V : Type) : Type := list (string * V).

Fixpoint get {V} (k : string) (d : t V) : option V :=
  match d with
  | [] => None
  | (k', v) :: d' => if String.eqb k k' then Some v else get k d'
  end.

Fixpoint set {V} (k : string) (v : V) (d : t V) : t V :=
  match d with
  | [] => [(k, v)]
  | (k', v') :: d' =>
      if String.eqb k k' then (k, v) :: d' else (k', v') :: set k v d'
  end.

Definition keys {V} (d : t V) : list string := d.*1.
Definition values {V} (d : t V) : list V := d.*2.

(** [{k: v for (k, v) in l}] *)
Definition of_list {V} (l : list (string * V)) : t V :=
  foldl (λ d kv, set kv.1 kv.2 d) [] l.

End PyDict.

(** ** Data model *)

(** [FetchAction] and [LinkAction] are read from the tools' JSON. One
    record holds the keys of both, since micromamba's LINK entries carry
    the FETCH keys too. *)
Module Action.
Record t : Type := mk {
  name : option string;
  version : option string;
  url : option string;
  md5 : option string;
  fn : option string;
  channel : option string;
  subdir : option string;
  timestamp : option Z;
  depends : option (list string);
  constrains : option (list string);
  base_url : option string;
  dist_name : option string;
  platform : option string
}.

Definition empty : t :=
  mk None None None None None None None None None None None None None.
End Action.

Abbreviation FetchAction := Action.t (only parsing).
Abbreviation LinkAction := Action.t (only parsing).

Record InstallActions : Type := mkInstallActions {
  LINK : option (list LinkAction);
  FETCH : option (list FetchAction)
}.

Record DryRunInstall : Type := mkDryRunInstall {
  actions : option InstallActions
}.

Module LockedDependency.
Record t : Type := mk {
  name : string;
  version : string;
  manager : string;
  platform : string;
  dependencies : PyDict.t string;
  url : string;
  hash : string;
  optional : bool;
  category : string
}.
End LockedDependency.

(** [Dependency] with its two variants; only [VersionedDependency] has a
    version constraint. *)
Inductive Dependency : Type :=
| VersionedDependency (name manager version : string)
| URLDependency (name manager url : string).

Definition dep_manager (d : Dependency) : string :=
  match d with
  | VersionedDependency _ m _ | URLDependency _ m _ => m
  end.

(** The metadata record that the synthetic environment holds for one
    locked package. *)
Record MetaEntry : Type := mkMetaEntry {
  me_name : string;
  me_channel : string;
  me_url : string;
  me_md5 : string;
  me_build : string;
  me_build_number : Z;
  me_version : string;
  me_subdir : string;
  me_depends : list string
}.

(** A parsed JSON document, seen through the look-ups the adapter makes
    on it. *)
Record JsonDoc : Type := mkJsonDoc {
  j_message : option string;      (* doc["message"] *)
  j_plan : DryRunInstall;         (* doc as a dry-run install plan *)
  j_items : list Action.t;        (* doc as a list of package entries *)
  j_pkgs_dirs : option (list string);  (* doc["pkgs_dirs"] *)
  j_record : FetchAction;         (* doc as a repodata record *)
  j_str : string;                 (* str(doc) *)
  j_truthy : bool                 (* bool(doc) *)
}.

(** ** The world outside the adapter *)

Inductive node : Type :=
| Dir
| File (content : string).

Record Proc : Type := mkProc {
  returncode : Z;
  proc_stdout : string;
  proc_stderr : string
}.

(** One sub-process run: its command line, its environment and the file
    system it saw. *)
Record Call : Type := mkCall {
  call_args : list string;
  call_env : list (string * string);
  call_fs : gmap string node
}.

Record World : Type := mkWorld {
  fs : gmap string node;
  stderr : list string;
  stdout : list string;
  calls : list Call
}.

(** [p] is [dir] or lies below it. *)
Definition under (dir p : string) : bool :=
  String.eqb dir p || PyStr.startswith (dir +:+ "/") p.

(** What the adapter takes from its host: the external tool, the JSON
    codec, the helpers of [conda_lock.invoke_conda] and
    [conda_lock.src_parser], and the choices Python leaves open. *)
Class Host : Type := {
  (** the tool: exit status and output, and the file system it leaves *)
  run_tool : list string → list (string * string) → gmap string node
             → Proc * gmap string node;
  (** [json.loads]; [None] is [JSONDecodeError] *)
  json_loads : string → option JsonDoc;
  json_error : string → string;
  (** [json.dump(entry, f, indent=2)] *)
  json_dump : MetaEntry → string;
  (** [repr] of a list of strings *)
  repr_list : list string → string;
  (** [conda_lock.invoke_conda] *)
  is_micromamba : string → bool;
  conda_env_override : string → list (string * string);
  conda_pkgs_dir : string;
  _get_conda_flags : list string → string → list string;
  (** [os.environ.get("CONDA_FLAGS")] and [shlex.split] *)
  environ_CONDA_FLAGS : option string;
  shlex_split : string → list string;
  (** [tempfile.mkdtemp]: a path that does not exist yet *)
  mkdtemp : gmap string node → string;
  mkdtemp_fresh : ∀ (f : gmap string node) (p : string),
      under (mkdtemp f) p = true → f !! p = None;
  (** iteration over a [set]: every element once, in some order *)
  set_iter : gset string → list string;
  set_iter_perm : ∀ X : gset string, set_iter X ≡ₚ elements X;
  (** the category and the optional flag that [_apply_categories] gives
      to a planned package *)
  category_of : PyDict.t Dependency → PyDict.t LockedDependency.t
                → string → string * bool;
  (** the defaults of [LockedDependency] for the fields that the adapter
      does not pass *)
  default_optional : bool;
  default_category : string
}.

(** ** The monad of the adapter: state and exceptions *)

Definition M (A : Type) : Type := World → result A * World.

Global Instance M_ret : MRet M := λ A a w, (Ok a, w).
Global Instance M_bind : MBind M := λ A B k m w,
  match m w with
  | (Ok a, w') => k a w'
  | (Raise e, w') => (Raise e, w')
  end.

Definition raise {A} (e : exn) : M A := λ w, (Raise e, w).

Definition lift {A} (r : result A) : M A := λ w, (r, w).

(** [try: body finally: cleanup] *)
Definition finally {A} (body : M A) (cleanup : World → World) : M A :=
  λ w, let '(r, w') := body w in (r, cleanup w').

Definition get_fs : M (gmap string node) := λ w, (Ok (fs w), w).

Definition set_fs (f : gmap string node) : World → World :=
  λ w, mkWorld f (stderr w) (stdout w) (calls w).

Definition modify_fs (g : gmap string node → gmap string node) : M unit :=
  λ w, (Ok (), set_fs (g (fs w)) w).

Definition print_stderr (line : string) : M unit :=
  λ w, (Ok (), mkWorld (fs w) (stderr w ++ [line]) (stdout w) (calls w)).

Definition print_stdout (line : string) : M unit :=
  λ w, (Ok (), mkWorld (fs w) (stderr w) (stdout w ++ [line]) (calls w)).

(** [for x in l: body(x)] collecting nothing *)
Fixpoint for_each {A} (l : list A) (body : A → M unit) : M unit :=
  match l with
  | [] => mret ()
  | x :: l' => _ ← body x; for_each l' body
  end.

Global Instance result_ret : MRet result := λ A a, Ok a.
Global Instance result_bind_inst : MBind result := λ A B k r, result_bind r k.

Definition path_join (dir child : string) : string := dir +:+ "/" +:+ child.
Infix "//" := path_join (at level 40, left associativity).

(** [rmtree]: [dir] and everything below it go. *)
Definition rmtree (dir : string) (f : gmap string node) : gmap string node :=
  filter (λ kv, under dir kv.1 = false) f.

(** [for x in l] collecting one result per element; the first exception
    ends the loop. *)
Fixpoint for_list {A B} (l : list A) (body : A → M B) : M (list B) :=
  match l with
  | [] => mret []
  | x :: l' => y ← body x; ys ← for_list l' body; mret (y :: ys)
  end.

Fixpoint map_result {A B} (f : A → result B) (l : list A) : result (list B) :=
  match l with
  | [] => Ok []
  | x :: l' => y ← f x; ys ← map_result f l'; Ok (y :: ys)
  end.

Definition newline : string := String (ascii_of_nat 10) EmptyString.

(** [os.path.join(a, b)] for a relative [b] *)
Definition os_path_join (a b : string) : string :=
  match a with
  | EmptyString => b
  | _ => if String.eqb (default "" (last (PyStr.split_on "/" a))) ""
         then a +:+ b else a +:+ "/" +:+ b
  end.

(** ** The adapter *)

Section Adapter.
Context `{Host}.

Definition _to_match_spec (conda_dep_name conda_version : string) : string :=
  if PyStr.nonempty conda_version
  then conda_dep_name +:+ "[version='" +:+ conda_version +:+ "']"
  else conda_dep_name.

(** [subprocess.run(args, env=env, ...)] *)
Definition run (args : list string) (env : list (string * string)) : M Proc :=
  λ w, let '(proc, f') := run_tool args env (fs w) in
       (Ok proc,
        mkWorld f' (stderr w) (stdout w)
                (calls w ++ [mkCall args env (fs w)])).

(** [subprocess.check_output(args, env=env)] *)
Definition check_output (args : list string) (env : list (string * string))
  : M string :=
  proc ← run args env;
  if (returncode proc =? 0)%Z then mret (proc_stdout proc)
  else raise (CalledProcessError (returncode proc) args).

Definition loads (text : string) : M JsonDoc :=
  match json_loads text with
  | Some doc => mret doc
  | None => raise JSONDecodeError
  end.

(** [path.exists()], [open(path)], [open(path, "w")], [mkdir], [touch] *)
Definition exists_ (path : string) : M bool :=
  λ w, (Ok (bool_decide (is_Some (fs w !! path))), w).

Definition open_read (path : string) : M string :=
  λ w, match fs w !! path with
       | Some (File content) => (Ok content, w)
       | Some Dir => (Raise (IsADirectoryError path), w)
       | None => (Raise (FileNotFoundError path), w)
       end.

Definition write_file (path content : string) : M unit :=
  modify_fs (<[path := File content]>).

Definition append_file (path text : string) : M unit :=
  modify_fs (λ f, match f !! path with
                  | Some (File content) => <[path := File (content +:+ text)]> f
                  | _ => f
                  end).

Definition mkdir (path : string) : M unit :=
  present ← exists_ path;
  if present : bool then raise (FileExistsError path)
  else modify_fs (<[path := Dir]>).

Definition touch (path : string) : M unit :=
  present ← exists_ path;
  if present : bool then mret () else write_file path "".

(** [{p["name"]: p for p in l}]: a later entry replaces an earlier one of
    the same name. *)
Fixpoint by_name_from (acc : gmap string Action.t) (l : list Action.t)
  : result (gmap string Action.t) :=
  match l with
  | [] => Ok acc
  | p :: l' => n ← item "name" (Action.name p); by_name_from (<[n := p]> acc) l'
  end.

Definition by_name (l : list Action.t) : result (gmap string Action.t) :=
  by_name_from ∅ l.

(** *** [_reconstruct_fetch_actions] *)

Definition repodata_record (pkgs_dir dist_name : string) : string :=
  pkgs_dir // dist_name // "info" // "repodata_record.json".

(** The loop over [pkgs_dirs], left at the first record that exists. *)
Fixpoint find_record (f : gmap string node) (pkgs_dirs : list string)
    (dist_name : string) : option string :=
  match pkgs_dirs with
  | [] => None
  | pkgs_dir :: rest =>
      let record := repodata_record pkgs_dir dist_name in
      if bool_decide (is_Some (f !! record)) then Some record
      else find_record f rest dist_name
  end.

Definition cached_repodata (pkgs_dirs : list string) (link_action : LinkAction)
  : M FetchAction :=
  dist_name ← lift (item "dist_name" (Action.dist_name link_action));
  f ← get_fs;
  match find_record f pkgs_dirs dist_name with
  | Some record =>
      text ← open_read record;
      doc ← loads text;
      mret (j_record doc)
  | None =>
      raise (FileExistsError
               ("Distribution '" +:+ dist_name +:+ "' not found in pkgs_dirs "
                +:+ repr_list pkgs_dirs))
  end.

(** The key-by-key copy of a micromamba LINK entry. *)
Definition copy_link_action (it : LinkAction) : result FetchAction :=
  channel ← item "channel" (Action.channel it);
  let constrains := Action.constrains it in
  let depends := Action.depends it in
  fn ← item "fn" (Action.fn it);
  md5 ← item "md5" (Action.md5 it);
  name ← item "name" (Action.name it);
  subdir ← item "subdir" (Action.subdir it);
  timestamp ← item "timestamp" (Action.timestamp it);
  url ← item "url" (Action.url it);
  version ← item "version" (Action.version it);
  Ok (Action.mk (Some name) (Some version) (Some url) (Some md5) (Some fn)
        (Some channel) (Some subdir) (Some timestamp) depends constrains
        None None None).

Definition query_pkgs_dirs (conda platform : string) : M (list string) :=
  out ← check_output [conda; "info"; "--json"] (conda_env_override platform);
  doc ← loads out;
  lift (item "pkgs_dirs" (j_pkgs_dirs doc)).

Definition _reconstruct_fetch_actions (conda platform : string)
    (dry_run_install : DryRunInstall) : M DryRunInstall :=
  acts ← lift (item "actions" (actions dry_run_install));
  let link := default [] (LINK acts) in
  let fetch := default [] (FETCH acts) in
  link_actions ← lift (by_name link);
  fetch_actions ← lift (by_name fetch);
  let link_only_names := dom link_actions ∖ dom fetch_actions in
  added ←
    (if negb (is_micromamba conda) then
       pkgs_dirs ← (if bool_decide (link_only_names ≠ ∅)
                    then query_pkgs_dirs conda platform
                    else mret []);
       for_list (set_iter link_only_names) (λ link_pkg_name,
         link_action ← lift (item link_pkg_name (link_actions !! link_pkg_name));
         cached_repodata pkgs_dirs link_action)
     else
       for_list (set_iter link_only_names) (λ link_pkg_name,
         it ← lift (item link_pkg_name (link_actions !! link_pkg_name));
         lift (copy_link_action it)));
  mret (mkDryRunInstall
          (Some (mkInstallActions (Some link) (Some (fetch ++ added))))).

(** *** [solve_specs_for_arch] *)

Definition is_windows (platform : string) : bool :=
  bool_decide (platform ∈ ["win-64"; "win-32"]).

(** The loop over [channels] that extends the command line. *)
Fixpoint channel_args (channels : list string) (platform : string)
  : list string :=
  match channels with
  | [] => []
  | channel :: rest =>
      ["--channel"; channel]
      ++ (if String.eqb channel "defaults" && is_windows platform
          then ["--channel"; "msys2"] else [])
      ++ channel_args rest platform
  end.

Definition solve_args (conda : string) (channels specs : list string)
    (platform : string) : list string :=
  [conda; "create"; "--prefix"; os_path_join conda_pkgs_dir "prefix";
   "--dry-run"; "--json"]
  ++ match environ_CONDA_FLAGS with
     | Some conda_flags =>
         if PyStr.nonempty conda_flags then shlex_split conda_flags else []
     | None => []
     end
  ++ (match channels with [] => [] | _ => ["--override-channels"] end)
  ++ channel_args channels platform
  ++ specs.

Definition print_proc (args : list string) (proc : Proc) : M unit :=
  _ ← print_stderr ("    Command: " +:+ repr_list args);
  _ ← (if PyStr.nonempty (proc_stdout proc)
       then print_stderr ("    STDOUT:" +:+ newline +:+ proc_stdout proc)
       else mret ());
  if PyStr.nonempty (proc_stderr proc)
  then print_stderr ("    STDERR:" +:+ newline +:+ proc_stderr proc)
  else mret ().

(** The message reported for a failed solve: the [message] key, the whole
    document when the key is missing, the raw output when it is not JSON.
    The flag is the truth value that guards its printing. *)
Definition error_message (out : string) : M (string * bool) :=
  match json_loads out with
  | Some err_json =>
      match j_message err_json with
      | Some message => mret (message, PyStr.nonempty message)
      | None =>
          _ ← print_stdout
                "Message key not found in json! returning the full json text";
          mret (j_str err_json, j_truthy err_json)
      end
  | None =>
      _ ← print_stderr ("Failed to parse json, " +:+ json_error out);
      mret (out, PyStr.nonempty out)
  end.

Definition solve_specs_for_arch (conda : string) (channels specs : list string)
    (platform : string) : M DryRunInstall :=
  let args := solve_args conda channels specs platform in
  proc ← run args (conda_env_override platform);
  _ ← (if (returncode proc =? 0)%Z then mret ()
       else
         '(message, shown) ← error_message (proc_stdout proc);
         _ ← print_stderr
               ("Could not lock the environment for platform " +:+ platform);
         _ ← (if shown : bool then print_stderr message else mret ());
         _ ← print_proc args proc;
         raise (CalledProcessError (returncode proc) args));
  dryrun_install ← loads (proc_stdout proc);
  _reconstruct_fetch_actions conda platform (j_plan dryrun_install).

(** *** [fake_conda_environment] *)

Definition compression_suffixes : list string :=
  [".tar"; ".bz2"; ".gz"; ".conda"].

(** [while path.suffix in {...}: path = path.with_suffix("")]. Every turn
    shortens the name, so a fuel above the length of the name is never
    used up ([strip_suffixes_fuel]). *)
Fixpoint strip_suffixes (fuel : nat) (path : PurePosixPath.t)
  : result PurePosixPath.t :=
  match fuel with
  | O => Ok path
  | S fuel' =>
      if bool_decide (PurePosixPath.suffix path ∈ compression_suffixes)
      then path' ← PurePosixPath.with_suffix_empty path;
           strip_suffixes fuel' path'
      else Ok path
  end.

(** [[f"{k} {v}".strip() for k, v in dependencies.items()]] *)
Definition render_depends (dependencies : PyDict.t string) : list string :=
  map (λ kv, PyStr.strip (kv.1 +:+ " " +:+ kv.2)) dependencies.

(** The body of the loop over the locked packages, up to the file it
    writes: the name of the file and the record. *)
Definition meta_entry (dep : LockedDependency.t) : result (string * MetaEntry) :=
  url ← UrlParse.urlsplit (LockedDependency.url dep);
  let path := PurePosixPath.of_string (UrlParse.path url) in
  let channel :=
    UrlParse.urlunsplit (UrlParse.scheme url) (UrlParse.hostname url)
      (PurePosixPath.to_string (PurePosixPath.parent path)) in
  path ← strip_suffixes (S (String.length (PurePosixPath.name path))) path;
  let build :=
    default "" (last (PyStr.split_on "-" (PurePosixPath.name path))) in
  let build_number :=
    default 0%Z (PyStr.int (default "" (last (PyStr.split_on "_" build)))) in
  Ok (PurePosixPath.name path +:+ ".json",
      mkMetaEntry (LockedDependency.name dep) channel
        (LockedDependency.url dep) (LockedDependency.hash dep) build
        build_number (LockedDependency.version dep)
        (PurePosixPath.name (PurePosixPath.parent path))
        (render_depends (LockedDependency.dependencies dep))).

Definition is_conda_for (platform : string) (dep : LockedDependency.t) : bool :=
  String.eqb (LockedDependency.manager dep) "conda"
  && String.eqb (LockedDependency.platform dep) platform.

(** What happens in the temporary directory before the [yield]. *)
Definition write_metadata (prefix : string) (locked : list LockedDependency.t)
    (platform : string) : M unit :=
  let conda_meta := prefix // "conda-meta" in
  _ ← mkdir conda_meta;
  _ ← touch (conda_meta // "history");
  for_each (List.filter (is_conda_for platform) locked) (λ dep,
    '(file_name, entry) ← lift (meta_entry dep);
    write_file (conda_meta // file_name) (json_dump entry)).

(** The context manager, applied to the body of its [with] statement:
    [tempfile.TemporaryDirectory] makes the directory and removes it when
    the block is left, whether by its end or by an exception. *)
Definition fake_conda_environment {A} (locked : list LockedDependency.t)
    (platform : string) (body : string → M A) : M A :=
  f ← get_fs;
  let prefix := mkdtemp f in
  _ ← modify_fs (<[prefix := Dir]>);
  finally (_ ← write_metadata prefix locked platform; body prefix)
          (λ w, set_fs (rmtree prefix (fs w)) w).

(** *** [update_specs_for_arch] *)

(** [{v.split("[")[0]: v for v in specs}] *)
Definition spec_for_name (specs : list string) : gmap string string :=
  foldl (λ m v, <[default "" (head (PyStr.split_on "[" v)) := v]> m) ∅ specs.

Definition uses_pinning (conda : string) : bool :=
  PyStr.startswith "mamba" (PurePosixPath.name (PurePosixPath.of_string conda)).

Definition pinned_path (prefix : string) : string :=
  prefix // "conda-meta" // "pinned".

Definition pin_line (name version : string) : string :=
  name +:+ " ==" +:+ version +:+ newline.

(** The mamba branch up to its command line: the pin file. *)
Definition write_pins (prefix : string) (installed : gmap string Action.t)
    (update : list string) : M unit :=
  let pinned_filename := pinned_path prefix in
  present ← exists_ pinned_filename;
  if present : bool then raise AssertionError
  else
    _ ← write_file pinned_filename "";
    for_each (set_iter (dom installed ∖ list_to_set update)) (λ name,
      entry ← lift (item name (installed !! name));
      version ← lift (item "version" (Action.version entry));
      append_file pinned_filename (pin_line name version)).

Definition mamba_warning : string :=
  "Warning: mamba cannot update single packages without resorting to pinning. "
  +:+ "If the update fails to solve, try with conda or micromamba instead.".

Definition update_args (conda prefix : string) (channels : list string)
    (platform : string) (installed : gmap string Action.t)
    (update : list string) : M (list string) :=
  if uses_pinning conda then
    _ ← write_pins prefix installed update;
    let args := [conda; "update"] ++ _get_conda_flags channels platform in
    _ ← print_stderr mamba_warning;
    mret args
  else
    mret ([conda; if is_micromamba conda then "update" else "install"]
          ++ _get_conda_flags channels platform).

Definition empty_plan : DryRunInstall :=
  mkDryRunInstall (Some (mkInstallActions (Some []) (Some []))).

(** The dry run of the update, or the empty plan when nothing is to be
    updated. *)
Definition update_dry_run (conda prefix : string) (channels : list string)
    (platform : string) (installed : gmap string Action.t)
    (update to_update : list string) : M DryRunInstall :=
  match to_update with
  | _ :: _ =>
      args ← update_args conda prefix channels platform installed update;
      proc ← run (args ++ ["-p"; prefix; "--json"; "--dry-run"] ++ to_update)
                 (conda_env_override platform);
      if (returncode proc =? 0)%Z
      then doc ← loads (proc_stdout proc); mret (j_plan doc)
      else
        err_json ← loads (proc_stdout proc);
        raise (RuntimeError
                 ("Could not lock the environment for platform " +:+ platform
                  +:+ ": " +:+ default "None" (j_message err_json))
                 (CalledProcessError (returncode proc)
                    (args ++ ["-p"; prefix; "--json"; "--dry-run"]
                     ++ to_update)))
  | [] => mret empty_plan
  end.

(** One turn of the loop that carries an installed package over. *)
Definition carry_one (conda : string) (locked : PyDict.t LockedDependency.t)
    (installed : gmap string Action.t) (acts : InstallActions)
    (package : string) : result InstallActions :=
  entry ← item package (installed !! package);
  dist_name ← item "dist_name" (Action.dist_name entry);
  let fn := dist_name +:+ ".tar.bz2" in
  channel ← (if is_micromamba conda
             then item "base_url" (Action.base_url entry)
             else base_url ← item "base_url" (Action.base_url entry);
                  platform ← item "platform" (Action.platform entry);
                  Ok (base_url +:+ "/" +:+ platform));
  let url := channel +:+ "/" +:+ fn in
  prior ← item package (PyDict.get package locked);
  let md5 := LockedDependency.hash prior in
  fetch ← item "FETCH" (FETCH acts);
  name ← item "name" (Action.name entry);
  version ← item "version" (Action.version entry);
  prior' ← item name (PyDict.get name locked);
  subdir ← item "platform" (Action.platform entry);
  link ← item "LINK" (LINK acts);
  Ok (mkInstallActions
        (Some (link ++ [entry]))
        (Some (fetch ++
               [Action.mk (Some name) (Some version) (Some url) (Some md5)
                  (Some fn) (Some channel) (Some subdir) (Some 0%Z)
                  (Some (render_depends (LockedDependency.dependencies prior')))
                  (Some []) None None None]))).

Fixpoint carry_forward (conda : string) (locked : PyDict.t LockedDependency.t)
    (installed : gmap string Action.t) (packages : list string)
    (acts : InstallActions) : result InstallActions :=
  match packages with
  | [] => Ok acts
  | package :: rest =>
      acts' ← carry_one conda locked installed acts package;
      carry_forward conda locked installed rest acts'
  end.

(** The statements after the dry run: the default [actions], the packages
    that the plan does not link, and their carrying over. *)
Definition complete_plan (conda : string) (locked : PyDict.t LockedDependency.t)
    (installed : gmap string Action.t) (dryrun_install : DryRunInstall)
  : result DryRunInstall :=
  let acts := default (mkInstallActions (Some []) (Some []))
                      (actions dryrun_install) in
  link ← item "LINK" (LINK acts);
  updated ← by_name link;
  acts' ← carry_forward conda locked installed
            (set_iter (dom installed ∖ dom updated)) acts;
  Ok (mkDryRunInstall (Some acts')).

Definition list_installed (conda prefix platform : string)
  : M (gmap string Action.t) :=
  out ← check_output [conda; "list"; "-p"; prefix; "--json"]
                     (conda_env_override platform);
  doc ← loads out;
  lift (by_name (j_items doc)).

(** The body of the [with] statement. *)
Definition update_in_prefix (conda : string) (specs : list string)
    (locked : PyDict.t LockedDependency.t) (update : list string)
    (platform : string) (channels : list string) (prefix : string)
  : M DryRunInstall :=
  installed ← list_installed conda prefix platform;
  let by_spec := spec_for_name specs in
  to_update ← lift (map_result (λ name, item name (by_spec !! name))
                      (set_iter (dom installed ∩ list_to_set update)));
  dryrun_install ← update_dry_run conda prefix channels platform installed
                     update to_update;
  plan ← lift (complete_plan conda locked installed dryrun_install);
  _reconstruct_fetch_actions conda platform plan.

Definition update_specs_for_arch (conda : string) (specs : list string)
    (locked : PyDict.t LockedDependency.t) (update : list string)
    (platform : string) (channels : list string) : M DryRunInstall :=
  fake_conda_environment (PyDict.values locked) platform
    (update_in_prefix conda specs locked update platform channels).

(** *** [solve_conda] *)

(** [{item.split()[0]: " ".join(item.split(" ")[1:]) for item in depends}] *)
Definition parse_depend (it : string) : result (string * string) :=
  match head (PyStr.split it) with
  | Some name => Ok (name, PyStr.join " " (tail (PyStr.split_on " " it)))
  | None => Raise IndexError
  end.

Definition parse_depends (depends : list string) : result (PyDict.t string) :=
  kvs ← map_result parse_depend depends;
  Ok (PyDict.of_list kvs).

Definition locked_of_action (platform : string) (action : FetchAction)
  : result (string * LockedDependency.t) :=
  key ← item "name" (Action.name action);
  version ← item "version" (Action.version action);
  dependencies ← parse_depends (default [] (Action.depends action));
  url ← item "url" (Action.url action);
  let hash := match Action.md5 action with
              | Some md5 => "md5:" +:+ md5
              | None => ""
              end in
  Ok (key,
      LockedDependency.mk key version "conda" platform dependencies url hash
        default_optional default_category).

(** Modelled from the spec: [_apply_categories] of [conda_lock.src_parser],
    whose code is not part of this file's sources. Categories propagate
    from the requested packages to the planned ones; nothing but the
    category and the optional flag of a planned package is rewritten. *)
Definition _apply_categories (requested : PyDict.t Dependency)
    (planned : PyDict.t LockedDependency.t) : PyDict.t LockedDependency.t :=
  map (λ kv,
         let d := kv.2 in
         let '(category, optional) := category_of requested planned kv.1 in
         (kv.1,
          LockedDependency.mk (LockedDependency.name d)
            (LockedDependency.version d) (LockedDependency.manager d)
            (LockedDependency.platform d) (LockedDependency.dependencies d)
            (LockedDependency.url d) (LockedDependency.hash d)
            optional category))
      planned.

Definition conda_spec_of (dep : Dependency) : option string :=
  match dep with
  | VersionedDependency name manager version =>
      if String.eqb manager "conda" then Some (_to_match_spec name version)
      else None
  | URLDependency _ _ _ => None
  end.

Definition solve_conda (conda : string) (specs : PyDict.t Dependency)
    (locked : PyDict.t LockedDependency.t) (update : list string)
    (platform : string) (channels : list string)
  : M (PyDict.t LockedDependency.t) :=
  let conda_specs := omap conda_spec_of (PyDict.values specs) in
  let conda_locked :=
    PyDict.of_list
      (map (λ dep, (LockedDependency.name dep, dep))
           (List.filter (λ dep, String.eqb (LockedDependency.manager dep) "conda")
                        (PyDict.values locked))) in
  let to_update : gset string :=
    list_to_set update ∩ list_to_set (PyDict.keys conda_locked) in
  dry_run_install ←
    (if bool_decide (to_update ≠ ∅)
     then update_specs_for_arch conda conda_specs conda_locked
            (set_iter to_update) platform channels
     else solve_specs_for_arch conda channels conda_specs platform);
  acts ← lift (item "actions" (actions dry_run_install));
  fetch ← lift (item "FETCH" (FETCH acts));
  kvs ← lift (map_result (locked_of_action platform) fetch);
  let planned := PyDict.of_list kvs in
  mret (_apply_categories
          (List.filter (λ kv, String.eqb (dep_manager kv.2) "conda") specs)
          planned).

End Adapter.

(** ** A scripted host, for examples

    The temporary directory of the scripted host has a name longer than
    every path of the file system, so nothing lies in or below it. *)

Fixpoint repeat_char (c : ascii) (n : nat) : string :=
  match n with
  | O => EmptyString
  | S n' => String c (repeat_char c n')
  end.

Definition longest_path (f : gmap string node) : nat :=
  max_list (String.length <$> (map_to_list f).*1).

(** A name longer than every path of the file system. *)
Definition scripted_mkdtemp (f : gmap string node) : string :=
  "/tmp/" +:+ repeat_char "x" (S (longest_path f)).

(* ================================================================== *)
(** * Part II. Properties *)
(* ================================================================== *)

(** ** Strings: facts *)

Lemma sapp_nil_l (s : string) : "" +:+ s = s.
Proof. reflexivity. Qed.

Lemma sapp_cons (c : ascii) (a b : string) :
  String c a +:+ b = String c (a +:+ b).
Proof. reflexivity. Qed.

Lemma sapp_nil_r (s : string) : s +:+ "" = s.
Proof. induction s as [|c s IH]; [done|]. by rewrite sapp_cons, IH. Qed.

Lemma sapp_assoc (a b c : string) : (a +:+ b) +:+ c = a +:+ (b +:+ c).
Proof. induction a as [|x a IH]; [done|]. by rewrite !sapp_cons, IH. Qed.

Lemma sapp_length (a b : string) :
  String.length (a +:+ b) = String.length a + String.length b.
Proof. induction a as [|x a IH]; [done|]. rewrite sapp_cons. simpl. by rewrite IH. Qed.

Lemma eqc_eq (a b : ascii) : PyStr.eqc a b = true ↔ a = b.
Proof. apply Ascii.eqb_eq. Qed.

Lemma eqc_refl (a : ascii) : PyStr.eqc a a = true.
Proof. by apply eqc_eq. Qed.

Definition lacks (c : ascii) (s : string) : Prop := PyStr.contains c s = false.

Lemma lacks_cons (c a : ascii) (s : string) :
  lacks c (String a s) ↔ PyStr.eqc a c = false ∧ lacks c s.
Proof. unfold lacks. simpl. apply orb_false_iff. Qed.

Lemma split_on_nonempty (c : ascii) (s : string) : PyStr.split_on c s ≠ [].
Proof.
  induction s as [|a s IH]; simpl; [done|].
  destruct (PyStr.eqc a c); [done|]. by destruct (PyStr.split_on c s).
Qed.

Lemma split_on_lacks (c : ascii) (s : string) :
  lacks c s → PyStr.split_on c s = [s].
Proof.
  induction s as [|a s IH]; [done|].
  intros [Ha Hs]%lacks_cons. simpl. by rewrite Ha, IH.
Qed.

Lemma split_on_app (c : ascii) (k v : string) :
  lacks c k →
  PyStr.split_on c (k +:+ String c v) = k :: PyStr.split_on c v.
Proof.
  induction k as [|a k IH].
  - intros _. rewrite sapp_nil_l. simpl. by rewrite eqc_refl.
  - intros [Ha Hk]%lacks_cons. rewrite sapp_cons. simpl.
    by rewrite Ha, IH.
Qed.

Lemma join_split_on (c : ascii) (s : string) :
  PyStr.join (String c "") (PyStr.split_on c s) = s.
Proof.
  induction s as [|a s IH]; [done|]. simpl.
  destruct (PyStr.eqc a c) eqn:Hac.
  - apply eqc_eq in Hac. subst a.
    pose proof (split_on_nonempty c s) as Hne.
    destruct (PyStr.split_on c s) as [|x xs] eqn:Hs; [done|].
    change (PyStr.join (String c "") ("" :: x :: xs))
      with ("" +:+ String c "" +:+ PyStr.join (String c "") (x :: xs)).
    by rewrite IH.
  - pose proof (split_on_nonempty c s) as Hne.
    destruct (PyStr.split_on c s) as [|x xs] eqn:Hs; [done|].
    destruct xs as [|y ys].
    + simpl in *. by rewrite IH.
    + change (PyStr.join (String c "") (String a x :: y :: ys))
        with (String a x +:+ String c "" +:+ PyStr.join (String c "") (y :: ys)).
      change (PyStr.join (String c "") (x :: y :: ys))
        with (x +:+ String c "" +:+ PyStr.join (String c "") (y :: ys)) in IH.
      by rewrite sapp_cons, IH.
Qed.

Definition no_space (s : string) : Prop :=
  PyStr.all (λ c, negb (PyStr.isspace c)) s = true.

Definition all_space (s : string) : Prop := PyStr.all PyStr.isspace s = true.

Lemma no_space_cons (c : ascii) (s : string) :
  no_space (String c s) ↔ PyStr.isspace c = false ∧ no_space s.
Proof.
  unfold no_space. simpl. rewrite andb_true_iff, negb_true_iff. done.
Qed.

Lemma no_space_lacks (c : ascii) (s : string) :
  PyStr.isspace c = true → no_space s → lacks c s.
Proof.
  intros Hc. induction s as [|a s IH]; [done|].
  intros [Ha Hs]%no_space_cons. apply lacks_cons. split; [|by apply IH].
  destruct (PyStr.eqc a c) eqn:Hac; [|done].
  apply eqc_eq in Hac. congruence.
Qed.

Lemma lstrip_word (k r : string) :
  k ≠ "" → no_space k → PyStr.lstrip (k +:+ r) = k +:+ r.
Proof.
  destruct k as [|c k]; [done|]. intros _ [Hc _]%no_space_cons.
  rewrite sapp_cons. simpl. by rewrite Hc.
Qed.

Lemma rstrip_all_space (s : string) : all_space s → PyStr.rstrip s = "".
Proof.
  unfold all_space. induction s as [|c s IH]; [done|]. simpl.
  intros [Hc Hs]%andb_true_iff. by rewrite IH, Hc.
Qed.

Lemma rstrip_app_space (a b : string) :
  all_space b → PyStr.rstrip (a +:+ b) = PyStr.rstrip a.
Proof.
  intros Hb. induction a as [|c a IH].
  - rewrite sapp_nil_l. by apply rstrip_all_space.
  - rewrite sapp_cons. simpl. by rewrite IH.
Qed.

Lemma rstrip_app_keep (a v : string) :
  PyStr.rstrip v ≠ "" → PyStr.rstrip (a +:+ v) = a +:+ PyStr.rstrip v.
Proof.
  intros Hv. induction a as [|c a IH]; [done|].
  rewrite !sapp_cons. simpl. rewrite IH.
  destruct (a +:+ PyStr.rstrip v) eqn:Hav; [|done].
  destruct a; [|done]. by rewrite sapp_nil_l in Hav.
Qed.

Lemma rstrip_no_space (k : string) : no_space k → PyStr.rstrip k = k.
Proof.
  induction k as [|c k IH]; [done|].
  intros [Hc Hk]%no_space_cons. simpl. rewrite (IH Hk), Hc. by destruct k.
Qed.

Lemma split_word (k r : string) :
  k ≠ "" → no_space k →
  (r = "" ∨ ∃ c r', r = String c r' ∧ PyStr.isspace c = true) →
  PyStr.split (k +:+ r) = k :: PyStr.split r.
Proof.
  intros Hne Hk Hr. induction k as [|c k IH]; [done|].
  apply no_space_cons in Hk as [Hc Hk]. rewrite sapp_cons.
  destruct k as [|c2 k].
  - rewrite sapp_nil_l. destruct Hr as [-> | (c' & r' & -> & Hc')].
    + simpl. by rewrite Hc.
    + simpl. by rewrite Hc, Hc'.
  - specialize (IH ltac:(done) Hk).
    pose proof Hk as [Hc2 _]%no_space_cons.
    rewrite sapp_cons in *.
    change (PyStr.split (String c (String c2 (k +:+ r))))
      with (if PyStr.isspace c then PyStr.split (String c2 (k +:+ r))
            else if PyStr.isspace c2
                 then String c "" :: PyStr.split (String c2 (k +:+ r))
                 else match PyStr.split (String c2 (k +:+ r)) with
                      | w :: ws => String c w :: ws
                      | [] => [String c ""]
                      end).
    by rewrite Hc, Hc2, IH.
Qed.

(** A package name: not empty, no white space. A constraint: no white
    space at its end. *)
Definition name_ok (k : string) : Prop := k ≠ "" ∧ no_space k.
Definition constraint_ok (v : string) : Prop := PyStr.rstrip v = v.

Lemma strip_token (k v : string) :
  name_ok k → constraint_ok v →
  PyStr.strip (k +:+ " " +:+ v) = if PyStr.nonempty v then k +:+ " " +:+ v else k.
Proof.
  intros [Hne Hk] Hv. unfold PyStr.strip. rewrite lstrip_word by done.
  destruct v as [|c v]; simpl.
  - rewrite rstrip_app_space by done. by apply rstrip_no_space.
  - rewrite <- sapp_assoc, rstrip_app_keep; rewrite Hv; [|done].
    by rewrite sapp_assoc.
Qed.

Lemma parse_depend_token (k v : string) :
  name_ok k → parse_depend (k +:+ String " " v) = Ok (k, v).
Proof.
  intros [Hne Hns].
  assert (lacks " " k) as Hl by (by apply no_space_lacks).
  unfold parse_depend.
  rewrite split_word; [|done|done|right; by eexists _, _].
  rewrite split_on_app by done. simpl. by rewrite (join_split_on " ").
Qed.

Lemma parse_depend_name (k : string) :
  name_ok k → parse_depend k = Ok (k, "").
Proof.
  intros [Hne Hns].
  assert (lacks " " k) as Hl by (by apply no_space_lacks).
  unfold parse_depend.
  rewrite <- (sapp_nil_r k) at 1. rewrite split_word by auto.
  by rewrite split_on_lacks.
Qed.

Lemma parse_render_one (k v : string) :
  name_ok k → constraint_ok v →
  parse_depend (PyStr.strip (k +:+ " " +:+ v)) = Ok (k, v).
Proof.
  intros Hk Hv. rewrite strip_token by done.
  destruct v as [|c v]; simpl PyStr.nonempty; cbv iota.
  - by apply parse_depend_name.
  - by apply parse_depend_token.
Qed.

(** ** Ordered dictionaries: facts *)

Lemma pydict_set_fresh {V} (k : string) (v : V) (d : PyDict.t V) :
  k ∉ d.*1 → PyDict.set k v d = d ++ [(k, v)].
Proof.
  induction d as [|[k' v'] d IH]; [done|]. simpl.
  intros Hk. apply not_elem_of_cons in Hk as [Hne Hk].
  destruct (String.eqb k k') eqn:Heq.
  - apply String.eqb_eq in Heq. done.
  - by rewrite IH.
Qed.

Lemma pydict_fold_fresh {V} (l acc : list (string * V)) :
  NoDup (acc ++ l).*1 →
  foldl (λ d kv, PyDict.set kv.1 kv.2 d) acc l = acc ++ l.
Proof.
  revert acc. induction l as [|[k v] l IH]; intros acc Hnd; simpl.
  - by rewrite app_nil_r.
  - rewrite pydict_set_fresh.
    + rewrite IH; rewrite <- app_assoc; done.
    + rewrite fmap_app in Hnd. apply NoDup_app in Hnd as (_ & Hd & _).
      intros Hin. apply (Hd k Hin). simpl. left.
Qed.

Lemma pydict_of_list_NoDup {V} (l : list (string * V)) :
  NoDup l.*1 → PyDict.of_list l = l.
Proof. intros Hnd. unfold PyDict.of_list. by rewrite pydict_fold_fresh. Qed.

Lemma parse_render_all (deps : PyDict.t string) :
  Forall (λ kv, name_ok kv.1 ∧ constraint_ok kv.2) deps →
  map_result parse_depend (render_depends deps) = Ok deps.
Proof.
  induction 1 as [|[k v] deps [Hk Hv] _ IH]; [done|].
  change (render_depends ((k, v) :: deps))
    with (PyStr.strip (k +:+ " " +:+ v) :: render_depends deps).
  cbn [map_result]. rewrite parse_render_one by done.
  unfold mbind, result_bind_inst, result_bind. by rewrite IH.
Qed.

(** C8 (as amended). Parsing the rendered tokens gives back the dependency
    map, in the same order, when every name is non-empty and free of white
    space and no constraint ends in white space; a constraint may be
    empty. *)
Theorem C8_parse_inverts_render (deps : PyDict.t string) :
  NoDup (PyDict.keys deps) →
  Forall (λ kv, name_ok kv.1 ∧ constraint_ok kv.2) deps →
  parse_depends (render_depends deps) = Ok deps.
Proof.
  intros Hnd Hok. unfold parse_depends.
  rewrite parse_render_all by done. simpl.
  by rewrite pydict_of_list_NoDup.
Qed.

(** ** The log of sub-processes only grows *)

Definition extends (w w' : World) : Prop :=
  ∃ later, calls w' = calls w ++ later.

Definition log_mono {A} (m : M A) : Prop := ∀ w, extends w (m w).2.

Lemma extends_refl (w : World) : extends w w.
Proof. exists []. by rewrite app_nil_r. Qed.

Lemma extends_trans (w1 w2 w3 : World) :
  extends w1 w2 → extends w2 w3 → extends w1 w3.
Proof.
  intros [l1 H1] [l2 H2]. exists (l1 ++ l2).
  by rewrite H2, H1, app_assoc.
Qed.

Lemma log_mono_ret {A} (a : A) : log_mono (mret a).
Proof. intros w. apply extends_refl. Qed.

Lemma log_mono_raise {A} (e : exn) : log_mono (@raise A e).
Proof. intros w. apply extends_refl. Qed.

Lemma log_mono_lift {A} (r : result A) : log_mono (lift r).
Proof. intros w. apply extends_refl. Qed.

Lemma log_mono_bind {A B} (m : M A) (k : A → M B) :
  log_mono m → (∀ a, log_mono (k a)) → log_mono (m ≫= k).
Proof.
  intros Hm Hk w. unfold mbind, M_bind.
  specialize (Hm w). destruct (m w) as [[a|e] w1]; simpl in *; [|done].
  eapply extends_trans; [exact Hm|apply Hk].
Qed.

Lemma log_mono_same_calls {A} (m : M A) :
  (∀ w, calls (m w).2 = calls w) → log_mono m.
Proof. intros Hm w. exists []. by rewrite Hm, app_nil_r. Qed.

Lemma log_mono_finally {A} (m : M A) (cleanup : World → World) :
  log_mono m → (∀ w, calls (cleanup w) = calls w) → log_mono (finally m cleanup).
Proof.
  intros Hm Hc w. unfold finally. specialize (Hm w).
  destruct (m w) as [r w1]. simpl in *.
  destruct Hm as [l Hl]. exists l. by rewrite Hc.
Qed.

Lemma log_mono_for_each {A} (l : list A) (body : A → M unit) :
  (∀ x, log_mono (body x)) → log_mono (for_each l body).
Proof.
  intros Hb. induction l as [|x l IH]; simpl.
  - apply log_mono_ret.
  - apply log_mono_bind; [apply Hb|intros _; exact IH].
Qed.

Lemma log_mono_for_list {A B} (l : list A) (body : A → M B) :
  (∀ x, log_mono (body x)) → log_mono (for_list l body).
Proof.
  intros Hb. induction l as [|x l IH]; simpl.
  - apply log_mono_ret.
  - apply log_mono_bind; [apply Hb|intros y].
    apply log_mono_bind; [exact IH|intros ys; apply log_mono_ret].
Qed.

Lemma log_mono_modify_fs (g : gmap string node → gmap string node) :
  log_mono (modify_fs g).
Proof. by apply log_mono_same_calls. Qed.

Lemma log_mono_get_fs : log_mono get_fs.
Proof. by apply log_mono_same_calls. Qed.

Lemma log_mono_print_stderr (line : string) : log_mono (print_stderr line).
Proof. by apply log_mono_same_calls. Qed.

Lemma log_mono_print_stdout (line : string) : log_mono (print_stdout line).
Proof. by apply log_mono_same_calls. Qed.

Create HintDb mono discriminated.

#[export] Hint Resolve log_mono_ret log_mono_raise log_mono_lift
  log_mono_modify_fs log_mono_get_fs log_mono_print_stderr
  log_mono_print_stdout : mono.

(** Goes through a computation built from binds, loops and pattern
    matching, leaving the calls of other functions to the hint base. *)
Ltac mono_step :=
  match goal with
  | |- log_mono (_ ≫= _) => apply log_mono_bind; [|intros ?]
  | |- log_mono (for_each _ _) => apply log_mono_for_each; intros ?
  | |- log_mono (for_list _ _) => apply log_mono_for_list; intros ?
  | |- log_mono (finally _ _) => apply log_mono_finally; [|done]
  | |- log_mono (if ?b then _ else _) => destruct b
  | |- log_mono (match ?x with _ => _ end) => destruct x
  | |- log_mono (let '(_, _) := ?x in _) => destruct x
  | |- log_mono _ => solve [auto with mono]
  end.

Ltac mono := repeat mono_step.

Section AdapterLog.
Context `{Host}.

Lemma bind_run {B} (args : list string) (env : list (string * string))
    (k : Proc → M B) (w : World) :
  (run args env ≫= k) w
  = k (run_tool args env (fs w)).1
      (mkWorld (run_tool args env (fs w)).2 (stderr w) (stdout w)
               (calls w ++ [mkCall args env (fs w)])).
Proof.
  unfold mbind, M_bind, run. by destruct (run_tool _ _ _) as [proc f'].
Qed.

Lemma log_mono_run (args : list string) (env : list (string * string)) :
  log_mono (run args env).
Proof.
  intros w. unfold run. destruct (run_tool _ _ _) as [proc f'].
  by eexists.
Qed.
Hint Resolve log_mono_run : mono.

Lemma log_mono_check_output (args : list string) (env : list (string * string)) :
  log_mono (check_output args env).
Proof. unfold check_output. mono. Qed.

Lemma log_mono_loads (text : string) : log_mono (loads text).
Proof. unfold loads. mono. Qed.

Lemma log_mono_exists (path : string) : log_mono (exists_ path).
Proof. by apply log_mono_same_calls. Qed.

Lemma log_mono_open_read (path : string) : log_mono (open_read path).
Proof.
  apply log_mono_same_calls. intros w. unfold open_read.
  by destruct (fs w !! path) as [[]|].
Qed.
Hint Resolve log_mono_check_output log_mono_loads log_mono_exists
  log_mono_open_read : mono.

Lemma log_mono_write_file (path content : string) :
  log_mono (write_file path content).
Proof. unfold write_file. mono. Qed.

Lemma log_mono_append_file (path text : string) :
  log_mono (append_file path text).
Proof. unfold append_file. mono. Qed.
Hint Resolve log_mono_write_file log_mono_append_file : mono.

Lemma log_mono_mkdir (path : string) : log_mono (mkdir path).
Proof. unfold mkdir. mono. Qed.

Lemma log_mono_touch (path : string) : log_mono (touch path).
Proof. unfold touch. mono. Qed.
Hint Resolve log_mono_mkdir log_mono_touch : mono.

Lemma log_mono_reconstruct (conda platform : string) (plan : DryRunInstall) :
  log_mono (_reconstruct_fetch_actions conda platform plan).
Proof.
  unfold _reconstruct_fetch_actions, query_pkgs_dirs, cached_repodata. mono.
Qed.
Hint Resolve log_mono_reconstruct : mono.

Lemma log_mono_error_message (out : string) : log_mono (error_message out).
Proof. unfold error_message. mono. Qed.

Lemma log_mono_print_proc (args : list string) (proc : Proc) :
  log_mono (print_proc args proc).
Proof. unfold print_proc. mono. Qed.
Hint Resolve log_mono_error_message log_mono_print_proc : mono.

End AdapterLog.

#[export] Hint Resolve log_mono_run log_mono_check_output log_mono_loads
  log_mono_exists log_mono_open_read log_mono_write_file log_mono_append_file
  log_mono_mkdir log_mono_touch log_mono_reconstruct log_mono_error_message
  log_mono_print_proc : mono.

(** ** The channels on the command line of a solve *)

Lemma is_windows_spec (platform : string) :
  is_windows platform = true ↔ platform = "win-64" ∨ platform = "win-32".
Proof.
  unfold is_windows. rewrite bool_decide_eq_true.
  rewrite !elem_of_cons, elem_of_nil. tauto.
Qed.

Lemma channel_args_app (xs ys : list string) (platform : string) :
  channel_args (xs ++ ys) platform
  = channel_args xs platform ++ channel_args ys platform.
Proof.
  induction xs as [|x xs IH]; simpl; [done|].
  rewrite IH. by rewrite <- !app_assoc.
Qed.

Lemma channel_args_plain (channels : list string) (platform : string) :
  is_windows platform = false ∨ "defaults" ∉ channels →
  channel_args channels platform
  = flat_map (λ channel, ["--channel"; channel]) channels.
Proof.
  intros Hno. induction channels as [|c cs IH]; simpl; [done|].
  rewrite IH.
  - destruct (String.eqb c "defaults") eqn:Hc; simpl; [|done].
    apply String.eqb_eq in Hc. subst c.
    destruct Hno as [-> | Hnotin]; [done|].
    exfalso. apply Hnotin. left.
  - destruct Hno as [Hw | Hnotin]; [by left|].
    right. intros Hin. apply Hnotin. by right.
Qed.

(** C10. On a Windows target every ["defaults"] channel is followed at once
    by the channel ["msys2"] on the command line that the solver receives;
    for another target, or without ["defaults"] among the channels, the
    command line names the given channels and nothing else. *)
Theorem C10_msys2_follows_defaults `{Host}
    (conda : string) (channels specs : list string) (platform : string)
    (w : World) :
  (* the command line of the solve is the one logged for the tool *)
  (∃ later, calls (solve_specs_for_arch conda channels specs platform w).2
            = calls w
              ++ mkCall (solve_args conda channels specs platform)
                        (conda_env_override platform) (fs w) :: later)
  ∧ (∃ front, solve_args conda channels specs platform
              = front ++ channel_args channels platform ++ specs)
  ∧ (platform = "win-64" ∨ platform = "win-32" →
     ∀ before after, channels = before ++ "defaults" :: after →
       channel_args channels platform
       = channel_args before platform
         ++ ["--channel"; "defaults"; "--channel"; "msys2"]
         ++ channel_args after platform)
  ∧ (¬ (platform = "win-64" ∨ platform = "win-32") ∨ "defaults" ∉ channels →
     channel_args channels platform
     = flat_map (λ channel, ["--channel"; channel]) channels).
Proof.
  split; [|split; [|split]].
  - unfold solve_specs_for_arch. rewrite bind_run.
    match goal with
    | |- context [calls (?k ?p ?w1).2] =>
        assert (log_mono (k p)) as Hk by mono; destruct (Hk w1) as [l Hl]
    end.
    exists l. rewrite Hl. simpl. by rewrite <- app_assoc.
  - unfold solve_args. eexists. rewrite !app_assoc. reflexivity.
  - intros Hwin before after ->.
    rewrite channel_args_app. simpl.
    apply is_windows_spec in Hwin. by rewrite Hwin.
  - intros Hno. apply channel_args_plain.
    destruct Hno as [Hnw | Hnd]; [left|by right].
    destruct (is_windows platform) eqn:Hw; [|done].
    exfalso. by apply Hnw, is_windows_spec.
Qed.

(** ** The scripted host *)

Lemma startswith_length (p s : string) :
  PyStr.startswith p s = true → String.length p ≤ String.length s.
Proof.
  revert s. induction p as [|a p IH]; intros [|b s]; simpl; try done; [lia|].
  intros [_ Hp]%andb_true_iff. apply IH in Hp. lia.
Qed.

Lemma under_length (dir p : string) :
  under dir p = true → String.length dir ≤ String.length p.
Proof.
  unfold under. intros [Heq | Hsw]%orb_true_iff.
  - apply String.eqb_eq in Heq. by subst.
  - apply startswith_length in Hsw. rewrite sapp_length in Hsw. lia.
Qed.

Lemma repeat_char_length (c : ascii) (n : nat) :
  String.length (repeat_char c n) = n.
Proof. induction n; simpl; congruence. Qed.

Lemma scripted_mkdtemp_fresh (f : gmap string node) (p : string) :
  under (scripted_mkdtemp f) p = true → f !! p = None.
Proof.
  intros Hu%under_length. destruct (f !! p) as [n|] eqn:Hp; [|done].
  exfalso. unfold scripted_mkdtemp in Hu.
  rewrite sapp_length, repeat_char_length in Hu. simpl in Hu.
  assert (String.length p ≤ longest_path f); [|lia].
  unfold longest_path. apply max_list_elem_of_le.
  apply list_elem_of_fmap. exists p. split; [done|].
  apply list_elem_of_fmap. exists (p, n). split; [done|].
  by apply elem_of_map_to_list.
Qed.

(** A host whose tool answers from a script: [tool] gives the outcome of a
    command line, [docs] the documents that parse as JSON. *)
Definition scripted (micromamba : bool)
    (tool : list string → gmap string node → Proc * gmap string node)
    (docs : list (string * JsonDoc)) : Host :=
  {| run_tool args _ f := tool args f;
     json_loads text := PyDict.get text docs;
     json_error _ := "Expecting value";
     json_dump entry := me_name entry +:+ " " +:+ me_version entry;
     repr_list l := "[" +:+ PyStr.join ", " l +:+ "]";
     is_micromamba _ := micromamba;
     conda_env_override platform := [("CONDA_SUBDIR", platform)];
     conda_pkgs_dir := "/pkgs";
     _get_conda_flags channels _ :=
       flat_map (λ channel, ["--channel"; channel]) channels;
     environ_CONDA_FLAGS := None;
     shlex_split := PyStr.split;
     mkdtemp := scripted_mkdtemp;
     mkdtemp_fresh := scripted_mkdtemp_fresh;
     set_iter := elements;
     set_iter_perm X := reflexivity (elements X);
     category_of _ _ _ := ("main", false);
     default_optional := true;
     default_category := "main" |}.

(** ** Inversion of computations that return *)

Lemma bind_ok_inv {A B} (m : M A) (k : A → M B) (w w' : World) (b : B) :
  (m ≫= k) w = (Ok b, w') →
  ∃ a w1, m w = (Ok a, w1) ∧ k a w1 = (Ok b, w').
Proof.
  unfold mbind, M_bind. destruct (m w) as [[a|e] w1]; [|done].
  intros Hk. by exists a, w1.
Qed.

Lemma mret_ok_inv {A} (a b : A) (w w' : World) :
  mret (M := M) a w = (Ok b, w') → a = b ∧ w' = w.
Proof. unfold mret, M_ret. by intros [= -> ->]. Qed.

Lemma lift_ok_inv {A} (r : result A) (a : A) (w w' : World) :
  lift r w = (Ok a, w') → r = Ok a ∧ w' = w.
Proof. unfold lift. by intros [= -> ->]. Qed.

Lemma rbind_ok_inv {A B} (r : result A) (k : A → result B) (b : B) :
  r ≫= k = Ok b → ∃ a, r = Ok a ∧ k a = Ok b.
Proof. destruct r as [a|e]; [|done]. intros Hk. by exists a. Qed.

Lemma item_ok_inv {A} (key : string) (field : option A) (a : A) :
  item key field = Ok a → field = Some a.
Proof. destruct field; simpl; congruence. Qed.

Ltac inv_ok :=
  repeat match goal with
    | H : (_ ≫= _) _ = (Ok _, _) |- _ =>
        let a := fresh "a" in let w := fresh "w" in let Ha := fresh "Ha" in
        apply bind_ok_inv in H as (a & w & Ha & H)
    | H : mret _ _ = (Ok _, _) |- _ => apply mret_ok_inv in H as [? ?]; subst
    | H : lift _ _ = (Ok _, _) |- _ => apply lift_ok_inv in H as [H ?]; subst
    | H : _ ≫= _ = Ok _ |- _ =>
        let a := fresh "a" in let Ha := fresh "Ha" in
        apply rbind_ok_inv in H as (a & Ha & H)
    | H : item _ _ = Ok _ |- _ => apply item_ok_inv in H
    | H : Ok _ = Ok _ |- _ => injection H as H; subst
    end.

Lemma map_result_Forall2 {A B} (f : A → result B) (l : list A) (ys : list B) :
  map_result f l = Ok ys → Forall2 (λ x y, f x = Ok y) l ys.
Proof.
  revert ys. induction l as [|x l IH]; intros ys Hm; simpl in Hm.
  - injection Hm as <-. constructor.
  - inv_ok. constructor; [done|]. by apply IH.
Qed.

Lemma map_result_Forall {A B} (f : A → result B) (P : B → Prop)
    (l : list A) (ys : list B) :
  (∀ x y, f x = Ok y → P y) → map_result f l = Ok ys → Forall P ys.
Proof.
  intros HP Hm. apply map_result_Forall2 in Hm.
  induction Hm; constructor; eauto.
Qed.

(** ** Ordered dictionaries built by a comprehension *)

Lemma pydict_set_keys {V} (k : string) (v : V) (d : PyDict.t V) :
  PyDict.keys (PyDict.set k v d)
  = if decide (k ∈ PyDict.keys d) then PyDict.keys d else PyDict.keys d ++ [k].
Proof.
  unfold PyDict.keys. induction d as [|[k' v'] d IH].
  - destruct (decide (k ∈ ([] : PyDict.t V).*1)) as [Hin|_]; [|done].
    by apply elem_of_nil in Hin.
  - cbn [PyDict.set]. destruct (String.eqb k k') eqn:Heq.
    + apply String.eqb_eq in Heq. subst k'.
      destruct (decide (k ∈ ((k, v') :: d).*1)) as [_|Hni]; [done|].
      exfalso. apply Hni. left.
    + apply String.eqb_neq in Heq.
      change (((k', v') :: PyDict.set k v d).*1)
        with (k' :: (PyDict.set k v d).*1).
      rewrite IH.
      change (((k', v') :: d).*1) with (k' :: d.*1).
      destruct (decide (k ∈ d.*1)) as [Hin|Hni];
        destruct (decide (k ∈ k' :: d.*1)) as [Hin'|Hni']; try done.
      * exfalso. apply Hni'. by right.
      * apply elem_of_cons in Hin' as [?|?]; done.
Qed.

Lemma pydict_set_NoDup {V} (k : string) (v : V) (d : PyDict.t V) :
  NoDup (PyDict.keys d) → NoDup (PyDict.keys (PyDict.set k v d)).
Proof.
  intros Hnd. rewrite pydict_set_keys. case_decide; [done|].
  apply NoDup_app. split; [done|]. split; [|apply NoDup_singleton].
  intros x Hx ->%list_elem_of_singleton. done.
Qed.

Lemma pydict_set_elem_of {V} (k : string) (v : V) (d : PyDict.t V)
    (kv : string * V) :
  kv ∈ PyDict.set k v d → kv = (k, v) ∨ kv ∈ d.
Proof.
  induction d as [|[k' v'] d IH]; simpl.
  - intros ->%list_elem_of_singleton. by left.
  - destruct (String.eqb k k').
    + intros [->|?]%elem_of_cons; [by left|right; by right].
    + intros [->|Hin]%elem_of_cons; [right; left|].
      destruct (IH Hin); [by left|right; by right].
Qed.

Lemma pydict_fold_NoDup {V} (l acc : list (string * V)) :
  NoDup (PyDict.keys acc) →
  NoDup (PyDict.keys (foldl (λ d kv, PyDict.set kv.1 kv.2 d) acc l)).
Proof.
  revert acc. induction l as [|[k v] l IH]; intros acc Hnd; simpl; [done|].
  by apply IH, pydict_set_NoDup.
Qed.

Lemma pydict_fold_elem_of {V} (l acc : list (string * V)) (kv : string * V) :
  kv ∈ foldl (λ d kv, PyDict.set kv.1 kv.2 d) acc l → kv ∈ acc ∨ kv ∈ l.
Proof.
  revert acc. induction l as [|[k v] l IH]; intros acc Hin; simpl in *.
  - by left.
  - destruct (IH _ Hin) as [Hs|Hl]; [|right; by right].
    destruct (pydict_set_elem_of _ _ _ _ Hs) as [->|?]; [right; left|by left].
Qed.

Lemma pydict_of_list_keys_NoDup {V} (l : list (string * V)) :
  NoDup (PyDict.keys (PyDict.of_list l)).
Proof. apply pydict_fold_NoDup. constructor. Qed.

Lemma pydict_of_list_elem_of {V} (l : list (string * V)) (kv : string * V) :
  kv ∈ PyDict.of_list l → kv ∈ l.
Proof.
  intros Hin. destruct (pydict_fold_elem_of _ _ _ Hin) as [Hnil|?]; [|done].
  by apply elem_of_nil in Hnil.
Qed.

(** ** One locked package for each name *)

Definition identified_by_name (platform : string)
    (kv : string * LockedDependency.t) : Prop :=
  LockedDependency.name kv.2 = kv.1
  ∧ LockedDependency.manager kv.2 = "conda"
  ∧ LockedDependency.platform kv.2 = platform.

Definition triple (d : LockedDependency.t) : string * string * string :=
  (LockedDependency.name d, LockedDependency.manager d,
   LockedDependency.platform d).

Section Planned.
Context `{Host}.

Lemma locked_of_action_identified (platform : string) (action : FetchAction)
    (kv : string * LockedDependency.t) :
  locked_of_action platform action = Ok kv → identified_by_name platform kv.
Proof.
  unfold locked_of_action. intros Hk. inv_ok. done.
Qed.

Lemma apply_categories_keys (requested : PyDict.t Dependency)
    (planned : PyDict.t LockedDependency.t) :
  PyDict.keys (_apply_categories requested planned) = PyDict.keys planned.
Proof.
  unfold _apply_categories, PyDict.keys.
  rewrite <- list_fmap_compose. apply list_fmap_ext.
  intros i [k d] _. simpl. by destruct (category_of _ _ _).
Qed.

Lemma apply_categories_identified (platform : string)
    (requested : PyDict.t Dependency) (planned : PyDict.t LockedDependency.t) :
  Forall (identified_by_name platform) planned →
  Forall (identified_by_name platform) (_apply_categories requested planned).
Proof.
  intros Hall. unfold _apply_categories. apply Forall_fmap.
  eapply Forall_impl; [exact Hall|].
  intros [k d] Hkd. simpl. by destruct (category_of _ _ _).
Qed.

Lemma identified_triples_NoDup (platform : string)
    (planned : PyDict.t LockedDependency.t) :
  NoDup (PyDict.keys planned) →
  Forall (identified_by_name platform) planned →
  NoDup (triple <$> PyDict.values planned).
Proof.
  intros Hnd Hall.
  assert (triple <$> PyDict.values planned
          = (λ k, (k, "conda", platform)) <$> PyDict.keys planned) as ->.
  { unfold PyDict.values, PyDict.keys. rewrite <- !list_fmap_compose.
    apply Forall_fmap_ext_1. eapply Forall_impl; [exact Hall|].
    intros [k d] (Hn & Hm & Hp). unfold triple. simpl in *. congruence. }
  apply NoDup_fmap_2; [|done]. by intros k1 k2 [= ->].
Qed.

(** C7. A solve that returns gives a mapping with distinct names, each
    entry filed under its own name, managed by conda and for the requested
    platform: the triples (name, manager, platform) of its values are
    pairwise distinct. *)
Theorem C7_one_entry_per_name
    (conda : string) (specs : PyDict.t Dependency)
    (locked : PyDict.t LockedDependency.t) (update : list string)
    (platform : string) (channels : list string)
    (w w' : World) (planned : PyDict.t LockedDependency.t) :
  solve_conda conda specs locked update platform channels w = (Ok planned, w') →
  NoDup (PyDict.keys planned)
  ∧ Forall (identified_by_name platform) planned
  ∧ NoDup (triple <$> PyDict.values planned).
Proof.
  unfold solve_conda. intros Hsolve. inv_ok.
  match goal with
  | Hm : map_result _ _ = Ok ?kvs |- _ =>
      apply (map_result_Forall _ (identified_by_name platform)) in Hm;
      [rename Hm into Hkvs|apply locked_of_action_identified];
      assert (Forall (identified_by_name platform) (PyDict.of_list kvs)) as Hid
  end.
  { apply Forall_forall. intros kv Hin%pydict_of_list_elem_of.
    by eapply Forall_forall in Hkvs. }
  match goal with
  | |- NoDup (PyDict.keys ?planned) ∧ _ =>
      assert (NoDup (PyDict.keys planned)) as Hnd
  end.
  { rewrite apply_categories_keys. apply pydict_of_list_keys_NoDup. }
  split; [done|]. split; [by apply apply_categories_identified|].
  eapply identified_triples_NoDup; [done|].
  by apply apply_categories_identified.
Qed.
End Planned.

(** ** Strings: searching and cutting *)










Lemma split_on_app_any (c : ascii) (a b : string) :
  PyStr.split_on c (a +:+ String c b)
  = PyStr.split_on c a ++ PyStr.split_on c b.
Proof.
  induction a as [|x a IH].
  - rewrite sapp_nil_l. simpl. by rewrite eqc_refl.
  - rewrite sapp_cons. simpl. rewrite IH.
    destruct (PyStr.eqc x c); [done|].
    pose proof (split_on_nonempty c a).
    by destruct (PyStr.split_on c a).
Qed.





(** ** Suffixes of a file name *)

(** A layer of compression: a dot and an extension without dots. *)
Lemma compression_suffix_shape (layer : string) :
  layer ∈ compression_suffixes →
  ∃ ext, layer = String "." ext ∧ ext ≠ "" ∧ lacks "." ext.
Proof.
  unfold compression_suffixes.
  rewrite !elem_of_cons, elem_of_nil.
  intros [->|[->|[->|[->|[]]]]]; eexists; (split; [reflexivity|done]).
Qed.

Lemma nonempty_true (s : string) : PyStr.nonempty s = true ↔ s ≠ "".
Proof. by destruct s. Qed.



Definition with_name (p : PurePosixPath.t) (n : string) : PurePosixPath.t :=
  PurePosixPath.mk (PurePosixPath.root p)
                   (removelast (PurePosixPath.parts p) ++ [n]).

Lemma name_with_name (p : PurePosixPath.t) (n : string) :
  PurePosixPath.name (with_name p n) = n.
Proof. unfold PurePosixPath.name, with_name. simpl. by rewrite last_snoc. Qed.












(** ** Paths and URLs of a plain shape *)





























(** ** Decimal numerals *)














(** ** The record of a locked package in the synthetic environment *)







(** ** Entries filed by name *)

Definition named (n : string) (a : Action.t) : Prop := Action.name a = Some n.

Lemma by_name_from_spec (l : list Action.t) (acc m : gmap string Action.t) :
  by_name_from acc l = Ok m →
  (∀ p, p ∈ l → ∃ n, named n p ∧ is_Some (m !! n))
  ∧ (∀ n, is_Some (acc !! n) → is_Some (m !! n))
  ∧ (∀ n p, m !! n = Some p → acc !! n = Some p ∨ (p ∈ l ∧ named n p)).
Proof.
  revert acc. induction l as [|q l IH]; intros acc Hm; simpl in Hm.
  - injection Hm as <-. split; [|split].
    + intros p Hp. by apply elem_of_nil in Hp.
    + done.
    + intros n p Hp. by left.
  - inv_ok. destruct (IH _ Hm) as (Hin & Hacc & Hout). split; [|split].
    + intros p [->|Hp]%elem_of_cons; [|by apply Hin].
      eexists. split; [done|]. apply Hacc. by rewrite lookup_insert_eq.
    + intros n Hn. apply Hacc.
      destruct (decide (a = n)) as [->|Hne].
      * by rewrite lookup_insert_eq.
      * by rewrite lookup_insert_ne.
    + intros n p Hp. destruct (Hout n p Hp) as [Hins|[Hl Hn]].
      * destruct (decide (a = n)) as [->|Hne].
        -- rewrite lookup_insert_eq in Hins. injection Hins as <-.
           right. split; [left|done].
        -- rewrite lookup_insert_ne in Hins by done. by left.
      * right. split; [by right|done].
Qed.

Lemma by_name_elem_of (l : list Action.t) (m : gmap string Action.t)
    (p : Action.t) :
  by_name l = Ok m → p ∈ l → ∃ n, named n p ∧ n ∈ dom m.
Proof.
  intros Hm Hp. destruct (by_name_from_spec _ _ _ Hm) as (Hin & _).
  destruct (Hin p Hp) as (n & Hn & Hs). exists n. split; [done|].
  by apply elem_of_dom.
Qed.

Lemma by_name_lookup (l : list Action.t) (m : gmap string Action.t)
    (n : string) (p : Action.t) :
  by_name l = Ok m → m !! n = Some p → p ∈ l ∧ named n p.
Proof.
  intros Hm Hp. destruct (by_name_from_spec _ _ _ Hm) as (_ & _ & Hout).
  destruct (Hout n p Hp) as [Hempty|?]; [|done].
  by rewrite lookup_empty in Hempty.
Qed.


(** ** Loops that leave the world as it is *)

Definition static {A} (m : M A) : Prop := ∀ w, (m w).2 = w.

Lemma static_ret {A} (a : A) : static (mret a).
Proof. done. Qed.

Lemma static_raise {A} (e : exn) : static (@raise A e).
Proof. done. Qed.

Lemma static_lift {A} (r : result A) : static (lift r).
Proof. done. Qed.

Lemma static_get_fs : static get_fs.
Proof. done. Qed.

Lemma static_bind {A B} (m : M A) (k : A → M B) :
  static m → (∀ a, static (k a)) → static (m ≫= k).
Proof.
  intros Hm Hk w. unfold mbind, M_bind. specialize (Hm w).
  destruct (m w) as [[a|e] w1]; simpl in *; subst; [apply Hk|done].
Qed.

Lemma for_list_static {A B} (l : list A) (body : A → M B) (w w' : World)
    (ys : list B) :
  (∀ x, static (body x)) →
  for_list l body w = (Ok ys, w') →
  w' = w ∧ Forall2 (λ x y, body x w = (Ok y, w)) l ys.
Proof.
  intros Hs. revert ys. induction l as [|x l IH]; intros ys Hrun; simpl in Hrun.
  - inv_ok. by split; [|constructor].
  - inv_ok.
    match goal with
    | Hx : body x w = (Ok ?y, ?w1) |- _ =>
        pose proof (Hs x w) as Hw; rewrite Hx in Hw; simpl in Hw; subst w1
    end.
    match goal with
    | Hl : for_list l body w = _ |- _ => destruct (IH _ Hl) as [-> Hall]
    end.
    split; [done|]. by constructor.
Qed.

(** ** [_reconstruct_fetch_actions]: every LINK entry gets a FETCH entry *)

Definition complete (f : FetchAction) : Prop :=
  is_Some (Action.url f) ∧ is_Some (Action.name f)
  ∧ is_Some (Action.version f).

Section Reconstruct.
Context `{Host}.


Lemma static_open_read (path : string) : static (open_read path).
Proof. intros w. unfold open_read. by destruct (fs w !! path) as [[]|]. Qed.

Lemma static_loads (text : string) : static (loads text).
Proof. intros w. unfold loads. by destruct (json_loads text). Qed.

Lemma static_cached_repodata (pkgs_dirs : list string) (l : LinkAction) :
  static (cached_repodata pkgs_dirs l).
Proof.
  unfold cached_repodata.
  apply static_bind; [apply static_lift|intros dist_name].
  apply static_bind; [apply static_get_fs|intros f].
  destruct (find_record f pkgs_dirs dist_name); [|apply static_raise].
  apply static_bind; [apply static_open_read|intros text].
  apply static_bind; [apply static_loads|intros doc]. apply static_ret.
Qed.


Lemma find_record_none (f : gmap string node) (pkgs_dirs : list string)
    (dist_name : string) :
  find_record f pkgs_dirs dist_name = None ↔
  ∀ pkgs_dir, pkgs_dir ∈ pkgs_dirs →
              f !! repodata_record pkgs_dir dist_name = None.
Proof.
  induction pkgs_dirs as [|d ds IH]; simpl.
  - split; [intros _ d Hd; by apply elem_of_nil in Hd|done].
  - case_bool_decide as Hd.
    + split; [done|]. intros Hall. destruct Hd as [n Hn].
      rewrite Hall in Hn; [done|left].
    + rewrite IH. split.
      * intros Hall d' [->|?]%elem_of_cons; [|by apply Hall].
        by apply eq_None_not_Some.
      * intros Hall d' ?. apply Hall. by right.
Qed.


Lemma copy_link_action_ok (it : LinkAction) (f : FetchAction) :
  copy_link_action it = Ok f →
  Action.name f = Action.name it ∧ complete f.
Proof.
  unfold copy_link_action. intros Hc. inv_ok.
  split; [by symmetry|]. by repeat split.
Qed.



Lemma set_iter_elem_of (X : gset string) (n : string) :
  n ∈ set_iter X ↔ n ∈ X.
Proof. by rewrite (set_iter_perm X), elem_of_elements. Qed.


End Reconstruct.

Lemma finally_ok_inv {A} (m : M A) (cleanup : World → World) (w w' : World)
    (a : A) :
  finally m cleanup w = (Ok a, w') →
  ∃ w1, m w = (Ok a, w1) ∧ w' = cleanup w1.
Proof.
  unfold finally. destruct (m w) as [r w1]. intros [= -> <-]. by exists w1.
Qed.

(** The claim of C1 about a plan: every LINK entry has a FETCH entry of
    the same name with a URL, a name and a version. *)
Definition links_matched (plan : DryRunInstall) : Prop :=
  ∃ acts link fetch,
    actions plan = Some acts ∧ LINK acts = Some link ∧ FETCH acts = Some fetch
    ∧ ∀ l, l ∈ link →
        ∃ r, r ∈ fetch ∧ Action.name r = Action.name l ∧ complete r.

(** ** The temporary directory of an update *)

Lemma rmtree_lookup_under (dir p : string) (f : gmap string node) :
  under dir p = true → rmtree dir f !! p = None.
Proof.
  intros Hu. unfold rmtree. apply map_lookup_filter_None. right.
  intros n _. simpl. by rewrite Hu.
Qed.

Lemma rmtree_lookup_outside (dir p : string) (f : gmap string node) :
  under dir p = false → rmtree dir f !! p = f !! p.
Proof.
  intros Hu. unfold rmtree. destruct (f !! p) as [n|] eqn:Hp.
  - by apply map_lookup_filter_Some.
  - apply map_lookup_filter_None. by left.
Qed.

Lemma under_refl (dir : string) : under dir dir = true.
Proof. unfold under. by rewrite String.eqb_refl. Qed.

Lemma startswith_app (p s : string) : PyStr.startswith p (p +:+ s) = true.
Proof.
  induction p as [|c p IH]; [done|]. rewrite sapp_cons. simpl.
  by rewrite eqc_refl, IH.
Qed.

Lemma under_join (dir child : string) : under dir (dir // child) = true.
Proof.
  unfold under, path_join. rewrite <- sapp_assoc.
  by rewrite startswith_app, orb_true_r.
Qed.

Lemma path_join_longer (dir child : string) :
  String.length dir < String.length (dir // child).
Proof. unfold path_join. rewrite !sapp_length. simpl. lia. Qed.

Lemma path_join_ne (dir child : string) : dir // child ≠ dir.
Proof.
  intros Heq. pose proof (path_join_longer dir child) as Hlen.
  rewrite Heq in Hlen. lia.
Qed.

Lemma path_join_2_ne (dir a b : string) : dir // a // b ≠ dir.
Proof.
  intros Heq. pose proof (path_join_longer dir a).
  pose proof (path_join_longer (dir // a) b) as Hlen.
  rewrite Heq in Hlen. lia.
Qed.

Definition quiet {A} (m : M A) : Prop := ∀ w, calls (m w).2 = calls w.

Lemma quiet_bind {A B} (m : M A) (k : A → M B) :
  quiet m → (∀ a, quiet (k a)) → quiet (m ≫= k).
Proof.
  intros Hm Hk w. unfold mbind, M_bind. specialize (Hm w).
  destruct (m w) as [[a|e] w1]; simpl in *; [|done].
  by rewrite Hk.
Qed.

Lemma quiet_for_each {A} (l : list A) (body : A → M unit) :
  (∀ x, quiet (body x)) → quiet (for_each l body).
Proof.
  intros Hb. induction l as [|x l IH]; simpl; [done|].
  apply quiet_bind; [apply Hb|intros _; exact IH].
Qed.

Section Scoped.
Context `{Host}.

Lemma quiet_write_metadata (prefix : string) (locked : list LockedDependency.t)
    (platform : string) : quiet (write_metadata prefix locked platform).
Proof.
  unfold write_metadata, mkdir, touch, write_file.
  apply quiet_bind.
  { apply quiet_bind; [done|]. by intros []. }
  intros _. apply quiet_bind.
  { apply quiet_bind; [done|]. by intros []. }
  intros _. apply quiet_for_each. intros dep.
  apply quiet_bind; [done|]. by intros [file_name entry].
Qed.

(** The files that [write_metadata] writes lie in [conda-meta], so the two
    directories stay. *)
Lemma write_metadata_keeps_dirs (prefix : string) (locked : list LockedDependency.t)
    (platform : string) (w w' : World) :
  fs w !! prefix = Some Dir →
  write_metadata prefix locked platform w = (Ok (), w') →
  fs w' !! prefix = Some Dir
  ∧ fs w' !! (prefix // "conda-meta") = Some Dir.
Proof.
  intros Hprefix. unfold write_metadata. intros Hrun.
  apply bind_ok_inv in Hrun as ([] & w1 & Hmkdir & Hrun).
  apply bind_ok_inv in Hrun as ([] & w2 & Htouch & Hrun).
  assert (fs w1 !! prefix = Some Dir
          ∧ fs w1 !! (prefix // "conda-meta") = Some Dir) as Hw1.
  { unfold mkdir, exists_, mbind, M_bind in Hmkdir.
    case_bool_decide; [done|]. injection Hmkdir as <-. simpl.
    rewrite lookup_insert_eq, lookup_insert_ne by apply path_join_ne. done. }
  assert (fs w2 !! prefix = Some Dir
          ∧ fs w2 !! (prefix // "conda-meta") = Some Dir) as Hw2.
  { unfold touch, exists_, mbind, M_bind in Htouch.
    case_bool_decide; injection Htouch as <-; [done|]. simpl.
    rewrite !lookup_insert_ne; [done|apply path_join_ne|apply path_join_2_ne]. }
  clear Hmkdir Htouch Hw1 Hprefix. revert w2 Hw2 Hrun.
  induction (List.filter (is_conda_for platform) locked) as [|dep deps IH];
    intros w2 Hw2 Hrun; simpl in Hrun.
  - apply mret_ok_inv in Hrun as [_ ->]. done.
  - apply bind_ok_inv in Hrun as ([] & w3 & Hwrite & Hrun).
    apply (IH w3); [|done].
    apply bind_ok_inv in Hwrite as ([file_name entry] & w4 & Hentry & Hwrite).
    apply lift_ok_inv in Hentry as [_ ->].
    unfold write_file, modify_fs in Hwrite. injection Hwrite as <-. simpl.
    rewrite !lookup_insert_ne; [done|apply path_join_ne|apply path_join_2_ne].
Qed.

Lemma log_mono_update_dry_run (conda prefix : string) (channels : list string)
    (platform : string) (installed : gmap string Action.t)
    (update to_update : list string) :
  log_mono (update_dry_run conda prefix channels platform installed update
              to_update).
Proof. unfold update_dry_run, update_args, write_pins. mono. Qed.

Definition starts_with {A} (m : M A) (args : list string)
    (env : list (string * string)) : Prop :=
  ∀ w, ∃ later, calls (m w).2 = calls w ++ mkCall args env (fs w) :: later.

Lemma starts_with_run (args : list string) (env : list (string * string)) :
  starts_with (run args env) args env.
Proof.
  intros w. unfold run. destruct (run_tool _ _ _). by exists [].
Qed.

Lemma starts_with_bind {A B} (m : M A) (k : A → M B) (args : list string)
    (env : list (string * string)) :
  starts_with m args env → (∀ a, log_mono (k a)) → starts_with (m ≫= k) args env.
Proof.
  intros Hm Hk w. destruct (Hm w) as [later Hlater].
  unfold mbind, M_bind. destruct (m w) as [[a|e] w1]; simpl in *.
  - destruct (Hk a w1) as [more Hmore]. exists (later ++ more).
    rewrite Hmore, Hlater. by rewrite <- app_assoc.
  - by exists later.
Qed.

Lemma starts_with_update_in_prefix (conda : string) (specs : list string)
    (locked : PyDict.t LockedDependency.t) (update : list string)
    (platform : string) (channels : list string) (prefix : string) :
  starts_with
    (update_in_prefix conda specs locked update platform channels prefix)
    [conda; "list"; "-p"; prefix; "--json"] (conda_env_override platform).
Proof.
  unfold update_in_prefix, list_installed, check_output.
  repeat (apply starts_with_bind; [|intros ?]); try apply starts_with_run;
    try (pose proof log_mono_update_dry_run; mono).
Qed.

(** The context manager as one step: the directory is made, the block
    runs, the directory goes. *)
Lemma fake_conda_environment_run {A} (locked : list LockedDependency.t)
    (platform : string) (body : string → M A) (w : World) :
  let prefix := mkdtemp (fs w) in
  let block := (_ ← write_metadata prefix locked platform; body prefix)
                 (set_fs (<[prefix := Dir]> (fs w)) w) in
  fake_conda_environment locked platform body w
  = (block.1, set_fs (rmtree prefix (fs block.2)) block.2).
Proof.
  intros prefix block. unfold block, prefix.
  unfold fake_conda_environment, finally, get_fs, modify_fs.
  unfold mbind at 1 2, M_bind.
  by destruct ((_ ← write_metadata _ _ _; body _) _) as [r w3].
Qed.

(** C9. The directory of the synthetic environment is new when
    [update_specs_for_arch] makes it, it is there (with [conda-meta]) when
    the tool is first run, and neither it nor anything below it is left
    when the call is over, whether the call returns or raises. *)
Theorem C9_temporary_directory_scoped
    (conda : string) (specs : list string)
    (locked : PyDict.t LockedDependency.t) (update : list string)
    (platform : string) (channels : list string) (w : World) :
  let prefix := mkdtemp (fs w) in
  let out := update_specs_for_arch conda specs locked update platform channels w in
  (* the directory is new: nothing was there or below *)
  (∀ p, under prefix p = true → fs w !! p = None)
  (* it is there, with [conda-meta], when the tool is first run, and the
     first run is the listing of the directory *)
  ∧ (∀ c later, calls out.2 = calls w ++ c :: later →
       call_args c = [conda; "list"; "-p"; prefix; "--json"]
       ∧ call_fs c !! prefix = Some Dir
       ∧ call_fs c !! (prefix // "conda-meta") = Some Dir)
  (* it is gone when the call is over, whether it returns or raises *)
  ∧ (∀ p, under prefix p = true → fs out.2 !! p = None).
Proof.
  intros prefix out. split; [apply mkdtemp_fresh|].
  unfold out, update_specs_for_arch. rewrite fake_conda_environment_run.
  fold prefix. cbv zeta. set (w0 := set_fs (<[prefix:=Dir]> (fs w)) w).
  split; [|intros p Hp; by apply rmtree_lookup_under].
  intros c later. simpl. unfold mbind, M_bind.
  pose proof (quiet_write_metadata prefix (PyDict.values locked) platform w0)
    as Hquiet.
  destruct (write_metadata prefix (PyDict.values locked) platform w0)
    as [[[]|e] w1] eqn:Hmeta; simpl in *.
  - destruct (starts_with_update_in_prefix conda specs locked update platform
                channels prefix w1) as [more Hmore].
    rewrite Hmore, Hquiet. intros [= <- _]%app_inv_head. simpl.
    split; [done|].
    eapply write_metadata_keeps_dirs; [|exact Hmeta].
    apply lookup_insert_eq.
  - rewrite Hquiet. intros Heq.
    apply (f_equal length) in Heq. rewrite length_app in Heq. simpl in Heq. lia.
Qed.

End Scoped.

(** ** Packages carried over from the previous lock *)

Section Carry.
Context `{Host}.

(** The FETCH entry made for the installed [entry] filed under [package]:
    version from the installed record; channel, file name and URL from
    its base URL, platform and distribution name; checksum and
    dependencies from the previous lock. *)
Definition carried (conda : string) (locked : PyDict.t LockedDependency.t)
    (package : string) (entry : LinkAction) (r : FetchAction) : Prop :=
  ∃ name version dist_name base_url platform prior prior',
    Action.name entry = Some name
    ∧ Action.version entry = Some version
    ∧ Action.dist_name entry = Some dist_name
    ∧ Action.base_url entry = Some base_url
    ∧ Action.platform entry = Some platform
    ∧ PyDict.get package locked = Some prior
    ∧ PyDict.get name locked = Some prior'
    ∧ let fn := dist_name +:+ ".tar.bz2" in
      let channel := if is_micromamba conda then base_url
                     else base_url +:+ "/" +:+ platform in
      r = Action.mk (Some name) (Some version) (Some (channel +:+ "/" +:+ fn))
            (Some (LockedDependency.hash prior)) (Some fn) (Some channel)
            (Some platform) (Some 0%Z)
            (Some (render_depends (LockedDependency.dependencies prior')))
            (Some []) None None None.

Lemma carry_one_ok (conda : string) (locked : PyDict.t LockedDependency.t)
    (installed : gmap string Action.t) (acts acts' : InstallActions)
    (package : string) :
  carry_one conda locked installed acts package = Ok acts' →
  ∃ entry r link fetch,
    installed !! package = Some entry
    ∧ LINK acts = Some link ∧ FETCH acts = Some fetch
    ∧ acts' = mkInstallActions (Some (link ++ [entry])) (Some (fetch ++ [r]))
    ∧ carried conda locked package entry r.
Proof.
  unfold carry_one. intros Hc.
  apply rbind_ok_inv in Hc as (entry & Hentry%item_ok_inv & Hc).
  apply rbind_ok_inv in Hc as (dist_name & Hdist%item_ok_inv & Hc).
  apply rbind_ok_inv in Hc as (channel & Hchannel & Hc).
  apply rbind_ok_inv in Hc as (prior & Hprior%item_ok_inv & Hc).
  apply rbind_ok_inv in Hc as (fetch & Hfetch%item_ok_inv & Hc).
  apply rbind_ok_inv in Hc as (name & Hname%item_ok_inv & Hc).
  apply rbind_ok_inv in Hc as (version & Hversion%item_ok_inv & Hc).
  apply rbind_ok_inv in Hc as (prior' & Hprior'%item_ok_inv & Hc).
  apply rbind_ok_inv in Hc as (platform & Hplatform%item_ok_inv & Hc).
  apply rbind_ok_inv in Hc as (link & Hlink%item_ok_inv & Hc).
  injection Hc as <-.
  eexists entry, _, link, fetch. repeat (split; [done|]).
  assert (∃ base_url, Action.base_url entry = Some base_url
            ∧ channel = if is_micromamba conda then base_url
                        else base_url +:+ "/" +:+ platform)
    as (base_url & Hbase & ->).
  { destruct (is_micromamba conda).
    - apply item_ok_inv in Hchannel. by exists channel.
    - apply rbind_ok_inv in Hchannel as (b & Hb%item_ok_inv & Hchannel).
      apply rbind_ok_inv in Hchannel as (p & Hp%item_ok_inv & Hchannel).
      injection Hchannel as <-. exists b. split; [done|]. congruence. }
  by exists name, version, dist_name, base_url, platform, prior, prior'.
Qed.

Lemma carry_forward_ok (conda : string) (locked : PyDict.t LockedDependency.t)
    (installed : gmap string Action.t) (packages : list string)
    (acts acts' : InstallActions) :
  carry_forward conda locked installed packages acts = Ok acts' →
  ∃ pairs : list (LinkAction * FetchAction),
    Forall2 (λ package pair,
               installed !! package = Some pair.1
               ∧ carried conda locked package pair.1 pair.2)
            packages pairs
    ∧ default [] (LINK acts') = default [] (LINK acts) ++ pairs.*1
    ∧ default [] (FETCH acts') = default [] (FETCH acts) ++ pairs.*2
    ∧ (packages = [] → acts' = acts)
    ∧ (packages ≠ [] → is_Some (LINK acts') ∧ is_Some (FETCH acts')).
Proof.
  revert acts. induction packages as [|package rest IH]; intros acts Hc;
    simpl in Hc.
  - injection Hc as <-. exists []. rewrite !app_nil_r.
    split; [constructor|]. by repeat split.
  - apply rbind_ok_inv in Hc as (acts1 & Hone & Hc).
    apply carry_one_ok in Hone
      as (entry & r & link & fetch & Hentry & Hlink & Hfetch & -> & Hcarried).
    destruct (IH _ Hc) as (pairs & Hall & Hl & Hf & Hnil & Hcons).
    exists ((entry, r) :: pairs). simpl in *.
    split; [by constructor|].
    rewrite Hl, Hf, Hlink, Hfetch. simpl. rewrite <- !app_assoc.
    repeat split; try done.
    + destruct rest; [by rewrite Hnil|by apply Hcons].
    + destruct rest; [by rewrite Hnil|by apply Hcons].
Qed.


End Carry.

(** ** The steps of [update_specs_for_arch] *)

Definition no_actions : InstallActions := mkInstallActions (Some []) (Some []).

Section Update.
Context `{Host}.

(** The names of [installed] that are to be updated, as specifications. *)
Definition specs_to_update (specs update : list string)
    (installed : gmap string Action.t) : result (list string) :=
  map_result (λ name, item name (spec_for_name specs !! name))
             (set_iter (dom installed ∩ list_to_set update)).

(** What follows the listing of the synthetic environment. *)
Definition after_listing (conda : string) (specs : list string)
    (locked : PyDict.t LockedDependency.t) (update : list string)
    (platform : string) (channels : list string) (prefix : string)
    (installed : gmap string Action.t) : M DryRunInstall :=
  to_update ← lift (specs_to_update specs update installed);
  dryrun_install ← update_dry_run conda prefix channels platform installed
                     update to_update;
  plan ← lift (complete_plan conda locked installed dryrun_install);
  _reconstruct_fetch_actions conda platform plan.

Definition listing (conda prefix platform : string) (f : gmap string node)
  : Call :=
  mkCall [conda; "list"; "-p"; prefix; "--json"] (conda_env_override platform) f.

Lemma list_installed_calls (conda prefix platform : string) (w w' : World)
    (installed : gmap string Action.t) :
  list_installed conda prefix platform w = (Ok installed, w') →
  calls w' = calls w ++ [listing conda prefix platform (fs w)].
Proof.
  unfold list_installed, check_output. intros Hrun.
  apply bind_ok_inv in Hrun as (out & w1 & Hout & Hrun).
  rewrite bind_run in Hout.
  apply bind_ok_inv in Hrun as (doc & w2 & Hdoc & Hrun).
  apply lift_ok_inv in Hrun as [_ ->].
  unfold loads in Hdoc. destruct (json_loads out); [|done].
  apply mret_ok_inv in Hdoc as [_ ->].
  destruct (returncode _ =? 0)%Z; [|done].
  apply mret_ok_inv in Hout as [_ ->]. done.
Qed.

Lemma bind_eval {A B} (m : M A) (k : A → M B) (w w' : World) (a : A) :
  m w = (Ok a, w') → (m ≫= k) w = k a w'.
Proof. intros Hm. unfold mbind, M_bind. by rewrite Hm. Qed.

Lemma bind_eval_raise {A B} (m : M A) (k : A → M B) (w w' : World) (e : exn) :
  m w = (Raise e, w') → (m ≫= k) w = (Raise e, w').
Proof. intros Hm. unfold mbind, M_bind. by rewrite Hm. Qed.

(** The call, given that the synthetic environment was written and
    listed. *)
Lemma update_specs_forward (conda : string) (specs : list string)
    (locked : PyDict.t LockedDependency.t) (update : list string)
    (platform : string) (channels : list string) (w w1 w2 : World)
    (installed : gmap string Action.t) :
  let prefix := mkdtemp (fs w) in
  write_metadata prefix (PyDict.values locked) platform
    (set_fs (<[prefix := Dir]> (fs w)) w) = (Ok (), w1) →
  list_installed conda prefix platform w1 = (Ok installed, w2) →
  let rest := after_listing conda specs locked update platform channels prefix
                installed w2 in
  update_specs_for_arch conda specs locked update platform channels w
  = (rest.1, set_fs (rmtree prefix (fs rest.2)) rest.2).
Proof.
  intros prefix Hmeta Hlist rest.
  unfold update_specs_for_arch. rewrite fake_conda_environment_run.
  fold prefix. cbv zeta.
  rewrite (bind_eval _ _ _ _ _ Hmeta).
  unfold update_in_prefix.
  by rewrite (bind_eval _ _ _ _ _ Hlist).
Qed.

(** A returned call went through all the steps. *)
Lemma update_specs_steps (conda : string) (specs : list string)
    (locked : PyDict.t LockedDependency.t) (update : list string)
    (platform : string) (channels : list string) (w w' : World)
    (plan' : DryRunInstall) :
  update_specs_for_arch conda specs locked update platform channels w
  = (Ok plan', w') →
  ∃ w1 installed w2 to_update dryrun w3 plan w4,
    list_installed conda (mkdtemp (fs w)) platform w1 = (Ok installed, w2)
    ∧ specs_to_update specs update installed = Ok to_update
    ∧ update_dry_run conda (mkdtemp (fs w)) channels platform installed update
        to_update w2 = (Ok dryrun, w3)
    ∧ complete_plan conda locked installed dryrun = Ok plan
    ∧ _reconstruct_fetch_actions conda platform plan w3 = (Ok plan', w4).
Proof.
  unfold update_specs_for_arch. rewrite fake_conda_environment_run. cbv zeta.
  intros [= Hrun _].
  destruct ((_ ← write_metadata _ _ _; update_in_prefix _ _ _ _ _ _ _) _)
    as [r w4] eqn:Hblock.
  simpl in Hrun. subst r.
  apply bind_ok_inv in Hblock as ([] & w1 & _ & Hblock).
  unfold update_in_prefix in Hblock.
  apply bind_ok_inv in Hblock as (installed & w2 & Hlist & Hblock).
  apply bind_ok_inv in Hblock as (to_update & w5 & Hto & Hblock).
  apply lift_ok_inv in Hto as [Hto ->].
  apply bind_ok_inv in Hblock as (dryrun & w3 & Hdry & Hblock).
  apply bind_ok_inv in Hblock as (plan & w5 & Hplan & Hblock).
  apply lift_ok_inv in Hplan as [Hplan ->].
  by exists w1, installed, w2, to_update, dryrun, w3, plan, w4.
Qed.





End Update.

(** ** Nothing to update *)

Lemma by_name_from_total (l : list Action.t) (acc : gmap string Action.t) :
  Forall (λ p, is_Some (Action.name p)) l →
  ∃ m, by_name_from acc l = Ok m
       ∧ dom m = dom acc ∪ list_to_set (omap Action.name l).
Proof.
  intros Hall. revert acc. induction Hall as [|p l [n Hn] _ IH]; intros acc.
  - exists acc. split; [done|]. simpl. set_solver.
  - simpl. rewrite Hn. simpl.
    destruct (IH (<[n := p]> acc)) as (m & Hm & Hdom).
    exists m. split; [done|]. rewrite Hdom, dom_insert_L. set_solver.
Qed.

Lemma by_name_total (l : list Action.t) :
  Forall (λ p, is_Some (Action.name p)) l →
  ∃ m, by_name l = Ok m ∧ dom m = list_to_set (omap Action.name l).
Proof.
  intros Hall. destruct (by_name_from_total l ∅ Hall) as (m & Hm & Hdom).
  exists m. split; [done|]. rewrite Hdom. set_solver.
Qed.

Section Nothing.
Context `{Host}.

Lemma set_iter_empty : set_iter ∅ = [].
Proof.
  apply Permutation_nil_r. rewrite (set_iter_perm ∅). by rewrite elements_empty.
Qed.

(** A plan whose LINK entries all have FETCH entries of their names is
    returned as it is, and the tool is not asked for its caches. *)
Lemma reconstruct_matched (conda platform : string) (link fetch : list Action.t)
    (link_actions fetch_actions : gmap string Action.t) (w : World) :
  by_name link = Ok link_actions → by_name fetch = Ok fetch_actions →
  dom link_actions ⊆ dom fetch_actions →
  _reconstruct_fetch_actions conda platform
    (mkDryRunInstall (Some (mkInstallActions (Some link) (Some fetch)))) w
  = (Ok (mkDryRunInstall (Some (mkInstallActions (Some link) (Some fetch)))), w).
Proof.
  intros Hlink Hfetch Hsub. unfold _reconstruct_fetch_actions.
  erewrite bind_eval by reflexivity. cbn [LINK FETCH default]. unfold id.
  erewrite bind_eval by (unfold lift; by rewrite Hlink).
  erewrite bind_eval by (unfold lift; by rewrite Hfetch).
  assert (dom link_actions ∖ dom fetch_actions = ∅) as -> by set_solver.
  rewrite set_iter_empty.
  rewrite bool_decide_eq_false_2 by (intros Hne; by apply Hne).
  destruct (is_micromamba conda); unfold mbind, M_bind, mret, M_ret; simpl;
    by rewrite app_nil_r.
Qed.

Lemma carried_names (conda : string) (locked : PyDict.t LockedDependency.t)
    (packages : list string) (installed : gmap string Action.t)
    (pairs : list (Action.t * Action.t)) :
  Forall2 (λ package pair,
             installed !! package = Some pair.1
             ∧ carried conda locked package pair.1 pair.2) packages pairs →
  Forall (λ p, is_Some (Action.name p)) pairs.*1
  ∧ Forall (λ p, is_Some (Action.name p)) pairs.*2
  ∧ omap Action.name pairs.*1 = omap Action.name pairs.*2.
Proof.
  induction 1 as [|package [entry r] packages pairs [_ Hc] _ IH]; [done|].
  destruct IH as (IH1 & IH2 & IH3).
  destruct Hc as (name & version & dist & base & platform & p1 & p2
                  & Hname & _ & _ & _ & _ & _ & _ & Hr).
  cbv zeta in Hr. cbn [fst snd] in *. subst r.
  rewrite !fmap_cons. cbn [fst snd].
  split; [constructor; [by rewrite Hname|done]|].
  split; [by constructor|].
  cbn [omap list_omap Action.name]. by rewrite Hname, IH3.
Qed.

(** C4 (as amended). When none of the names to update is installed in the
    synthetic environment, the tool is run for the listing of the
    environment and for nothing else, the plan of the dry run is the empty
    plan, and the call returns what the completion of that plan gives:
    every installed package carried over, so the returned plan is empty
    only if nothing is installed. *)
Theorem C4_nothing_to_update (conda : string) (specs : list string)
    (locked : PyDict.t LockedDependency.t) (update : list string)
    (platform : string) (channels : list string) (w w1 w2 : World)
    (installed : gmap string Action.t) :
  let prefix := mkdtemp (fs w) in
  let out := update_specs_for_arch conda specs locked update platform channels
               w in
  (* the synthetic environment is written and listed *)
  write_metadata prefix (PyDict.values locked) platform
    (set_fs (<[prefix := Dir]> (fs w)) w) = (Ok (), w1) →
  list_installed conda prefix platform w1 = (Ok installed, w2) →
  (* none of the names to update is installed *)
  dom installed ∩ list_to_set update = ∅ →
  (* the tool is run for the listing and for nothing else *)
  calls out.2 = calls w ++ [listing conda prefix platform (fs w1)]
  (* the plan of the dry run is the empty plan, completed as any other *)
  ∧ out.1 = complete_plan conda locked installed empty_plan
  (* so every installed package is carried over *)
  ∧ (∀ plan, out.1 = Ok plan →
       ∃ pairs,
         Forall2 (λ package pair,
                    installed !! package = Some pair.1
                    ∧ carried conda locked package pair.1 pair.2)
                 (set_iter (dom installed)) pairs
         ∧ actions plan
           = Some (mkInstallActions (Some pairs.*1) (Some pairs.*2))).
Proof.
  intros prefix out Hmeta Hlist Hempty.
  assert (∀ plan, complete_plan conda locked installed empty_plan = Ok plan →
            ∃ pairs,
              Forall2 (λ package pair,
                         installed !! package = Some pair.1
                         ∧ carried conda locked package pair.1 pair.2)
                      (set_iter (dom installed)) pairs
              ∧ plan = mkDryRunInstall
                         (Some (mkInstallActions (Some pairs.*1)
                                                 (Some pairs.*2)))) as Hshape.
  { intros plan Hplan. unfold complete_plan in Hplan. simpl in Hplan.
    unfold mbind, result_bind_inst, result_bind in Hplan.
    replace (dom installed ∖ dom (∅ : gmap string Action.t))
      with (dom installed) in Hplan by set_solver.
    destruct (carry_forward _ _ _ _ _) as [acts'|e] eqn:Hcarry; [|done].
    injection Hplan as <-.
    apply carry_forward_ok in Hcarry as (pairs & Hall & Hl & Hf & Hnil & Hcons).
    exists pairs. split; [done|]. simpl in Hl, Hf.
    destruct (set_iter (dom installed)) as [|p ps] eqn:Hiter.
    - rewrite Hnil by done. by inversion Hall.
    - destruct Hcons as [[link Hlink] [fetch Hfetch]]; [done|].
      destruct acts' as [l f]. simpl in *. subst l f. simpl in *.
      by subst link fetch. }
  unfold out, prefix. rewrite (update_specs_forward _ _ _ _ _ _ _ _ _ _ Hmeta Hlist).
  cbv zeta. unfold after_listing, specs_to_update.
  rewrite Hempty, set_iter_empty. simpl map_result.
  assert (∀ k : list string → M DryRunInstall,
            (lift (Ok []) ≫= k) w2 = k [] w2) as -> by done.
  assert (∀ k : DryRunInstall → M DryRunInstall,
            (update_dry_run conda (mkdtemp (fs w)) channels platform installed
               update [] ≫= k) w2 = k empty_plan w2) as -> by done.
  assert (calls w2 = calls w ++ [listing conda (mkdtemp (fs w)) platform (fs w1)])
    as Hcalls.
  { rewrite (list_installed_calls _ _ _ _ _ _ Hlist). f_equal.
    pose proof (quiet_write_metadata prefix (PyDict.values locked) platform
                  (set_fs (<[prefix := Dir]> (fs w)) w)) as Hquiet.
    rewrite Hmeta in Hquiet. exact Hquiet. }
  destruct (complete_plan conda locked installed empty_plan) as [plan|e]
    eqn:Hplan.
  - destruct (Hshape plan eq_refl) as (pairs & Hall & ->).
    destruct (carried_names _ _ _ _ _ Hall) as (Hn1 & Hn2 & Hsame).
    destruct (by_name_total _ Hn1) as (la & Hla & Hdla).
    destruct (by_name_total _ Hn2) as (fa & Hfa & Hdfa).
    pose proof (reconstruct_matched conda platform _ _ _ _ w2 Hla Hfa) as Hrec.
    rewrite Hdla, Hdfa, Hsame in Hrec. specialize (Hrec ltac:(done)).
    assert (∀ k : DryRunInstall → M DryRunInstall,
              (lift (Ok (mkDryRunInstall
                           (Some (mkInstallActions (Some pairs.*1)
                                                   (Some pairs.*2))))) ≫= k) w2
              = k (mkDryRunInstall
                     (Some (mkInstallActions (Some pairs.*1) (Some pairs.*2))))
                  w2) as -> by done.
    rewrite Hrec. simpl. split; [done|]. split; [done|].
    intros plan [= <-]. by exists pairs.
  - assert (∀ k : DryRunInstall → M DryRunInstall,
              (lift (Raise e) ≫= k) w2 = (Raise e, w2)) as -> by done.
    simpl. split; [done|]. split; [done|]. by intros plan.
Qed.

End Nothing.

(** ** The pin file of mamba *)







Section Pins.
Context `{Host}.





End Pins.

Lemma bind_assoc {A B C} (m : M A) (k : A → M B) (k' : B → M C) (w : World) :
  ((m ≫= k) ≫= k') w = (m ≫= λ a, k a ≫= k') w.
Proof. unfold mbind, M_bind. by destruct (m w) as [[a|e] w1]. Qed.

Section PinsTheorem.
Context `{Host}.



End PinsTheorem.

(** ** Failures of the solver *)

Section Failures.
Context `{Host}.

(** The message reported for the output of a failed solve, and whether it
    is shown: the [message] of the document, else the whole document,
    else the output as it is. *)
Definition reported (out : string) : string * bool :=
  match json_loads out with
  | Some doc =>
      match j_message doc with
      | Some message => (message, PyStr.nonempty message)
      | None => (j_str doc, j_truthy doc)
      end
  | None => (out, PyStr.nonempty out)
  end.

Definition platform_line (platform : string) : string :=
  "Could not lock the environment for platform " +:+ platform.

(** The world after the tool was run on [args]. *)
Definition ran (args : list string) (env : list (string * string)) (w : World)
  : World :=
  mkWorld (run_tool args env (fs w)).2 (stderr w) (stdout w)
          (calls w ++ [mkCall args env (fs w)]).

Lemma error_message_reported (out : string) (w : World) :
  ∃ before w',
    error_message out w = (Ok (reported out), w')
    ∧ stderr w' = stderr w ++ before.
Proof.
  unfold error_message, reported.
  destruct (json_loads out) as [doc|].
  - destruct (j_message doc) as [message|].
    + exists [], w. by rewrite app_nil_r.
    + eexists [], _. split; [reflexivity|]. simpl. by rewrite app_nil_r.
  - eexists [_], _. split; reflexivity.
Qed.

Lemma print_proc_stderr (args : list string) (proc : Proc) (w : World) :
  ∃ after w',
    print_proc args proc w = (Ok (), w') ∧ stderr w' = stderr w ++ after.
Proof.
  unfold print_proc, print_stderr, mbind, M_bind, mret, M_ret.
  destruct (PyStr.nonempty (proc_stdout proc)),
           (PyStr.nonempty (proc_stderr proc)); simpl;
    eexists _, _; (split; [reflexivity|]); simpl;
    rewrite <- ?app_assoc; reflexivity.
Qed.

Lemma solve_failure (conda : string) (channels specs : list string)
    (platform : string) (w : World) :
  let args := solve_args conda channels specs platform in
  let proc := (run_tool args (conda_env_override platform) (fs w)).1 in
  let out := solve_specs_for_arch conda channels specs platform w in
  returncode proc ≠ 0%Z →
  out.1 = Raise (CalledProcessError (returncode proc) args)
  ∧ ∃ before after,
      stderr out.2
      = stderr w ++ before ++ [platform_line platform]
        ++ (if (reported (proc_stdout proc)).2
            then [(reported (proc_stdout proc)).1] else [])
        ++ after.
Proof.
  intros args proc out Hrc. unfold out, solve_specs_for_arch.
  rewrite bind_run. fold args proc.
  apply Z.eqb_neq in Hrc. rewrite Hrc.
  set (w1 := mkWorld _ _ _ _).
  destruct (error_message_reported (proc_stdout proc) w1)
    as (before & w2 & Hmsg & Hw2).
  rewrite !bind_assoc. rewrite (bind_eval _ _ _ _ _ Hmsg).
  destruct (reported (proc_stdout proc)) as [message shown].
  rewrite !bind_assoc.
  erewrite bind_eval; [|reflexivity].
  rewrite !bind_assoc.
  destruct shown.
  - erewrite bind_eval; [|reflexivity]. rewrite !bind_assoc.
    match goal with
    | |- context [(print_proc args proc ≫= _) ?w3] =>
        destruct (print_proc_stderr args proc w3) as (after & w4 & Hproc & Hw4)
    end.
    rewrite (bind_eval _ _ _ _ _ Hproc).
    split; [reflexivity|]. exists before, after. simpl.
    rewrite Hw4. simpl. rewrite Hw2. simpl. by rewrite <- !app_assoc.
  - erewrite bind_eval; [|reflexivity]. rewrite !bind_assoc.
    match goal with
    | |- context [(print_proc args proc ≫= _) ?w3] =>
        destruct (print_proc_stderr args proc w3) as (after & w4 & Hproc & Hw4)
    end.
    rewrite (bind_eval _ _ _ _ _ Hproc).
    split; [reflexivity|]. exists before, after. simpl.
    rewrite Hw4. simpl. rewrite Hw2. simpl. by rewrite <- !app_assoc.
Qed.

Lemma solve_success (conda : string) (channels specs : list string)
    (platform : string) (w : World) :
  let args := solve_args conda channels specs platform in
  let env := conda_env_override platform in
  let proc := (run_tool args env (fs w)).1 in
  returncode proc = 0%Z →
  solve_specs_for_arch conda channels specs platform w
  = (doc ← loads (proc_stdout proc);
     _reconstruct_fetch_actions conda platform (j_plan doc)) (ran args env w).
Proof.
  intros args env proc Hrc. unfold solve_specs_for_arch.
  rewrite bind_run. fold args env proc. rewrite Hrc. simpl Z.eqb. cbv iota.
  by erewrite bind_eval; [|reflexivity].
Qed.



End Failures.

(** ** Every LINK entry of a returned plan has a FETCH entry *)

Section Reconciled.
Context `{Host}.

(** [r] is the record that the package caches [pkgs_dirs] hold in [f] for
    the LINK entry [l]: the content of [repodata_record.json] under the
    distribution name of [l] in the first directory of the list, in its
    order, that has this path. *)
Definition cached_in (f : gmap string node) (pkgs_dirs : list string)
    (l : LinkAction) (r : FetchAction) : Prop :=
  ∃ dist_name before pkgs_dir after text doc,
    Action.dist_name l = Some dist_name
    ∧ pkgs_dirs = before ++ pkgs_dir :: after
    ∧ (∀ d, d ∈ before → f !! repodata_record d dist_name = None)
    ∧ f !! repodata_record pkgs_dir dist_name = Some (File text)
    ∧ json_loads text = Some doc
    ∧ r = j_record doc.

(** The run of [info --json] in the file system [f]. *)
Definition info_call (conda platform : string) (f : gmap string node)
  : Proc * gmap string node :=
  run_tool [conda; "info"; "--json"] (conda_env_override platform) f.

(** [pkgs_dirs] is the list of package caches that [info --json] reports
    in [f]: the tool exits with status 0 and prints a JSON document with
    this list under the key [pkgs_dirs]. *)
Definition reported_pkgs_dirs (conda platform : string)
    (f : gmap string node) (pkgs_dirs : list string) : Prop :=
  returncode (info_call conda platform f).1 = 0%Z
  ∧ ∃ doc, json_loads (proc_stdout (info_call conda platform f).1) = Some doc
           ∧ j_pkgs_dirs doc = Some pkgs_dirs.

(** [r] is the FETCH entry that the reconciliation started in the file
    system [f] adds for the LINK entry [l0]: its copy (micromamba), or the
    record that the package caches reported by [info --json] hold for it
    once the tool has run (conda, mamba). *)
Definition added_for (conda platform : string) (f : gmap string node)
    (l0 : LinkAction) (r : FetchAction) : Prop :=
  if is_micromamba conda then copy_link_action l0 = Ok r
  else ∃ pkgs_dirs,
         reported_pkgs_dirs conda platform f pkgs_dirs
         ∧ cached_in (info_call conda platform f).2 pkgs_dirs l0 r.

Lemma find_record_first (f : gmap string node) (pkgs_dirs : list string)
    (dist_name record : string) :
  find_record f pkgs_dirs dist_name = Some record →
  ∃ before pkgs_dir after,
    pkgs_dirs = before ++ pkgs_dir :: after
    ∧ (∀ d, d ∈ before → f !! repodata_record d dist_name = None)
    ∧ record = repodata_record pkgs_dir dist_name.
Proof.
  induction pkgs_dirs as [|d ds IH]; simpl; [done|].
  case_bool_decide as Hd.
  - intros [= <-]. exists [], d, ds. split; [done|].
    split; [by intros ? ?%elem_of_nil|done].
  - intros (before & pkgs_dir & after & -> & Hnone & ->)%IH.
    exists (d :: before), pkgs_dir, after. split; [done|]. split; [|done].
    intros d' [->|?]%elem_of_cons; [|by apply Hnone].
    by apply eq_None_not_Some.
Qed.

Lemma cached_repodata_in (pkgs_dirs : list string) (l : LinkAction)
    (w w' : World) (r : FetchAction) :
  cached_repodata pkgs_dirs l w = (Ok r, w') → cached_in (fs w) pkgs_dirs l r.
Proof.
  unfold cached_repodata. intros Hrun.
  apply bind_ok_inv in Hrun as (dist_name & w1 & Hdist & Hrun).
  apply lift_ok_inv in Hdist as [Hdist%item_ok_inv ->].
  apply bind_ok_inv in Hrun as (f & w1 & Hf & Hrun).
  unfold get_fs in Hf. injection Hf as <- <-.
  destruct (find_record _ _ _) as [record|] eqn:Hfind; [|done].
  apply find_record_first in Hfind
    as (before & pkgs_dir & after & Hsplit & Hnone & ->).
  apply bind_ok_inv in Hrun as (text & w1 & Htext & Hrun).
  apply bind_ok_inv in Hrun as (doc & w2 & Hdoc & Hrun).
  apply mret_ok_inv in Hrun as [<- _].
  unfold open_read in Htext.
  destruct (fs w !! _) as [[|content]|] eqn:Hfile; try done.
  injection Htext as -> <-.
  unfold loads in Hdoc. destruct (json_loads text) as [doc'|] eqn:Hloads;
    [|done].
  apply mret_ok_inv in Hdoc as [-> _].
  by exists dist_name, before, pkgs_dir, after, text, doc.
Qed.

Lemma query_pkgs_dirs_ok (conda platform : string) (w w' : World)
    (pkgs_dirs : list string) :
  query_pkgs_dirs conda platform w = (Ok pkgs_dirs, w') →
  reported_pkgs_dirs conda platform (fs w) pkgs_dirs
  ∧ fs w' = (info_call conda platform (fs w)).2.
Proof.
  unfold query_pkgs_dirs, check_output, reported_pkgs_dirs, info_call.
  rewrite bind_assoc, bind_run. intros Hrun.
  destruct (returncode _ =? 0)%Z eqn:Hrc; [|done].
  apply bind_ok_inv in Hrun as (out & w1 & Hout & Hrun).
  apply mret_ok_inv in Hout as [<- ->].
  apply bind_ok_inv in Hrun as (doc & w1 & Hdoc & Hrun).
  unfold loads in Hdoc. destruct (json_loads _) as [doc'|] eqn:Hloads; [|done].
  apply mret_ok_inv in Hdoc as [-> ->].
  apply lift_ok_inv in Hrun as [Hdirs%item_ok_inv ->].
  split; [|done]. split; [by apply Z.eqb_eq|]. by exists doc.
Qed.

(** The entries that a run of [_reconstruct_fetch_actions] adds, with
    their sources: one for every name that the LINK entries have and the
    FETCH entries lack, in the order in which the set of these names is
    gone through. *)
Lemma reconstruct_sources (conda platform : string)
    (plan plan' : DryRunInstall) (w w' : World) :
  _reconstruct_fetch_actions conda platform plan w = (Ok plan', w') →
  ∃ acts link_actions fetch_actions added,
    actions plan = Some acts
    ∧ by_name (default [] (LINK acts)) = Ok link_actions
    ∧ by_name (default [] (FETCH acts)) = Ok fetch_actions
    ∧ plan' = mkDryRunInstall
                (Some (mkInstallActions
                         (Some (default [] (LINK acts)))
                         (Some (default [] (FETCH acts) ++ added))))
    ∧ Forall2 (λ n r, ∃ l0, link_actions !! n = Some l0
                            ∧ added_for conda platform (fs w) l0 r)
              (set_iter (dom link_actions ∖ dom fetch_actions)) added.
Proof.
  unfold _reconstruct_fetch_actions, added_for. intros Hrun.
  apply bind_ok_inv in Hrun as (acts & w1 & Hacts & Hrun).
  apply lift_ok_inv in Hacts as [Hacts%item_ok_inv ->].
  apply bind_ok_inv in Hrun as (link_actions & w1 & Hlink & Hrun).
  apply lift_ok_inv in Hlink as [Hlink ->].
  apply bind_ok_inv in Hrun as (fetch_actions & w1 & Hfetch & Hrun).
  apply lift_ok_inv in Hfetch as [Hfetch ->].
  apply bind_ok_inv in Hrun as (added & w2 & Hadded & Hrun).
  apply mret_ok_inv in Hrun as [<- Hw]. subst w2.
  exists acts, link_actions, fetch_actions, added.
  repeat (split; [done|]).
  destruct (is_micromamba conda); simpl negb in Hadded; cbv iota in Hadded.
  - apply for_list_static in Hadded as [-> Hall].
    2:{ intros x. apply static_bind; [apply static_lift|intros ?].
        apply static_lift. }
    eapply Forall2_impl; [exact Hall|]. intros n r Hbody. simpl in Hbody.
    apply bind_ok_inv in Hbody as (l0 & w1 & Hl0 & Hbody).
    apply lift_ok_inv in Hl0 as [Hl0%item_ok_inv ->].
    apply lift_ok_inv in Hbody as [Hbody _]. by exists l0.
  - apply bind_ok_inv in Hadded as (pkgs_dirs & w2 & Hdirs & Hadded).
    apply for_list_static in Hadded as [-> Hall].
    2:{ intros x. apply static_bind; [apply static_lift|intros ?].
        apply static_cached_repodata. }
    case_bool_decide as Hsome.
    + apply query_pkgs_dirs_ok in Hdirs as [Hreported Hfs].
      eapply Forall2_impl; [exact Hall|]. intros n r Hbody. simpl in Hbody.
      apply bind_ok_inv in Hbody as (l0 & w1 & Hl0 & Hbody).
      apply lift_ok_inv in Hl0 as [Hl0%item_ok_inv ->].
      apply cached_repodata_in in Hbody. rewrite Hfs in Hbody.
      exists l0. split; [done|]. by exists pkgs_dirs.
    + assert (dom link_actions ∖ dom fetch_actions = ∅) as Hempty.
      { destruct (decide (dom link_actions ∖ dom fetch_actions = ∅));
          [done|by destruct Hsome]. }
      rewrite Hempty, set_iter_empty in Hall |- *.
      apply Forall2_nil_inv_l in Hall as ->. constructor.
Qed.


(** What the sources of the added entries give for the LINK entries. *)
Lemma sources_reconcile (conda platform : string) (f : gmap string node)
    (link fetch added : list Action.t)
    (link_actions fetch_actions : gmap string Action.t) :
  by_name link = Ok link_actions →
  by_name fetch = Ok fetch_actions →
  Forall2 (λ n r, ∃ l0, link_actions !! n = Some l0
                        ∧ added_for conda platform f l0 r)
          (set_iter (dom link_actions ∖ dom fetch_actions)) added →
  ∀ l, l ∈ link →
    ∃ n, named n l
         ∧ ((∃ r, r ∈ fetch ∧ named n r)
            ∨ (fetch_actions !! n = None
               ∧ ∃ l0 r, l0 ∈ link ∧ named n l0 ∧ r ∈ added
                         ∧ added_for conda platform f l0 r)).
Proof.
  intros Hlink Hfetch Hadded l Hl.
  destruct (by_name_elem_of _ _ _ Hlink Hl) as (n & Hnamed & Hdom).
  exists n. split; [done|].
  destruct (decide (n ∈ dom fetch_actions)) as [Hf|Hnf].
  - left. apply elem_of_dom in Hf as [r Hr].
    apply (by_name_lookup _ _ _ _ Hfetch) in Hr as [? ?]. by exists r.
  - right. split; [by apply not_elem_of_dom|].
    assert (n ∈ set_iter (dom link_actions ∖ dom fetch_actions)) as Hin
      by (apply set_iter_elem_of; by apply elem_of_difference).
    apply list_elem_of_lookup in Hin as [i Hi].
    destruct (Forall2_lookup_l _ _ _ _ _ Hadded Hi) as (r & Hr & l0 & Hl0 & Hsrc).
    apply (by_name_lookup _ _ _ _ Hlink) in Hl0 as [Hin Hn0].
    exists l0, r. split; [done|]. split; [done|].
    split; [by eapply list_elem_of_lookup_2|done].
Qed.

(** C1 (as amended). A plan returned by [solve_specs_for_arch] or
    [update_specs_for_arch] is what [_reconstruct_fetch_actions] makes of
    the plan of the tool (completed by the packages carried over, in an
    update): the LINK entries as they are, and the FETCH entries followed
    by one entry for every name that the LINK entries have and the FETCH
    entries lack. This entry is the copy of the LINK entry filed under the
    name (micromamba), or the record found under its distribution name in
    the first of the package caches that [info --json] reports, in the
    order of the report, that has one (conda, mamba): it is appended as it
    is read. So every LINK entry has a FETCH entry that the plan had under
    the same name or that was added for a LINK entry of that name, and the
    plan has for every LINK entry a FETCH entry of the same name with URL,
    name and version as soon as the entries it came with and the records
    of the caches have them, and the records bear the names of their LINK
    entries. When none of the reported package caches has a record for a
    name that LINK has and FETCH lacks, the call fails. *)
Theorem C1_links_reconciled (conda platform : string)
    (channels specs : list string) (locked : PyDict.t LockedDependency.t)
    (update : list string) (w w' : World) (plan' : DryRunInstall) :
  solve_specs_for_arch conda channels specs platform w = (Ok plan', w')
  ∨ update_specs_for_arch conda specs locked update platform channels w
    = (Ok plan', w') →
  ∃ plan w1 w2 acts link_actions fetch_actions added,
    let link := default [] (LINK acts) in
    let fetch := default [] (FETCH acts) in
    (* the plan that is reconciled: the one that the solver prints, or the
       plan of the dry run completed by the packages carried over *)
    ((solve_specs_for_arch conda channels specs platform w = (Ok plan', w')
      ∧ ∃ doc,
          let args := solve_args conda channels specs platform in
          let env := conda_env_override platform in
          returncode (run_tool args env (fs w)).1 = 0%Z
          ∧ json_loads (proc_stdout (run_tool args env (fs w)).1) = Some doc
          ∧ plan = j_plan doc ∧ w1 = ran args env w ∧ w2 = w')
     ∨ (update_specs_for_arch conda specs locked update platform channels w
        = (Ok plan', w')
        ∧ ∃ wa installed wb to_update dryrun,
            list_installed conda (mkdtemp (fs w)) platform wa
            = (Ok installed, wb)
            ∧ specs_to_update specs update installed = Ok to_update
            ∧ update_dry_run conda (mkdtemp (fs w)) channels platform
                installed update to_update wb = (Ok dryrun, w1)
            ∧ complete_plan conda locked installed dryrun = Ok plan))
    ∧ _reconstruct_fetch_actions conda platform plan w1 = (Ok plan', w2)
    ∧ actions plan = Some acts
    ∧ by_name link = Ok link_actions
    ∧ by_name fetch = Ok fetch_actions
    (* the returned plan, and where the added entries come from *)
    ∧ actions plan'
      = Some (mkInstallActions (Some link) (Some (fetch ++ added)))
    ∧ Forall2 (λ n r, ∃ l0, link_actions !! n = Some l0
                            ∧ added_for conda platform (fs w1) l0 r)
              (set_iter (dom link_actions ∖ dom fetch_actions)) added
    (* every LINK entry has a FETCH entry *)
    ∧ (∀ l, l ∈ link →
         ∃ n, named n l
              ∧ ((∃ r, r ∈ fetch ∧ named n r)
                 ∨ (fetch_actions !! n = None
                    ∧ ∃ l0 r, l0 ∈ link ∧ named n l0 ∧ r ∈ added
                              ∧ added_for conda platform (fs w1) l0 r)))
    (* of its name and complete, when the sources are *)
    ∧ ((∀ r, r ∈ fetch → complete r) →
       (is_micromamba conda = false →
        ∀ l0 r, l0 ∈ link → added_for conda platform (fs w1) l0 r →
                Action.name r = Action.name l0 ∧ complete r) →
       links_matched plan')
    (* without a record in any of the reported package caches the call
       fails *)
    ∧ (∀ plan0 w0 acts0 l n,
         actions plan0 = Some acts0 → l ∈ default [] (LINK acts0) →
         named n l →
         (∀ r, r ∈ default [] (FETCH acts0) → ¬ named n r) →
         is_micromamba conda = false →
         (∀ pkgs_dirs l0 dist_name pkgs_dir,
            reported_pkgs_dirs conda platform (fs w0) pkgs_dirs →
            l0 ∈ default [] (LINK acts0) → named n l0 →
            Action.dist_name l0 = Some dist_name →
            pkgs_dir ∈ pkgs_dirs →
            (info_call conda platform (fs w0)).2
              !! repodata_record pkgs_dir dist_name = None) →
         is_ok (_reconstruct_fetch_actions conda platform plan0 w0).1 = false).
Proof.
  intros Hreturned.
  assert (∃ plan w1 w2,
            ((solve_specs_for_arch conda channels specs platform w
              = (Ok plan', w')
              ∧ ∃ doc,
                  let args := solve_args conda channels specs platform in
                  let env := conda_env_override platform in
                  returncode (run_tool args env (fs w)).1 = 0%Z
                  ∧ json_loads (proc_stdout (run_tool args env (fs w)).1)
                    = Some doc
                  ∧ plan = j_plan doc ∧ w1 = ran args env w ∧ w2 = w')
             ∨ (update_specs_for_arch conda specs locked update platform
                  channels w = (Ok plan', w')
                ∧ ∃ wa installed wb to_update dryrun,
                    list_installed conda (mkdtemp (fs w)) platform wa
                    = (Ok installed, wb)
                    ∧ specs_to_update specs update installed = Ok to_update
                    ∧ update_dry_run conda (mkdtemp (fs w)) channels platform
                        installed update to_update wb = (Ok dryrun, w1)
                    ∧ complete_plan conda locked installed dryrun = Ok plan))
            ∧ _reconstruct_fetch_actions conda platform plan w1
              = (Ok plan', w2)) as (plan & w1 & w2 & Hfrom & Hrun).
  { destruct Hreturned as [Hrun|Hrun].
    - pose proof Hrun as Hsolve.
      set (args := solve_args conda channels specs platform) in *.
      set (env := conda_env_override platform) in *.
      destruct (decide (returncode (run_tool args env (fs w)).1 = 0%Z))
        as [Hrc|Hrc].
      + rewrite (solve_success _ _ _ _ _ Hrc) in Hrun.
        fold args env in Hrun.
        apply bind_ok_inv in Hrun as (doc & w1 & Hdoc & Hrun).
        unfold loads in Hdoc.
        destruct (json_loads _) as [doc'|] eqn:Hloads; [|done].
        apply mret_ok_inv in Hdoc as [-> ->].
        exists (j_plan doc), (ran args env w), w'. split; [|done].
        left. split; [done|]. by exists doc.
      + destruct (solve_failure conda channels specs platform w Hrc)
          as [Hraise _].
        by rewrite Hrun in Hraise.
    - pose proof Hrun as Hupdate.
      apply update_specs_steps in Hrun
        as (wa & installed & wb & to_update & dryrun & w3 & plan & w4
            & Hlist & Hto & Hdry & Hplan & Hrec).
      exists plan, w3, w4. split; [|done].
      right. split; [done|]. by exists wa, installed, wb, to_update, dryrun. }
  apply reconstruct_sources in Hrun as Hsources.
  destruct Hsources
    as (acts & link_actions & fetch_actions & added & Hacts & Hlink & Hfetch
        & Hplan' & Hadded).
  pose proof (sources_reconcile _ _ _ _ _ _ _ _ Hlink Hfetch Hadded) as Hrec.
  exists plan, w1, w2, acts, link_actions, fetch_actions, added. cbv zeta.
  split; [done|]. split; [done|]. split; [done|]. split; [done|].
  split; [done|]. split; [by rewrite Hplan'|]. split; [done|].
  split; [done|]. split.
  2:{ intros plan0 w0 acts0 l n Hacts0 Hl Hn Hnofetch Hconda Hnocache.
      destruct (_reconstruct_fetch_actions conda platform plan0 w0)
        as [[plan1|e] w3] eqn:Hrun0; [|done]. exfalso.
      apply reconstruct_sources in Hrun0
        as (acts1 & la & fa & added1 & Hacts1 & Hlink1 & Hfetch1 & _ & Hadded1).
      rewrite Hacts0 in Hacts1. injection Hacts1 as <-.
      destruct (sources_reconcile _ _ _ _ _ _ _ _ Hlink1 Hfetch1 Hadded1 l Hl)
        as (n' & Hn' & [(r & Hr & Hrn)|(_ & l0 & r & Hl0 & Hn0 & _ & Hsrc)]).
      - unfold named in *. rewrite Hn in Hn'. injection Hn' as <-.
        by apply (Hnofetch r).
      - unfold named in Hn, Hn'. rewrite Hn in Hn'. injection Hn' as <-.
        unfold added_for in Hsrc. rewrite Hconda in Hsrc.
        destruct Hsrc as (pkgs_dirs & Hreported & dist_name & before
                          & pkgs_dir & after & text & doc & Hdist & -> & _
                          & Hfile & _).
        rewrite (Hnocache _ l0 dist_name pkgs_dir Hreported) in Hfile;
          [done|done|done|done|].
        apply elem_of_app. right. left. }
  intros Hcomplete Hcache. rewrite Hplan'. eexists _, _, _.
  repeat split; try done.
  intros l Hl.
  destruct (Hrec l Hl)
    as (n & Hn & [(r & Hr & Hrn)|(_ & l0 & r & Hl0 & Hn0 & Hr & Hsrc)]).
  - exists r. split; [apply elem_of_app; by left|].
    split; [by rewrite Hn, Hrn|by apply Hcomplete].
  - exists r. split; [apply elem_of_app; by right|].
    destruct (is_micromamba conda) eqn:Hmicro.
    + unfold added_for in Hsrc. rewrite Hmicro in Hsrc.
      apply copy_link_action_ok in Hsrc as [Hname ?].
      split; [by rewrite Hname, Hn, Hn0|done].
    + destruct (Hcache eq_refl l0 r Hl0 Hsrc) as [Hname ?].
      split; [by rewrite Hname, Hn, Hn0|done].
Qed.

End Reconciled.

(* ================================================================== *)
(** * Part III. Examples *)
(* ================================================================== *)

(** ** Scripts and data *)

(** The tool answers by the verb of its command line and leaves the file
    system as it is. *)
Definition by_verb (script : list (string * Proc)) (args : list string)
    (f : gmap string node) : Proc * gmap string node :=
  (default (mkProc 1 "" "unknown command")
           (verb ← args !! 1; PyDict.get verb script), f).

Definition doc_of_plan (plan : DryRunInstall) : JsonDoc :=
  mkJsonDoc None plan [] None Action.empty "{'actions': ...}" true.
Definition doc_of_items (items : list Action.t) : JsonDoc :=
  mkJsonDoc None (mkDryRunInstall None) items None Action.empty "[...]" true.
Definition doc_of_pkgs_dirs (dirs : list string) : JsonDoc :=
  mkJsonDoc None (mkDryRunInstall None) [] (Some dirs) Action.empty
            "{'pkgs_dirs': ...}" true.
Definition doc_of_record (r : Action.t) : JsonDoc :=
  mkJsonDoc None (mkDryRunInstall None) [] None r "{'name': ...}" true.

Definition empty_world : World := mkWorld ∅ [] [] [].

Definition conda_forge : string := "https://conda.anaconda.org/conda-forge".

Definition dist_of (name version build : string) : string :=
  name +:+ "-" +:+ version +:+ "-" +:+ build.

(** A LINK entry as conda and mamba list it. *)
Definition link_of (name version build : string) : LinkAction :=
  Action.mk (Some name) (Some version) None None None (Some "conda-forge")
    None None None None (Some conda_forge)
    (Some (dist_of name version build)) (Some "linux-64").

(** A FETCH entry, and a LINK entry of micromamba, with all their keys. *)
Definition fetch_of (name version build md5 : string) (depends : list string)
  : FetchAction :=
  Action.mk (Some name) (Some version)
    (Some (conda_forge +:+ "/linux-64/" +:+ dist_of name version build
           +:+ ".tar.bz2"))
    (Some md5) (Some (dist_of name version build +:+ ".tar.bz2"))
    (Some (conda_forge +:+ "/linux-64")) (Some "linux-64") (Some 0%Z)
    (Some depends) (Some []) None None None.

Definition locked_of (name version build md5 : string)
    (dependencies : PyDict.t string) : LockedDependency.t :=
  LockedDependency.mk name version "conda" "linux-64" dependencies
    (conda_forge +:+ "/linux-64/" +:+ dist_of name version build +:+ ".tar.bz2")
    ("md5:" +:+ md5) false "main".

Definition plan_of (link fetch : list Action.t) : DryRunInstall :=
  mkDryRunInstall (Some (mkInstallActions (Some link) (Some fetch))).

Definition zlib_link : LinkAction := link_of "zlib" "1.2.11" "h36c2ea0_1013".
Definition zlib_fetch : FetchAction :=
  fetch_of "zlib" "1.2.11" "h36c2ea0_1013" "5c35" ["libgcc-ng >=7.5.0"].
Definition zlib_locked : LockedDependency.t :=
  locked_of "zlib" "1.2.11" "h36c2ea0_1013" "5c35"
    [("libgcc-ng", ">=7.5.0"); ("libstdcxx-ng", "")].

Definition libpng_link : LinkAction := link_of "libpng" "1.6.37" "h21135ba_2".
Definition libpng_locked : LockedDependency.t :=
  locked_of "libpng" "1.6.37" "h21135ba_2" "7e4c" [("zlib", ">=1.2.11,<1.3.0a0")].
Definition libpng_new_link : LinkAction := link_of "libpng" "1.6.39" "h753d276_0".
Definition libpng_new_fetch : FetchAction :=
  fetch_of "libpng" "1.6.39" "h753d276_0" "b1d2" ["zlib >=1.2.13,<1.3.0a0"].

Definition prior_lock : PyDict.t LockedDependency.t :=
  [("zlib", zlib_locked); ("libpng", libpng_locked)].

Ltac by_compute := vm_compute; first [reflexivity | done].
Ltac by_decide := apply (bool_decide_unpack _); vm_compute; exact I.

(** ** C10 *)

Definition solve_host : Host :=
  scripted false (by_verb [("create", mkProc 0 "PLAN" "")])
    [("PLAN", doc_of_plan (plan_of [zlib_link] [zlib_fetch]))].

Lemma C10_witness :
  channel_args ["conda-forge"; "defaults"] "win-64"
  = ["--channel"; "conda-forge"; "--channel"; "defaults"; "--channel"; "msys2"]
  ∧ channel_args ["conda-forge"; "defaults"] "linux-64"
    = ["--channel"; "conda-forge"; "--channel"; "defaults"].
Proof.
  destruct (C10_msys2_follows_defaults (H := solve_host) "conda"
              ["conda-forge"; "defaults"] ["zlib"] "win-64" empty_world)
    as (_ & _ & Hwin & _).
  destruct (C10_msys2_follows_defaults (H := solve_host) "conda"
              ["conda-forge"; "defaults"] ["zlib"] "linux-64" empty_world)
    as (_ & _ & _ & Hother).
  split.
  - apply (Hwin (or_introl eq_refl) ["conda-forge"] []). reflexivity.
  - apply Hother. left. intros [Heq|Heq]; discriminate Heq.
Defined.

(** ** C7 *)

Lemma C7_witness :
  ∃ planned w',
    solve_conda (H := solve_host) "conda"
      [("zlib", VersionedDependency "zlib" "conda" ">=1.2")] [] []
      "linux-64" ["conda-forge"] empty_world = (Ok planned, w')
    ∧ NoDup (PyDict.keys planned)
    ∧ Forall (identified_by_name "linux-64") planned
    ∧ NoDup (triple <$> PyDict.values planned).
Proof.
  destruct (solve_conda (H := solve_host) "conda"
              [("zlib", VersionedDependency "zlib" "conda" ">=1.2")] [] []
              "linux-64" ["conda-forge"] empty_world)
    as [[planned|e] w'] eqn:Hrun; [|vm_compute in Hrun; discriminate Hrun].
  exists planned, w'. split; [reflexivity|].
  exact (C7_one_entry_per_name _ _ _ _ _ _ _ _ _ Hrun).
Defined.

(** ** C8 *)

Lemma C8_witness :
  let deps := [("libgcc-ng", ">=7.5.0"); ("libstdcxx-ng", "")] in
  NoDup (PyDict.keys deps)
  ∧ Forall (λ kv, name_ok kv.1 ∧ constraint_ok kv.2) deps
  ∧ parse_depends (render_depends deps) = Ok deps.
Proof.
  intros deps.
  assert (NoDup (PyDict.keys deps)) as Hnodup by by_decide.
  assert (Forall (λ kv, name_ok kv.1 ∧ constraint_ok kv.2) deps) as Hok
    by (repeat constructor; done).
  split; [exact Hnodup|]. split; [exact Hok|].
  exact (C8_parse_inverts_render deps Hnodup Hok).
Defined.

Definition tab : string := String (ascii_of_nat 9) "".

(** White space at the end of a constraint is lost, a name is read up to
    its first white space, and an empty name gives its place to the
    constraint. *)
Lemma C8_counterexample :
  (let deps := [("python", "3.8.* ")] in
   NoDup (PyDict.keys deps)
   ∧ Forall (λ kv, PyStr.contains " " kv.1 = false) deps
   ∧ parse_depends (render_depends deps) = Ok [("python", "3.8.*")]
   ∧ parse_depends (render_depends deps) ≠ Ok deps)
  ∧ (let deps := [("lib" +:+ tab +:+ "png", ">=1.6")] in
     NoDup (PyDict.keys deps)
     ∧ Forall (λ kv, PyStr.contains " " kv.1 = false) deps
     ∧ parse_depends (render_depends deps) = Ok [("lib", ">=1.6")]
     ∧ parse_depends (render_depends deps) ≠ Ok deps)
  ∧ (let deps := [("", ">=1.6")] in
     NoDup (PyDict.keys deps)
     ∧ Forall (λ kv, PyStr.contains " " kv.1 = false) deps
     ∧ parse_depends (render_depends deps) = Ok [(">=1.6", "")]
     ∧ parse_depends (render_depends deps) ≠ Ok deps).
Proof.
  repeat split; try by_decide; try (repeat constructor; done);
    try by_compute.
Qed.

(** ** C1 *)


(** conda: the package cache holds, under the distribution name of the
    LINK entry, a record with another name; and the solver sends a FETCH
    entry without URL and version. *)
Definition libzlib_record : FetchAction :=
  fetch_of "libzlib" "1.2.11" "h36c2ea0_1013" "5c35" ["libgcc-ng >=7.5.0"].

Definition bare_fetch : FetchAction :=
  Action.mk (Some "zlib") None None None None None None None None None
    None None None.

Definition cache_world : World :=
  mkWorld {[ "/pkgs/zlib-1.2.11-h36c2ea0_1013/info/repodata_record.json"
             := File "RECORD" ]} [] [] [].

Definition cache_host (plan : DryRunInstall) : Host :=
  scripted false
    (by_verb [("create", mkProc 0 "PLAN" ""); ("info", mkProc 0 "INFO" "")])
    [("PLAN", doc_of_plan plan); ("INFO", doc_of_pkgs_dirs ["/pkgs"]);
     ("RECORD", doc_of_record libzlib_record)].

(** conda: the plan links a package that it does not fetch; the first of
    the two package caches lacks its record, the second has it. *)
Definition two_caches_host : Host :=
  scripted false
    (by_verb [("create", mkProc 0 "PLAN" ""); ("info", mkProc 0 "INFO" "")])
    [("PLAN", doc_of_plan (plan_of [zlib_link] []));
     ("INFO", doc_of_pkgs_dirs ["/opt/pkgs"; "/pkgs"]);
     ("RECORD", doc_of_record zlib_fetch)].

Lemma C1_witness :
  (∃ w', solve_specs_for_arch (H := two_caches_host) "conda"
           ["conda-forge"] ["zlib"] "linux-64" cache_world
         = (Ok (plan_of [zlib_link] [zlib_fetch]), w'))
  ∧ links_matched (plan_of [zlib_link] [zlib_fetch]).
Proof.
  assert (∃ w', solve_specs_for_arch (H := two_caches_host) "conda"
                  ["conda-forge"] ["zlib"] "linux-64" cache_world
                = (Ok (plan_of [zlib_link] [zlib_fetch]), w')) as Hrun
    by (eexists; vm_compute; reflexivity).
  split; [exact Hrun|]. destruct Hrun as [w' Hrun].
  destruct (C1_links_reconciled (H := two_caches_host) "conda" "linux-64"
              ["conda-forge"] ["zlib"] [] [] cache_world w'
              (plan_of [zlib_link] [zlib_fetch]) (or_introl Hrun))
    as (plan & w1 & w2 & acts & link_actions & fetch_actions & added
        & Hfrom & _ & _ & _ & _ & Hshape & _ & _ & Hmatched & _).
  injection Hshape as Hlink Hfetch.
  apply Hmatched.
  - intros r Hr.
    assert (r ∈ default [] (FETCH acts) ++ added) as Hin
      by (apply elem_of_app; by left).
    rewrite <- Hfetch in Hin. apply list_elem_of_singleton in Hin. subst r.
    repeat split; by eexists.
  - intros _ l0 r Hl0 Hsrc.
    rewrite <- Hlink in Hl0. apply list_elem_of_singleton in Hl0. subst l0.
    destruct Hfrom as [(_ & doc & _ & _ & _ & -> & _)
                      |[Hupdate _]];
      [|vm_compute in Hupdate; discriminate Hupdate].
    destruct Hsrc as (pkgs_dirs & (_ & info & Hinfo & Hdirs) & dist_name
                      & before & pkgs_dir & after & text & record & Hdist
                      & Hsplit & _ & Hfile & Hrecord & ->).
    vm_compute in Hinfo. injection Hinfo as <-.
    vm_compute in Hdirs. injection Hdirs as <-.
    vm_compute in Hdist. injection Hdist as <-.
    destruct before as [|d1 [|d2 before]].
    + injection Hsplit as <- _. vm_compute in Hfile. discriminate Hfile.
    + injection Hsplit as _ <- _. vm_compute in Hfile. injection Hfile as <-.
      vm_compute in Hrecord. injection Hrecord as <-.
      split; [reflexivity|]. repeat split; by eexists.
    + injection Hsplit as _ _ Hsplit. by destruct before.
Defined.

(** The record of the cache bears another name, or the solver sends a
    FETCH entry without URL and version: the plan is returned all the
    same. *)
Lemma C1_counterexample :
  (∃ w', solve_specs_for_arch (H := cache_host (plan_of [zlib_link] []))
           "conda" ["conda-forge"] ["zlib"] "linux-64" cache_world
         = (Ok (plan_of [zlib_link] [libzlib_record]), w'))
  ∧ ¬ links_matched (plan_of [zlib_link] [libzlib_record])
  ∧ (∃ w', solve_specs_for_arch
             (H := cache_host (plan_of [zlib_link] [bare_fetch]))
             "conda" ["conda-forge"] ["zlib"] "linux-64" cache_world
           = (Ok (plan_of [zlib_link] [bare_fetch]), w'))
  ∧ ¬ links_matched (plan_of [zlib_link] [bare_fetch]).
Proof.
  split; [eexists; vm_compute; reflexivity|].
  split.
  { intros (acts & link & fetch & [= <-] & [= <-] & [= <-] & Hall).
    destruct (Hall zlib_link) as (r & ->%list_elem_of_singleton & Hname & _);
      [left|]. discriminate Hname. }
  split; [eexists; vm_compute; reflexivity|].
  intros (acts & link & fetch & [= <-] & [= <-] & [= <-] & Hall).
  destruct (Hall zlib_link) as (r & ->%list_elem_of_singleton & _ & Hc); [left|].
  destruct Hc as ([u Hu] & _). discriminate Hu.
Qed.

(** ** C6 *)




(** ** C9 *)

Definition listing_host : Host :=
  scripted false (by_verb [("list", mkProc 0 "LIST" "")])
    [("LIST", doc_of_items [zlib_link; libpng_link])].

Lemma C9_witness :
  let out := update_specs_for_arch (H := listing_host) "conda" ["zlib"; "libpng"]
               prior_lock ["python"] "linux-64" ["conda-forge"] empty_world in
  is_ok out.1 = true
  ∧ (∃ c, calls out.2 = [c] ∧ call_fs c !! "/tmp/x" = Some Dir)
  ∧ fs out.2 !! "/tmp/x" = None
  ∧ fs out.2 !! "/tmp/x/conda-meta/zlib-1.2.11-h36c2ea0_1013.json" = None.
Proof.
  intros out.
  destruct (C9_temporary_directory_scoped (H := listing_host) "conda"
              ["zlib"; "libpng"] prior_lock ["python"] "linux-64"
              ["conda-forge"] empty_world) as (_ & Hfirst & Hgone).
  split; [by_compute|]. split.
  - assert (∃ c, calls out.2 = [c]) as [c Hc] by (eexists; by_compute).
    exists c. split; [exact Hc|].
    destruct (Hfirst c []) as (_ & Hdir & _); [exact Hc|exact Hdir].
  - split; apply Hgone; reflexivity.
Defined.

(** ** C4 *)

(** The world in which the body of the [with] statement starts, and the
    one in which the listing ends. *)
Definition written `{Host} (locked : PyDict.t LockedDependency.t)
    (platform : string) (w : World) : World :=
  (write_metadata (mkdtemp (fs w)) (PyDict.values locked) platform
     (set_fs (<[mkdtemp (fs w) := Dir]> (fs w)) w)).2.

Definition listed `{Host} (conda : string)
    (locked : PyDict.t LockedDependency.t) (platform : string) (w : World)
  : World :=
  (list_installed conda (mkdtemp (fs w)) platform (written locked platform w)).2.

Definition installed_packages : gmap string Action.t :=
  {[ "zlib" := zlib_link; "libpng" := libpng_link ]}.

Lemma C4_witness :
  let out := update_specs_for_arch (H := listing_host) "conda" ["zlib"; "libpng"]
               prior_lock ["python"] "linux-64" ["conda-forge"] empty_world in
  dom installed_packages ∩ list_to_set ["python"] = (∅ : gset string)
  ∧ calls out.2
    = [listing (H := listing_host) "conda" "/tmp/x" "linux-64"
         (fs (written (H := listing_host) prior_lock "linux-64" empty_world))]
  ∧ out.1 = complete_plan (H := listing_host) "conda" prior_lock
              installed_packages empty_plan.
Proof.
  intros out.
  assert (dom installed_packages ∩ list_to_set ["python"] = (∅ : gset string))
    as Hempty by by_compute.
  destruct (C4_nothing_to_update (H := listing_host) "conda" ["zlib"; "libpng"]
              prior_lock ["python"] "linux-64" ["conda-forge"] empty_world
              (written (H := listing_host) prior_lock "linux-64" empty_world)
              (listed (H := listing_host) "conda" prior_lock "linux-64"
                 empty_world)
              installed_packages) as (Hcalls & Hplan & _).
  - by_compute.
  - by_compute.
  - exact Hempty.
  - split; [exact Hempty|]. split; [exact Hcalls|exact Hplan].
Defined.

(** Nothing to update, and yet the returned plan is not empty: it holds
    the two packages of the previous lock. *)
Lemma C4_counterexample :
  let out := update_specs_for_arch (H := listing_host) "conda" ["zlib"; "libpng"]
               prior_lock ["python"] "linux-64" ["conda-forge"] empty_world in
  ∃ fetch,
    out.1 = Ok (plan_of [zlib_link; libpng_link] fetch)
    ∧ length fetch = 2
    ∧ out.1 ≠ Ok empty_plan.
Proof. intros out. eexists. split; [by_compute|]. split; by_compute. Qed.

(** ** C2 *)

(** The update of libpng, for a solver that links libpng alone and for one
    that links zlib again with it. *)
Definition update_host (verb : string) (plan : DryRunInstall) : Host :=
  scripted false
    (by_verb [("list", mkProc 0 "LIST" ""); (verb, mkProc 0 "PLAN" "")])
    [("LIST", doc_of_items [zlib_link; libpng_link]);
     ("PLAN", doc_of_plan plan)].

Definition libpng_plan : DryRunInstall :=
  plan_of [libpng_new_link] [libpng_new_fetch].



(** ** C3 *)


(** ** C5 *)





(* ================================================================== *)
(** * Part IV. The rest of the adapter *)
(* ================================================================== *)

(** ** The loop over the compression suffixes, on any path *)

Lemma before_after_last (c : ascii) (n : string) :
  PyStr.contains c n = true →
  n = PurePosixPath.before_last c n +:+ String c (PyStr.after_last c n).
Proof.
  induction n as [|a n IH]; [done|]. simpl.
  destruct (PyStr.contains c n) eqn:Hn.
  - intros _. rewrite sapp_cons. f_equal. by apply IH.
  - rewrite orb_false_r. intros Ha. rewrite Ha.
    apply eqc_eq in Ha. by subst a.
Qed.

(** A name with a suffix is a non-empty stem followed by that suffix. *)
Lemma suffix_of_name_split (n : string) :
  PurePosixPath.suffix_of_name n ≠ "" →
  PurePosixPath.before_last "." n ≠ ""
  ∧ n = PurePosixPath.before_last "." n +:+ PurePosixPath.suffix_of_name n.
Proof.
  unfold PurePosixPath.suffix_of_name.
  destruct (PyStr.contains "." n) eqn:Hdot; [|done].
  destruct (PyStr.nonempty (PurePosixPath.before_last "." n)) eqn:Hstem; [|done].
  destruct (PyStr.nonempty (PyStr.after_last "." n)) eqn:Hext; [|done].
  simpl. intros _. split; [by apply nonempty_true|].
  by apply before_after_last.
Qed.

Lemma in_compression_suffixes_nonempty (s : string) :
  s ∈ compression_suffixes → s ≠ "".
Proof. by intros (ext & -> & _)%compression_suffix_shape. Qed.

Lemma parent_with_name (p : PurePosixPath.t) (n : string) :
  PurePosixPath.parts p ≠ [] →
  PurePosixPath.parent (with_name p n) = PurePosixPath.parent p.
Proof.
  intros Hne. unfold PurePosixPath.parent, with_name. simpl.
  rewrite removelast_last.
  destruct (removelast (PurePosixPath.parts p) ++ [n]) eqn:Happ.
  - by apply app_eq_nil in Happ as [_ ?].
  - by destruct (PurePosixPath.parts p).
Qed.

Lemma strip_suffixes_any (fuel : nat) (p : PurePosixPath.t) :
  String.length (PurePosixPath.name p) < fuel →
  ∃ p' tail,
    strip_suffixes fuel p = Ok p'
    ∧ PurePosixPath.suffix p' ∉ compression_suffixes
    ∧ PurePosixPath.parent p' = PurePosixPath.parent p
    ∧ PurePosixPath.name p = PurePosixPath.name p' +:+ tail.
Proof.
  revert p. induction fuel as [|fuel IH]; intros p Hlen; [lia|].
  cbn [strip_suffixes]. case_bool_decide as Hsuf.
  - pose proof (in_compression_suffixes_nonempty _ Hsuf) as Hne.
    unfold PurePosixPath.suffix in Hsuf, Hne.
    destruct (suffix_of_name_split _ Hne) as [Hstem Hsplit].
    assert (PurePosixPath.parts p ≠ []) as Hparts.
    { intros Hnil. unfold PurePosixPath.name in Hne. rewrite Hnil in Hne.
      by apply Hne. }
    assert (PurePosixPath.with_suffix_empty p
            = Ok (with_name p (PurePosixPath.before_last "."
                                 (PurePosixPath.name p)))) as ->.
    { unfold PurePosixPath.with_suffix_empty, PurePosixPath.suffix.
      assert (PurePosixPath.name p ≠ "") as Hname.
      { intros Hnil. rewrite Hnil in Hne. by apply Hne. }
      apply nonempty_true in Hname, Hne. by rewrite Hname, Hne. }
    unfold mbind, result_bind_inst, result_bind.
    destruct (IH (with_name p (PurePosixPath.before_last "."
                                 (PurePosixPath.name p))))
      as (p' & tail & Hrun & Hclean & Hparent & Hname).
    { rewrite name_with_name.
      assert (String.length (PurePosixPath.name p)
              = String.length (PurePosixPath.before_last "."
                                 (PurePosixPath.name p))
                + String.length (PurePosixPath.suffix_of_name
                                   (PurePosixPath.name p))) as Hl
        by (by rewrite <- sapp_length, <- Hsplit).
      destruct (PurePosixPath.suffix_of_name (PurePosixPath.name p));
        [done|]. simpl in Hl. lia. }
    exists p', (tail +:+ PurePosixPath.suffix_of_name (PurePosixPath.name p)).
    split; [done|]. split; [done|]. split.
    + by rewrite Hparent, parent_with_name.
    + rewrite name_with_name in Hname.
      by rewrite <- sapp_assoc, <- Hname, <- Hsplit.
  - exists p, "". by rewrite sapp_nil_r.
Qed.

(** X1. On every path the loop of [fake_conda_environment] that strips the
    compression suffixes ends without an exception within the turns that
    the length of the file name allows; the path it leaves has none of the
    suffixes [.tar], [.bz2], [.gz], [.conda], lies in the same directory,
    and its name is the original name with its end cut off. *)
Theorem strip_suffixes_clean (path : PurePosixPath.t) :
  ∃ path' tail,
    strip_suffixes (S (String.length (PurePosixPath.name path))) path = Ok path'
    ∧ PurePosixPath.suffix path' ∉ compression_suffixes
    ∧ PurePosixPath.parent path' = PurePosixPath.parent path
    ∧ PurePosixPath.name path = PurePosixPath.name path' +:+ tail.
Proof. apply strip_suffixes_any. lia. Qed.

(** ** A record for every URL that can be split *)

(** X2. [meta_entry], the body of the loop of [fake_conda_environment],
    fails for a locked package exactly when [urlsplit] rejects its URL,
    and with the exception of [urlsplit]; otherwise the name of the file
    it gives ends in [.json] and the part before has no compression suffix
    left. *)
Theorem meta_entry_fails_with_urlsplit (dep : LockedDependency.t) :
  match UrlParse.urlsplit (LockedDependency.url dep) with
  | Raise e => meta_entry dep = Raise e
  | Ok url =>
      ∃ stem entry,
        meta_entry dep = Ok (stem +:+ ".json", entry)
        ∧ PurePosixPath.suffix_of_name stem ∉ compression_suffixes
        ∧ me_name entry = LockedDependency.name dep
        ∧ me_version entry = LockedDependency.version dep
        ∧ me_url entry = LockedDependency.url dep
        ∧ me_md5 entry = LockedDependency.hash dep
        ∧ me_subdir entry
          = PurePosixPath.name
              (PurePosixPath.parent (PurePosixPath.of_string (UrlParse.path url)))
  end.
Proof.
  unfold meta_entry.
  destruct (UrlParse.urlsplit (LockedDependency.url dep)) as [url|e]; [|done].
  unfold mbind at 1, result_bind_inst, result_bind.
  destruct (strip_suffixes_any
              (S (String.length
                    (PurePosixPath.name
                       (PurePosixPath.of_string (UrlParse.path url)))))
              (PurePosixPath.of_string (UrlParse.path url)))
    as (p' & tail & -> & Hclean & Hparent & _); [lia|].
  unfold mbind, result_bind_inst, result_bind.
  eexists _, _. split; [reflexivity|]. split; [exact Hclean|].
  cbn [me_name me_version me_url me_md5 me_subdir]. by rewrite Hparent.
Qed.

(** ** Dependency strings that cannot be read *)

Lemma split_nil (s : string) : PyStr.split s = [] ↔ all_space s.
Proof.
  unfold all_space. induction s as [|c s IH]; [done|].
  cbn [PyStr.split PyStr.all].
  destruct (PyStr.isspace c) eqn:Hc; [by rewrite IH|].
  simpl. split; [|done].
  destruct s as [|c' s]; [done|].
  destruct (PyStr.isspace c'); [done|].
  by destruct (PyStr.split (String c' s)).
Qed.

(** Every word of [s.split()] is a non-empty run without white space. *)
Lemma split_words (s : string) : Forall name_ok (PyStr.split s).
Proof.
  induction s as [|c s IH]; [constructor|].
  cbn [PyStr.split]. destruct (PyStr.isspace c) eqn:Hc; [done|].
  assert (name_ok (String c "")) as Hone.
  { split; [done|]. apply no_space_cons. by split. }
  destruct s as [|c' s]; [by constructor|].
  destruct (PyStr.isspace c') eqn:Hc'; [by constructor|].
  destruct (PyStr.split (String c' s)) as [|w ws]; [by constructor|].
  apply Forall_cons in IH as [[_ Hw] Hws]. constructor; [|done].
  split; [done|]. apply no_space_cons. by split.
Qed.

(** [" ".join(s.split(" ")[1:])] is what follows the first space. *)
Lemma join_tail_split_on (c : ascii) (s : string) :
  PyStr.join (String c "") (tail (PyStr.split_on c s))
  = (PyStr.partition c s).2.
Proof.
  unfold PyStr.partition. induction s as [|a s IH]; [done|].
  cbn [PyStr.split_on PyStr.span]. unfold PyStr.eqc in *.
  rewrite (Ascii.eqb_sym c a).
  destruct (Ascii.eqb a c) eqn:Hac.
  - cbn [tail]. by rewrite (join_split_on c s).
  - pose proof (split_on_nonempty c s) as Hne.
    destruct (PyStr.split_on c s) as [|w ws]; [done|].
    cbn [tail] in *. rewrite IH.
    destruct (PyStr.span (Ascii.eqb c) s) as [x [|y r]]; done.
Qed.

(** X3. Reading a dependency string of a FETCH entry in [solve_conda]
    raises [IndexError] exactly when the string is blank (empty or all
    white space). Otherwise the name is the first run of characters
    without white space and the constraint is all that follows the first
    space of the string, as it is. *)
Theorem parse_depend_blank (it : string) :
  (all_space it → parse_depend it = Raise IndexError)
  ∧ (¬ all_space it →
     ∃ name,
       parse_depend it = Ok (name, (PyStr.partition " " it).2)
       ∧ head (PyStr.split it) = Some name
       ∧ name_ok name).
Proof.
  unfold parse_depend. split.
  - intros Hblank%split_nil. by rewrite Hblank.
  - intros Hfull. pose proof (split_words it) as Hwords.
    destruct (PyStr.split it) as [|name ws] eqn:Hsplit.
    + by apply split_nil in Hsplit.
    + exists name. cbn [head]. rewrite (join_tail_split_on " ").
      split; [done|]. split; [done|]. by apply Forall_cons in Hwords as [? _].
Qed.

(** ** From the requested packages to the specifications to update *)

Lemma head_split_match_spec (name version : string) :
  lacks "[" name →
  head (PyStr.split_on "[" (_to_match_spec name version)) = Some name.
Proof.
  intros Hname. unfold _to_match_spec.
  destruct (PyStr.nonempty version).
  - change (name +:+ "[version='" +:+ version +:+ "']")
      with (name +:+ String "[" ("version='" +:+ version +:+ "']")).
    by rewrite split_on_app.
  - by rewrite split_on_lacks.
Qed.

Lemma spec_for_name_snoc (specs : list string) (v : string) :
  spec_for_name (specs ++ [v])
  = <[default "" (head (PyStr.split_on "[" v)) := v]> (spec_for_name specs).
Proof. unfold spec_for_name. by rewrite foldl_app. Qed.

Lemma pydict_get_snoc {V} (name k : string) (v : V) (d : PyDict.t V) :
  PyDict.get name (d ++ [(k, v)])
  = match PyDict.get name d with
    | Some x => Some x
    | None => if String.eqb name k then Some v else None
    end.
Proof.
  induction d as [|[k' v'] d IH]; [done|]. simpl.
  by destruct (String.eqb name k').
Qed.

Lemma pydict_get_fresh {V} (k : string) (d : PyDict.t V) :
  k ∉ d.*1 → PyDict.get k d = None.
Proof.
  induction d as [|[k' v'] d IH]; [done|]. simpl.
  intros [Hne Hk]%not_elem_of_cons.
  destruct (String.eqb k k') eqn:Heq; [|by apply IH].
  by apply String.eqb_eq in Heq.
Qed.

(** X4. The specifications that [solve_conda] makes with [_to_match_spec]
    are found again by name in [update_specs_for_arch]: when no name has
    an opening bracket and no name comes twice, the index
    [spec_for_name] holds for every name its specification, and nothing
    under any other name. *)
Theorem spec_for_name_match_spec (deps : list (string * string))
    (name : string) :
  NoDup deps.*1 → Forall (λ nv, lacks "[" nv.1) deps →
  spec_for_name (map (λ nv, _to_match_spec nv.1 nv.2) deps) !! name
  = _to_match_spec name <$> PyDict.get name deps.
Proof.
  induction deps as [|[k v] deps IH] using rev_ind; intros Hnd Hall; [done|].
  rewrite fmap_app in Hnd. apply NoDup_app in Hnd as (Hnd & Hfresh & _).
  apply Forall_app in Hall as [Hall Hk%Forall_inv]. cbn [fst] in Hk.
  rewrite map_app. cbn [map fst snd]. rewrite spec_for_name_snoc.
  rewrite head_split_match_spec by done. cbn [default].
  rewrite pydict_get_snoc.
  destruct (decide (k = name)) as [->|Hne].
  - rewrite lookup_insert_eq, pydict_get_fresh, String.eqb_refl; [done|].
    intros Hin. apply (Hfresh _ Hin). left.
  - rewrite lookup_insert_ne by done. rewrite IH by done.
    destruct (PyDict.get name deps); [done|].
    destruct (String.eqb name k) eqn:Heq; [|done].
    apply String.eqb_eq in Heq. by subst.
Qed.

(** ** What the reconciliation runs and prints *)

Lemma static_for_list {A B} (l : list A) (body : A → M B) :
  (∀ x, static (body x)) → static (for_list l body).
Proof.
  intros Hb. induction l as [|x l IH]; [done|]. cbn [for_list].
  apply static_bind; [apply Hb|intros y].
  apply static_bind; [apply IH|intros ys]. apply static_ret.
Qed.

Section ReconstructEffects.
Context `{Host}.

Lemma static_copy_loop (names : list string)
    (link_actions : gmap string Action.t) :
  static (for_list names (λ link_pkg_name,
            it ← lift (item link_pkg_name (link_actions !! link_pkg_name));
            lift (copy_link_action it))).
Proof.
  apply static_for_list. intros n.
  apply static_bind; [apply static_lift|intros ?; apply static_lift].
Qed.

Lemma static_cache_loop (names pkgs_dirs : list string)
    (link_actions : gmap string Action.t) :
  static (for_list names (λ link_pkg_name,
            link_action ←
              lift (item link_pkg_name (link_actions !! link_pkg_name));
            cached_repodata pkgs_dirs link_action)).
Proof.
  apply static_for_list. intros n.
  apply static_bind; [apply static_lift|intros ?].
  apply static_cached_repodata.
Qed.

Lemma query_pkgs_dirs_world (conda platform : string) (w : World) :
  (query_pkgs_dirs conda platform w).2
  = ran [conda; "info"; "--json"] (conda_env_override platform) w.
Proof.
  unfold query_pkgs_dirs, check_output. rewrite bind_assoc, bind_run.
  fold (ran [conda; "info"; "--json"] (conda_env_override platform) w).
  destruct (returncode _ =? 0)%Z; [|done].
  erewrite bind_eval; [|reflexivity].
  unfold loads. destruct (json_loads _); [|done].
  erewrite bind_eval; [|reflexivity]. done.
Qed.

Lemma reconstruct_world_cases (conda platform : string)
    (plan : DryRunInstall) (acts : InstallActions)
    (link_actions fetch_actions : gmap string Action.t) (w : World) :
  let out := _reconstruct_fetch_actions conda platform plan w in
  actions plan = Some acts →
  by_name (default [] (LINK acts)) = Ok link_actions →
  by_name (default [] (FETCH acts)) = Ok fetch_actions →
  if is_micromamba conda || bool_decide (dom link_actions ⊆ dom fetch_actions)
  then out.2 = w
  else out.2 = ran [conda; "info"; "--json"] (conda_env_override platform) w.
Proof.
  intros out Hacts Hlink Hfetch. unfold out, _reconstruct_fetch_actions.
  rewrite Hacts. erewrite bind_eval; [|reflexivity].
  rewrite Hlink. erewrite bind_eval; [|reflexivity].
  rewrite Hfetch. erewrite bind_eval; [|reflexivity].
  destruct (is_micromamba conda); cbn [negb orb].
  - apply static_bind; [apply static_copy_loop|intros ?; apply static_ret].
  - case_bool_decide as Hsub.
    + assert (dom link_actions ∖ dom fetch_actions = ∅) as -> by set_solver.
      rewrite bool_decide_eq_false_2 by (intros Hne; by apply Hne).
      apply static_bind; [|intros ?; apply static_ret].
      apply static_bind; [apply static_ret|intros ?].
      apply static_cache_loop.
    + rewrite bool_decide_eq_true_2; cycle 1.
      { intros Hempty. apply Hsub. intros n Hn.
        destruct (decide (n ∈ dom fetch_actions)) as [|Hout]; [done|].
        assert (n ∈ dom link_actions ∖ dom fetch_actions) as Hin
          by (by apply elem_of_difference).
        rewrite Hempty in Hin. by apply elem_of_empty in Hin. }
      rewrite <- query_pkgs_dirs_world.
      rewrite bind_assoc. unfold mbind at 1, M_bind.
      destruct (query_pkgs_dirs conda platform w) as [[pkgs_dirs|e] w1];
        [|done].
      cbn [snd].
      apply (static_bind (for_list _ _)); [|intros ?; apply static_ret].
      apply static_cache_loop.
Qed.

(** Whatever the plan, the world is left as it was or as one run of
    [info --json] leaves it. *)
Lemma reconstruct_world (conda platform : string) (plan : DryRunInstall)
    (w : World) :
  let out := _reconstruct_fetch_actions conda platform plan w in
  out.2 = w
  ∨ out.2 = ran [conda; "info"; "--json"] (conda_env_override platform) w.
Proof.
  intros out.
  destruct (actions plan) as [acts|] eqn:Hacts; cycle 1.
  { left. unfold out, _reconstruct_fetch_actions. by rewrite Hacts. }
  destruct (by_name (default [] (LINK acts))) as [la|e] eqn:Hlink; cycle 1.
  { left. unfold out, _reconstruct_fetch_actions. rewrite Hacts.
    erewrite bind_eval; [|reflexivity]. by rewrite Hlink. }
  destruct (by_name (default [] (FETCH acts))) as [fa|e] eqn:Hfetch; cycle 1.
  { left. unfold out, _reconstruct_fetch_actions. rewrite Hacts.
    erewrite bind_eval; [|reflexivity]. rewrite Hlink.
    erewrite bind_eval; [|reflexivity]. by rewrite Hfetch. }
  pose proof (reconstruct_world_cases conda platform plan acts la fa w
                Hacts Hlink Hfetch) as Hcases.
  cbv zeta in Hcases. fold out in Hcases.
  destruct (_ || _); [by left|by right].
Qed.

(** X5. [_reconstruct_fetch_actions] prints nothing. With micromamba, or
    when every LINK entry has a FETCH entry of its name, it runs nothing
    and leaves the world as it is. Otherwise it runs the tool once, for
    [info --json], whatever comes of it. *)
Theorem reconstruct_asks_when_needed (conda platform : string)
    (plan : DryRunInstall) (acts : InstallActions)
    (link_actions fetch_actions : gmap string Action.t) (w : World) :
  let out := _reconstruct_fetch_actions conda platform plan w in
  actions plan = Some acts →
  by_name (default [] (LINK acts)) = Ok link_actions →
  by_name (default [] (FETCH acts)) = Ok fetch_actions →
  if is_micromamba conda || bool_decide (dom link_actions ⊆ dom fetch_actions)
  then out.2 = w
  else out.2 = ran [conda; "info"; "--json"] (conda_env_override platform) w.
Proof. apply reconstruct_world_cases. Qed.

End ReconstructEffects.

(** ** Reconciling twice *)



Section ReconstructTwice.
Context `{Host}.



End ReconstructTwice.

(** ** What a solve runs and prints *)

(** A computation that writes no file and runs nothing. *)
Definition idle {A} (m : M A) : Prop :=
  ∀ w, fs (m w).2 = fs w ∧ calls (m w).2 = calls w.

Lemma idle_bind {A B} (m : M A) (k : A → M B) :
  idle m → (∀ a, idle (k a)) → idle (m ≫= k).
Proof.
  intros Hm Hk w. unfold mbind, M_bind. specialize (Hm w).
  destruct (m w) as [[a|e] w1]; simpl in *; [|done].
  destruct (Hk a w1) as [-> ->]. done.
Qed.

Lemma idle_ret {A} (a : A) : idle (mret a).
Proof. done. Qed.

Lemma idle_raise {A} (e : exn) : idle (@raise A e).
Proof. done. Qed.

Lemma idle_print_stderr (line : string) : idle (print_stderr line).
Proof. done. Qed.

Lemma idle_print_stdout (line : string) : idle (print_stdout line).
Proof. done. Qed.

Section SolveEffects.
Context `{Host}.

Lemma idle_error_message (out : string) : idle (error_message out).
Proof.
  unfold error_message. destruct (json_loads out) as [doc|].
  - destruct (j_message doc); [apply idle_ret|].
    apply idle_bind; [apply idle_print_stdout|intros ?; apply idle_ret].
  - apply idle_bind; [apply idle_print_stderr|intros ?; apply idle_ret].
Qed.

Lemma idle_print_proc (args : list string) (proc : Proc) :
  idle (print_proc args proc).
Proof.
  unfold print_proc.
  apply idle_bind; [apply idle_print_stderr|intros ?].
  apply idle_bind.
  - destruct (PyStr.nonempty _); [apply idle_print_stderr|apply idle_ret].
  - intros ?.
    destruct (PyStr.nonempty _); [apply idle_print_stderr|apply idle_ret].
Qed.

(** X7. A solve whose tool fails runs the tool that once and nothing
    else, and writes no file. A solve whose tool succeeds prints nothing,
    and runs the tool at most once more, for [info --json]. *)
Theorem solve_effects (conda : string) (channels specs : list string)
    (platform : string) (w : World) :
  let args := solve_args conda channels specs platform in
  let env := conda_env_override platform in
  let proc := (run_tool args env (fs w)).1 in
  let out := solve_specs_for_arch conda channels specs platform w in
  (returncode proc ≠ 0%Z →
   fs out.2 = (run_tool args env (fs w)).2
   ∧ calls out.2 = calls w ++ [mkCall args env (fs w)])
  ∧ (returncode proc = 0%Z →
     stderr out.2 = stderr w ∧ stdout out.2 = stdout w
     ∧ (calls out.2 = calls w ++ [mkCall args env (fs w)]
        ∨ calls out.2
          = calls w ++ [mkCall args env (fs w);
                        mkCall [conda; "info"; "--json"] env
                               (run_tool args env (fs w)).2])).
Proof.
  intros args env proc out. split.
  - intros Hrc%Z.eqb_neq. unfold out, solve_specs_for_arch.
    rewrite bind_run. fold args env proc. rewrite Hrc.
    set (w1 := mkWorld _ _ _ _).
    destruct (error_message_reported (proc_stdout proc) w1)
      as (before & w2 & Hmsg & _).
    pose proof (idle_error_message (proc_stdout proc) w1) as Hw2.
    rewrite Hmsg in Hw2. cbn [snd] in Hw2.
    rewrite !bind_assoc. rewrite (bind_eval _ _ _ _ _ Hmsg).
    destruct (reported (proc_stdout proc)) as [message shown].
    rewrite !bind_assoc.
    erewrite bind_eval; [|reflexivity].
    rewrite !bind_assoc.
    assert (∃ w3, (if shown then print_stderr message else mret ())
                    (mkWorld (fs w2)
                       (stderr w2 ++ ["Could not lock the environment for platform "
                                      +:+ platform])
                       (stdout w2) (calls w2)) = (Ok (), w3)
                  ∧ fs w3 = fs w2 ∧ calls w3 = calls w2)
      as (w3 & Hshown & Hfs3 & Hcalls3).
    { destruct shown; by eexists. }
    rewrite (bind_eval _ _ _ _ _ Hshown). rewrite !bind_assoc.
    destruct (print_proc_stderr args proc w3) as (after & w4 & Hproc & _).
    pose proof (idle_print_proc args proc w3) as Hw4.
    rewrite Hproc in Hw4. cbn [snd] in Hw4.
    rewrite (bind_eval _ _ _ _ _ Hproc).
    erewrite bind_eval_raise; [|reflexivity]. cbn [snd].
    destruct Hw2 as [Hfs2 Hcalls2]. destruct Hw4 as [Hfs4 Hcalls4].
    rewrite Hfs4, Hcalls4, Hfs3, Hcalls3, Hfs2, Hcalls2. done.
  - intros Hrc. unfold out. rewrite (solve_success _ _ _ _ _ Hrc).
    fold args env proc.
    unfold loads. destruct (json_loads (proc_stdout proc)) as [doc|]; cycle 1.
    { simpl. split; [done|]. split; [done|]. by left. }
    erewrite bind_eval; [|reflexivity].
    destruct (reconstruct_world conda platform (j_plan doc) (ran args env w))
      as [-> | ->].
    + simpl. split; [done|]. split; [done|]. by left.
    + simpl. split; [done|]. split; [done|]. right.
      by rewrite <- app_assoc.
Qed.

End SolveEffects.

(** ** An update whose target has no specification *)

(** The first name without a specification ends the look-ups. *)
Lemma map_result_item_missing {A} (m : gmap string A) (names : list string) :
  (∃ name, name ∈ names ∧ m !! name = None) →
  ∃ name, name ∈ names ∧ m !! name = None
          ∧ map_result (λ name, item name (m !! name)) names
            = Raise (KeyError name).
Proof.
  induction names as [|n names IH]; intros (name & Hin & Hnone).
  - by apply elem_of_nil in Hin.
  - cbn [map_result]. destruct (m !! n) as [a|] eqn:Hn.
    + apply elem_of_cons in Hin as [->|Hin]; [congruence|].
      destruct IH as (name' & Hin' & Hnone' & Hraise); [by exists name|].
      exists name'. split; [by right|]. split; [done|].
      cbn [item]. unfold mbind, result_bind_inst, result_bind.
      by rewrite Hraise.
    + exists n. split; [left|]. split; [done|]. done.
Qed.

Section UpdateEdges.
Context `{Host}.

(** X8. When a package of the synthetic environment is to be updated and
    the specifications have none under its name,
    [update_specs_for_arch] raises [KeyError] with such a name; the tool
    has then been run for the listing of the environment and for nothing
    else. *)
Theorem update_without_spec (conda : string) (specs : list string)
    (locked : PyDict.t LockedDependency.t) (update : list string)
    (platform : string) (channels : list string) (w w1 w2 : World)
    (installed : gmap string Action.t) :
  let prefix := mkdtemp (fs w) in
  let out := update_specs_for_arch conda specs locked update platform channels
               w in
  write_metadata prefix (PyDict.values locked) platform
    (set_fs (<[prefix := Dir]> (fs w)) w) = (Ok (), w1) →
  list_installed conda prefix platform w1 = (Ok installed, w2) →
  (∃ name, name ∈ dom installed ∧ name ∈ update
           ∧ spec_for_name specs !! name = None) →
  (∃ name, name ∈ dom installed ∧ name ∈ update
           ∧ spec_for_name specs !! name = None
           ∧ out.1 = Raise (KeyError name))
  ∧ calls out.2 = calls w ++ [listing conda prefix platform (fs w1)].
Proof.
  intros prefix out Hmeta Hlist (name & Hinst & Hupd & Hnone).
  destruct (map_result_item_missing (spec_for_name specs)
              (set_iter (dom installed ∩ list_to_set update)))
    as (name' & Hin' & Hnone' & Hraise).
  { exists name. split; [|done]. apply set_iter_elem_of, elem_of_intersection.
    split; [done|]. by apply elem_of_list_to_set. }
  apply set_iter_elem_of, elem_of_intersection in Hin' as [Hinst' Hupd'].
  apply elem_of_list_to_set in Hupd'.
  unfold out, prefix.
  rewrite (update_specs_forward _ _ _ _ _ _ _ _ _ _ Hmeta Hlist).
  cbv zeta. unfold after_listing, specs_to_update. rewrite Hraise.
  erewrite bind_eval_raise; [|reflexivity]. cbn [fst snd].
  split; [by exists name'|].
  unfold set_fs. cbn [calls].
  rewrite (list_installed_calls _ _ _ _ _ _ Hlist). f_equal.
  pose proof (quiet_write_metadata prefix (PyDict.values locked) platform
                (set_fs (<[prefix := Dir]> (fs w)) w)) as Hquiet.
  rewrite Hmeta in Hquiet. exact Hquiet.
Qed.

(** ** An update without pinning *)

(** X9. With conda or micromamba and something to update,
    [update_specs_for_arch] writes no pin file: the dry run sees the
    synthetic environment as the listing left it. Its command is
    [install] for conda and [update] for micromamba, followed by the flags
    of the channels, the prefix, [--json], [--dry-run] and the
    specifications to update. *)
Theorem update_without_pinning (conda : string) (specs : list string)
    (locked : PyDict.t LockedDependency.t) (update : list string)
    (platform : string) (channels : list string) (w w1 w2 : World)
    (installed : gmap string Action.t) (to_update : list string) :
  let prefix := mkdtemp (fs w) in
  let out := update_specs_for_arch conda specs locked update platform channels
               w in
  uses_pinning conda = false →
  write_metadata prefix (PyDict.values locked) platform
    (set_fs (<[prefix := Dir]> (fs w)) w) = (Ok (), w1) →
  list_installed conda prefix platform w1 = (Ok installed, w2) →
  specs_to_update specs update installed = Ok to_update →
  to_update ≠ [] →
  ∃ later,
    calls out.2
    = calls w2
      ++ mkCall ([conda; if is_micromamba conda then "update" else "install"]
                 ++ _get_conda_flags channels platform
                 ++ ["-p"; prefix; "--json"; "--dry-run"] ++ to_update)
                (conda_env_override platform) (fs w2)
         :: later.
Proof.
  intros prefix out Hpin Hmeta Hlist Hto Hne.
  unfold out, prefix.
  rewrite (update_specs_forward _ _ _ _ _ _ _ _ _ _ Hmeta Hlist).
  cbv zeta. unfold after_listing. rewrite Hto.
  erewrite bind_eval; [|reflexivity].
  destruct to_update as [|spec rest]; [done|].
  unfold update_dry_run, update_args. rewrite Hpin.
  rewrite bind_assoc. erewrite bind_eval; [|reflexivity].
  unfold set_fs. cbn [snd calls].
  match goal with
  | |- context [calls (?m w2).2] =>
      assert (starts_with m
                (([conda; if is_micromamba conda then "update" else "install"]
                  ++ _get_conda_flags channels platform)
                 ++ ["-p"; mkdtemp (fs w); "--json"; "--dry-run"]
                 ++ spec :: rest)
                (conda_env_override platform)) as Hstart
  end.
  { apply starts_with_bind; [|intros ?; mono].
    apply starts_with_bind; [apply starts_with_run|intros ?; mono]. }
  destruct (Hstart w2) as [later Hlater].
  exists later. rewrite Hlater. by rewrite <- app_assoc.
Qed.

End UpdateEdges.

(** ** What [solve_conda] takes from its arguments *)

Definition conda_managed (kv : string * Dependency) : bool :=
  String.eqb (dep_manager kv.2) "conda".

Lemma conda_spec_of_managed (specs : PyDict.t Dependency) :
  omap conda_spec_of (PyDict.values (List.filter conda_managed specs))
  = omap conda_spec_of (PyDict.values specs).
Proof.
  unfold PyDict.values. induction specs as [|[k dep] specs IH]; [done|].
  assert (∀ l, omap conda_spec_of (dep :: l)
               = match conda_spec_of dep with
                 | Some y => y :: omap conda_spec_of l
                 | None => omap conda_spec_of l
                 end) as Hcons by done.
  cbn [List.filter]. unfold conda_managed at 1. cbn [snd].
  rewrite (fmap_cons snd (k, dep) specs). cbn [snd]. rewrite (Hcons specs.*2).
  destruct (String.eqb (dep_manager dep) "conda") eqn:Hm.
  - rewrite (fmap_cons snd (k, dep)). cbn [snd]. rewrite Hcons. by rewrite IH.
  - assert (conda_spec_of dep = None) as ->; [|done].
    destruct dep as [name manager version|name manager url]; [|done].
    simpl in *. by rewrite Hm.
Qed.

Lemma filter_filter_same {A} (f : A → bool) (l : list A) :
  List.filter f (List.filter f l) = List.filter f l.
Proof.
  induction l as [|x l IH]; [done|]. simpl.
  destruct (f x) eqn:Hx; [|done]. simpl. by rewrite Hx, IH.
Qed.

Lemma pydict_keys_of_list {V} (l : list (string * V)) (k : string) :
  k ∈ PyDict.keys (PyDict.of_list l) → k ∈ l.*1.
Proof.
  unfold PyDict.keys. intros ([k' v] & -> & Hin)%list_elem_of_fmap.
  apply pydict_of_list_elem_of in Hin. apply list_elem_of_fmap.
  by exists (k', v).
Qed.

Section SolveConda.
Context `{Host}.

(** X10. [solve_conda] takes nothing from the requested packages that
    are not versioned packages of the manager conda: a call gives what
    the call without them gives. *)
Theorem solve_conda_conda_specs_only (conda : string)
    (specs : PyDict.t Dependency) (locked : PyDict.t LockedDependency.t)
    (update : list string) (platform : string) (channels : list string) :
  solve_conda conda specs locked update platform channels
  = solve_conda conda (List.filter conda_managed specs) locked update platform
      channels.
Proof.
  unfold solve_conda. rewrite conda_spec_of_managed.
  fold conda_managed. by rewrite filter_filter_same.
Qed.

(** X11. When none of the names to update is the name of a conda package
    of the previous lock, [solve_conda] makes a fresh solve and the
    previous lock plays no part: the call gives what the call with an
    empty lock and nothing to update gives. *)
Theorem solve_conda_fresh (conda : string) (specs : PyDict.t Dependency)
    (locked : PyDict.t LockedDependency.t) (update : list string)
    (platform : string) (channels : list string) :
  (∀ dep, dep ∈ PyDict.values locked →
          LockedDependency.manager dep = "conda" →
          LockedDependency.name dep ∉ update) →
  solve_conda conda specs locked update platform channels
  = solve_conda conda specs [] [] platform channels.
Proof.
  intros Hfresh. unfold solve_conda.
  rewrite bool_decide_eq_false_2; cycle 1.
  { intros Hne. apply Hne. apply set_eq. intros n.
    rewrite elem_of_intersection, !elem_of_list_to_set.
    split; [|by intros ?%elem_of_empty].
    intros [Hupd Hkey]. exfalso.
    apply pydict_keys_of_list in Hkey.
    apply list_elem_of_fmap in Hkey as ([k d] & -> & Hin).
    apply list_elem_of_fmap in Hin as (dep & [= -> ->] & Hin).
    apply list_elem_of_In, filter_In in Hin as [Hin Hm].
    apply String.eqb_eq in Hm. apply list_elem_of_In in Hin.
    by apply (Hfresh dep). }
  rewrite bool_decide_eq_false_2; [done|].
  intros Hne. apply Hne. set_solver.
Qed.

End SolveConda.

(** ** A carried package, read back *)

Section ReadBack.
Context `{Host}.

(** X12. The FETCH entry that [update_specs_for_arch] makes for a package
    it carries over is read by [solve_conda] as a locked package with the
    version of the installed record, the URL built from its base URL,
    platform and distribution name, and the dependencies of the previous
    lock (when their names and constraints are well formed); its hash is
    the previous hash with a further [md5:] in front. *)
Theorem carried_read_back (conda : string)
    (locked : PyDict.t LockedDependency.t) (installed : gmap string Action.t)
    (acts acts' : InstallActions) (package platform : string) :
  carry_one conda locked installed acts package = Ok acts' →
  ∃ entry prior fetch r version base_url subdir dist_name,
    installed !! package = Some entry
    ∧ PyDict.get package locked = Some prior
    ∧ FETCH acts = Some fetch ∧ FETCH acts' = Some (fetch ++ [r])
    ∧ Action.version entry = Some version
    ∧ Action.base_url entry = Some base_url
    ∧ Action.platform entry = Some subdir
    ∧ Action.dist_name entry = Some dist_name
    ∧ (Action.name entry = Some package →
       NoDup (PyDict.keys (LockedDependency.dependencies prior)) →
       Forall (λ kv, name_ok kv.1 ∧ constraint_ok kv.2)
              (LockedDependency.dependencies prior) →
       locked_of_action platform r
       = Ok (package,
             LockedDependency.mk package version "conda" platform
               (LockedDependency.dependencies prior)
               ((if is_micromamba conda then base_url
                 else base_url +:+ "/" +:+ subdir)
                +:+ "/" +:+ dist_name +:+ ".tar.bz2")
               ("md5:" +:+ LockedDependency.hash prior)
               default_optional default_category)).
Proof.
  intros Hcarry.
  apply carry_one_ok in Hcarry
    as (entry & r & link & fetch & Hentry & Hlink & Hfetch & -> & Hcarried).
  destruct Hcarried as (name & version & dist_name & base_url & subdir & prior
                        & prior' & Hname & Hversion & Hdist & Hbase & Hsubdir
                        & Hprior & Hprior' & Hr).
  cbv zeta in Hr.
  exists entry, prior, fetch, r, version, base_url, subdir, dist_name.
  repeat (split; [done|]).
  intros Hpackage Hnodup Hok.
  rewrite Hname in Hpackage. injection Hpackage as ->.
  rewrite Hprior in Hprior'. injection Hprior' as <-.
  subst r. unfold locked_of_action, parse_depends.
  cbn [Action.name Action.version Action.url Action.md5 Action.depends item
       default].
  unfold id. rewrite parse_render_all by done.
  unfold mbind, result_bind_inst, result_bind.
  by rewrite pydict_of_list_NoDup.
Qed.

End ReadBack.

(** ** From the FETCH entries to the locked packages *)

Lemma pydict_get_set {V} (k k' : string) (v : V) (d : PyDict.t V) :
  PyDict.get k (PyDict.set k' v d)
  = if String.eqb k k' then Some v else PyDict.get k d.
Proof.
  induction d as [|[k0 v0] d IH]; [done|]. cbn [PyDict.set].
  destruct (String.eqb k' k0) eqn:H0.
  - apply String.eqb_eq in H0. subst k0. cbn [PyDict.get].
    by destruct (String.eqb k k').
  - cbn [PyDict.get]. rewrite IH.
    destruct (String.eqb k k') eqn:Hk; [|done].
    apply String.eqb_eq in Hk. subst k'. by rewrite H0.
Qed.

Lemma pydict_of_list_snoc {V} (l : list (string * V)) (kv : string * V) :
  PyDict.of_list (l ++ [kv]) = PyDict.set kv.1 kv.2 (PyDict.of_list l).
Proof. unfold PyDict.of_list. by rewrite foldl_app. Qed.

(** In a comprehension the last value given to a key is the one it
    keeps. *)
Lemma pydict_get_of_list {V} (l : list (string * V)) (k : string) (v : V) :
  PyDict.get k (PyDict.of_list l) = Some v →
  ∃ before after, l = before ++ (k, v) :: after ∧ k ∉ after.*1.
Proof.
  induction l as [|[k' v'] l IH] using rev_ind; [done|].
  rewrite pydict_of_list_snoc, pydict_get_set. cbn [fst snd].
  destruct (String.eqb k k') eqn:Hk.
  - apply String.eqb_eq in Hk. subst k'. intros [= ->].
    exists l, []. split; [done|]. apply not_elem_of_nil.
  - intros (before & after & -> & Hafter)%IH.
    exists before, (after ++ [(k', v')]). rewrite <- app_assoc. split; [done|].
    rewrite fmap_app. apply not_elem_of_app. split; [done|].
    apply String.eqb_neq in Hk. by intros ->%list_elem_of_singleton.
Qed.

Lemma pydict_get_of_list_key {V} (l : list (string * V)) (k : string) :
  k ∈ l.*1 → is_Some (PyDict.get k (PyDict.of_list l)).
Proof.
  induction l as [|[k' v'] l IH] using rev_ind.
  - by intros ?%elem_of_nil.
  - rewrite fmap_app, elem_of_app, pydict_of_list_snoc, pydict_get_set.
    cbn [fst snd]. destruct (String.eqb k k') eqn:Hk; [by eexists|].
    apply String.eqb_neq in Hk.
    intros [Hin|Hin%list_elem_of_singleton]; [by apply IH|done].
Qed.

Section Extraction.
Context `{Host}.

Lemma apply_categories_get (requested : PyDict.t Dependency)
    (planned : PyDict.t LockedDependency.t) (n : string)
    (d : LockedDependency.t) :
  PyDict.get n (_apply_categories requested planned) = Some d →
  ∃ d0, PyDict.get n planned = Some d0
        ∧ LockedDependency.name d = LockedDependency.name d0
        ∧ LockedDependency.version d = LockedDependency.version d0
        ∧ LockedDependency.manager d = LockedDependency.manager d0
        ∧ LockedDependency.platform d = LockedDependency.platform d0
        ∧ LockedDependency.dependencies d = LockedDependency.dependencies d0
        ∧ LockedDependency.url d = LockedDependency.url d0
        ∧ LockedDependency.hash d = LockedDependency.hash d0.
Proof.
  unfold _apply_categories. generalize (category_of requested planned).
  intros c. induction planned as [|[k d0] planned IH]; [done|].
  cbn [map fst snd]. destruct (c k) as [category optional].
  cbn [PyDict.get]. destruct (String.eqb n k) eqn:Hk; [|exact IH].
  intros [= <-]. by exists d0.
Qed.

Lemma apply_categories_get_key (requested : PyDict.t Dependency)
    (planned : PyDict.t LockedDependency.t) (n : string) :
  is_Some (PyDict.get n planned) →
  is_Some (PyDict.get n (_apply_categories requested planned)).
Proof.
  unfold _apply_categories. generalize (category_of requested planned).
  intros c. induction planned as [|[k d0] planned IH]; [done|].
  cbn [map fst snd]. destruct (c k) as [category optional].
  cbn [PyDict.get]. destruct (String.eqb n k); [by eexists|exact IH].
Qed.

(** [d], filed under [n], is what [solve_conda] reads from the FETCH
    entry [action]. *)
Definition read_from (platform : string) (action : FetchAction) (n : string)
    (d : LockedDependency.t) : Prop :=
  Action.name action = Some n
  ∧ Action.version action = Some (LockedDependency.version d)
  ∧ Action.url action = Some (LockedDependency.url d)
  ∧ parse_depends (default [] (Action.depends action))
    = Ok (LockedDependency.dependencies d)
  ∧ LockedDependency.hash d
    = match Action.md5 action with
      | Some md5 => "md5:" +:+ md5
      | None => ""
      end
  ∧ LockedDependency.name d = n
  ∧ LockedDependency.manager d = "conda"
  ∧ LockedDependency.platform d = platform.

Lemma locked_of_action_read (platform : string) (action : FetchAction)
    (k : string) (d : LockedDependency.t) :
  locked_of_action platform action = Ok (k, d) → read_from platform action k d.
Proof.
  unfold locked_of_action. intros Hk.
  apply rbind_ok_inv in Hk as (key & Hkey%item_ok_inv & Hk).
  apply rbind_ok_inv in Hk as (version & Hversion%item_ok_inv & Hk).
  apply rbind_ok_inv in Hk as (dependencies & Hdeps & Hk).
  apply rbind_ok_inv in Hk as (url & Hurl%item_ok_inv & Hk).
  injection Hk as <- <-. by repeat split.
Qed.

(** X13. The mapping that [solve_conda] returns has a locked package
    under the name of every FETCH entry of the plan, and nothing else;
    when several FETCH entries have one name, the package is read from
    the last of them: its version and URL, the dependencies parsed from
    its dependency strings, and as hash its [md5] after [md5:], or the
    empty string when it has none. *)
Theorem solve_conda_planned (conda : string) (specs : PyDict.t Dependency)
    (locked : PyDict.t LockedDependency.t) (update : list string)
    (platform : string) (channels : list string) (w w' : World)
    (planned : PyDict.t LockedDependency.t) :
  solve_conda conda specs locked update platform channels w = (Ok planned, w') →
  ∃ plan acts fetch,
    (solve_specs_for_arch conda channels
       (omap conda_spec_of (PyDict.values specs)) platform w = (Ok plan, w')
     ∨ ∃ conda_locked to_update,
         update_specs_for_arch conda
           (omap conda_spec_of (PyDict.values specs)) conda_locked to_update
           platform channels w = (Ok plan, w'))
    ∧ actions plan = Some acts ∧ FETCH acts = Some fetch
    ∧ (∀ action, action ∈ fetch →
         ∃ n, named n action ∧ is_Some (PyDict.get n planned))
    ∧ (∀ n d, PyDict.get n planned = Some d →
         ∃ before action after,
           fetch = before ++ action :: after
           ∧ Forall (λ later, ¬ named n later) after
           ∧ read_from platform action n d).
Proof.
  unfold solve_conda. intros Hsolve.
  apply bind_ok_inv in Hsolve as (plan & w1 & Hplan & Hsolve).
  apply bind_ok_inv in Hsolve as (acts & w2 & Hacts & Hsolve).
  apply lift_ok_inv in Hacts as [Hacts%item_ok_inv ->].
  apply bind_ok_inv in Hsolve as (fetch & w2 & Hfetch & Hsolve).
  apply lift_ok_inv in Hfetch as [Hfetch%item_ok_inv ->].
  apply bind_ok_inv in Hsolve as (kvs & w2 & Hkvs & Hsolve).
  apply lift_ok_inv in Hkvs as [Hkvs ->].
  apply mret_ok_inv in Hsolve as [<- <-].
  apply map_result_Forall2 in Hkvs.
  exists plan, acts, fetch. split.
  { case_bool_decide; [right; by eexists _, _|by left]. }
  split; [done|]. split; [done|]. split.
  - intros action Hin. apply list_elem_of_lookup in Hin as [i Hi].
    destruct (Forall2_lookup_l _ _ _ _ _ Hkvs Hi) as ([k d0] & Hkv & Hread).
    apply locked_of_action_read in Hread. exists k.
    split; [apply Hread|].
    apply apply_categories_get_key, pydict_get_of_list_key.
    apply list_elem_of_fmap. exists (k, d0). split; [done|].
    by eapply list_elem_of_lookup_2.
  - intros n d (d0 & Hd0 & Hn & Hv & Hm & Hp & Hdeps & Hu & Hh)%apply_categories_get.
    apply pydict_get_of_list in Hd0 as (kb & ka & -> & Hafter).
    apply Forall2_app_inv_r in Hkvs as (before & rest & Hb & Hrest & ->).
    apply Forall2_cons_inv_r in Hrest as (action & after & Hread & Ha & ->).
    exists before, action, after. split; [done|]. split.
    + apply Forall_forall. intros later Hin Hnamed.
      apply list_elem_of_lookup in Hin as [i Hi].
      destruct (Forall2_lookup_l _ _ _ _ _ Ha Hi) as ([k' d'] & Hkv & Hr).
      apply locked_of_action_read in Hr as (Hname & _).
      unfold named in Hnamed. rewrite Hname in Hnamed.
      injection Hnamed as ->. apply Hafter.
      apply list_elem_of_fmap. exists (n, d'). split; [done|].
      by eapply list_elem_of_lookup_2.
    + apply locked_of_action_read in Hread
        as (R1 & R2 & R3 & R4 & R5 & R6 & R7 & R8).
      unfold read_from. rewrite Hn, Hv, Hm, Hp, Hdeps, Hu, Hh. done.
Qed.

End Extraction.

(** ** The files of the synthetic environment *)

Lemma sapp_inj_l (a b c : string) : a +:+ b = a +:+ c → b = c.
Proof.
  induction a as [|x a IH]; [done|]. rewrite !sapp_cons.
  intros [= Heq]. by apply IH.
Qed.

Lemma path_join_inj (dir a b : string) : dir // a = dir // b → a = b.
Proof.
  unfold path_join. intros Heq%sapp_inj_l. by apply (sapp_inj_l "/").
Qed.

Lemma history_not_json (stem : string) : "history" ≠ stem +:+ ".json".
Proof.
  destruct stem as [|a [|b [|c stem]]]; try done.
  rewrite !sapp_cons. intros [= _ _ _ Heq].
  apply (f_equal String.length) in Heq. rewrite sapp_length in Heq.
  simpl in Heq. lia.
Qed.

Lemma for_each_app {A} (l1 l2 : list A) (body : A → M unit) (w : World) :
  for_each (l1 ++ l2) body w
  = (_ ← for_each l1 body; for_each l2 body) w.
Proof.
  revert w. induction l1 as [|x l1 IH]; intros w; [done|].
  cbn [app for_each]. rewrite bind_assoc.
  destruct (body x w) as [[[]|e] w1] eqn:Hx.
  - rewrite !(bind_eval _ _ _ _ _ Hx). apply IH.
  - by rewrite !(bind_eval_raise _ _ _ _ _ Hx).
Qed.

Lemma meta_entry_json (dep : LockedDependency.t) (file_name : string)
    (entry : MetaEntry) :
  meta_entry dep = Ok (file_name, entry) → ∃ stem, file_name = stem +:+ ".json".
Proof.
  unfold meta_entry. intros Hentry.
  apply rbind_ok_inv in Hentry as (url & _ & Hentry).
  apply rbind_ok_inv in Hentry as (path & _ & Hentry).
  injection Hentry as <- _. by eexists.
Qed.

Section Files.
Context `{Host}.

(** The loop over the packages: one file for each, the last package of a
    file name having the last word; nothing else is touched. *)
Lemma write_entries_files (conda_meta : string)
    (deps : list LockedDependency.t) (w w' : World) :
  for_each deps (λ dep,
    '(file_name, entry) ← lift (meta_entry dep);
    write_file (conda_meta // file_name) (json_dump entry)) w = (Ok (), w') →
  (∀ dep, dep ∈ deps →
     ∃ stem entry before dep' after entry',
       meta_entry dep = Ok (stem +:+ ".json", entry)
       ∧ deps = before ++ dep' :: after
       ∧ meta_entry dep' = Ok (stem +:+ ".json", entry')
       ∧ (∀ d e, d ∈ after → meta_entry d ≠ Ok (stem +:+ ".json", e))
       ∧ fs w' !! (conda_meta // (stem +:+ ".json"))
         = Some (File (json_dump entry')))
  ∧ (∀ p, (∀ stem, p ≠ conda_meta // (stem +:+ ".json")) →
          fs w' !! p = fs w !! p)
  ∧ stderr w' = stderr w ∧ stdout w' = stdout w ∧ calls w' = calls w.
Proof.
  revert w'. induction deps as [|dep deps IH] using rev_ind; intros w' Hrun.
  - apply mret_ok_inv in Hrun as [_ ->].
    split; [by intros dep ?%elem_of_nil|done].
  - rewrite for_each_app in Hrun.
    apply bind_ok_inv in Hrun as ([] & w1 & Hdeps & Hrun).
    destruct (IH _ Hdeps) as (Hfiles & Hframe & Herr & Hout & Hcalls).
    cbn [for_each] in Hrun.
    apply bind_ok_inv in Hrun as ([] & w2 & Hbody & Hrun).
    apply mret_ok_inv in Hrun as [_ ->].
    apply bind_ok_inv in Hbody as ([file_name entry] & w3 & Hentry & Hbody).
    apply lift_ok_inv in Hentry as [Hentry ->].
    unfold write_file, modify_fs in Hbody. injection Hbody as <-.
    destruct (meta_entry_json _ _ _ Hentry) as [stem ->].
    cbn [fs set_fs stderr stdout calls].
    assert (∃ before dep' after entry',
              deps ++ [dep] = before ++ dep' :: after
              ∧ meta_entry dep' = Ok (stem +:+ ".json", entry')
              ∧ (∀ d e, d ∈ after → meta_entry d ≠ Ok (stem +:+ ".json", e))
              ∧ <[conda_meta // (stem +:+ ".json") := File (json_dump entry)]>
                  (fs w1) !! (conda_meta // (stem +:+ ".json"))
                = Some (File (json_dump entry'))) as Hlast.
    { exists deps, dep, [], entry. split; [done|]. split; [done|].
      split; [by intros d e ?%elem_of_nil|apply lookup_insert_eq]. }
    split; [|split; [|done]].
    + intros dep0 [Hin|Hdep]%elem_of_app;
        [|apply list_elem_of_singleton in Hdep; subst dep0].
      * destruct (Hfiles dep0 Hin)
          as (stem0 & entry0 & before & dep' & after & entry' & H0 & Hdeps'
              & H' & Hafter & Hfile).
        destruct (decide (stem +:+ ".json" = stem0 +:+ ".json")) as [Heq|Hne].
        -- rewrite Heq in Hlast |- *.
           destruct Hlast as (before1 & dep1 & after1 & entry1 & Hlast).
           exists stem0, entry0, before1, dep1, after1, entry1.
           split; [done|exact Hlast].
        -- exists stem0, entry0, before, dep', (after ++ [dep]), entry'.
           split; [done|].
           split; [by rewrite Hdeps', <- app_assoc|]. split; [done|]. split.
           ++ intros d e [Hd|Hd]%elem_of_app; [by apply Hafter|].
              apply list_elem_of_singleton in Hd. subst d.
              rewrite Hentry. by intros [= Heq _].
           ++ rewrite lookup_insert_ne; [done|].
              by intros Heq%path_join_inj.
      * destruct Hlast as (before1 & dep1 & after1 & entry1 & Hlast).
        exists stem, entry, before1, dep1, after1, entry1.
        split; [done|exact Hlast].
    + intros p Hp. rewrite lookup_insert_ne by (intros Heq; by apply (Hp stem)).
      by apply Hframe.
Qed.

Lemma elem_of_conda_for (platform : string) (locked : list LockedDependency.t)
    (dep : LockedDependency.t) :
  dep ∈ List.filter (is_conda_for platform) locked
  ↔ dep ∈ locked ∧ LockedDependency.manager dep = "conda"
    ∧ LockedDependency.platform dep = platform.
Proof.
  rewrite list_elem_of_In, filter_In, <- list_elem_of_In.
  unfold is_conda_for. by rewrite andb_true_iff, !String.eqb_eq.
Qed.

Lemma filter_split {A} (P : A → bool) (l a b : list A) (x : A) :
  List.filter P l = a ++ x :: b →
  ∃ l1 l2, l = l1 ++ x :: l2 ∧ List.filter P l1 = a ∧ List.filter P l2 = b.
Proof.
  revert a. induction l as [|y l IH]; intros a Heq.
  - by destruct a.
  - cbn [List.filter] in Heq. destruct (P y) eqn:Hy.
    + destruct a as [|z a]; cbn [app] in Heq; injection Heq as -> Heq.
      * exists [], l. by rewrite Heq.
      * destruct (IH _ Heq) as (l1 & l2 & -> & <- & <-).
        exists (z :: l1), l2. cbn [List.filter]. by rewrite Hy.
    + destruct (IH _ Heq) as (l1 & l2 & -> & <- & <-).
      exists (y :: l1), l2. cbn [List.filter]. by rewrite Hy.
Qed.

(** X14. [write_metadata], the part of [fake_conda_environment] before
    its [yield], fails with [FileExistsError] when [conda-meta] is there
    already. Otherwise, when it returns, [conda-meta] is a directory with
    an empty file [history] and, for every locked package of the manager
    conda and of the platform, a file named after the package that holds
    the record of the last locked package of that file name: no package
    of the manager conda and of the platform that comes later in the lock
    has that file name. No other path is touched, nothing is printed and
    nothing is run. *)
Theorem write_metadata_files (prefix : string)
    (locked : list LockedDependency.t) (platform : string) (w : World) :
  let conda_meta := prefix // "conda-meta" in
  let out := write_metadata prefix locked platform w in
  (is_Some (fs w !! conda_meta) →
   out = (Raise (FileExistsError conda_meta), w))
  ∧ (fs w !! conda_meta = None → fs w !! (conda_meta // "history") = None →
     out.1 = Ok () →
     fs out.2 !! conda_meta = Some Dir
     ∧ fs out.2 !! (conda_meta // "history") = Some (File "")
     ∧ (∀ dep, dep ∈ locked → LockedDependency.manager dep = "conda" →
               LockedDependency.platform dep = platform →
          ∃ stem entry before dep' after entry',
            meta_entry dep = Ok (stem +:+ ".json", entry)
            ∧ locked = before ++ dep' :: after
            ∧ LockedDependency.manager dep' = "conda"
            ∧ LockedDependency.platform dep' = platform
            ∧ meta_entry dep' = Ok (stem +:+ ".json", entry')
            ∧ (∀ d e, d ∈ after → LockedDependency.manager d = "conda" →
                      LockedDependency.platform d = platform →
                      meta_entry d ≠ Ok (stem +:+ ".json", e))
            ∧ fs out.2 !! (conda_meta // (stem +:+ ".json"))
              = Some (File (json_dump entry')))
     ∧ (∀ p, p ≠ conda_meta → p ≠ conda_meta // "history" →
             (∀ stem, p ≠ conda_meta // (stem +:+ ".json")) →
             fs out.2 !! p = fs w !! p)
     ∧ stderr out.2 = stderr w ∧ stdout out.2 = stdout w
     ∧ calls out.2 = calls w).
Proof.
  intros conda_meta out. unfold out, write_metadata. fold conda_meta. split.
  - intros Hsome. unfold mkdir, exists_.
    erewrite bind_eval_raise; [done|].
    erewrite bind_eval; [|reflexivity].
    by rewrite bool_decide_eq_true_2.
  - intros Hnone Hhistory.
    erewrite bind_eval; cycle 1.
    { unfold mkdir, exists_. erewrite bind_eval; [|reflexivity].
      rewrite bool_decide_eq_false_2; [reflexivity|].
      rewrite Hnone. by intros [? ?]. }
    erewrite bind_eval; cycle 1.
    { unfold touch, exists_. erewrite bind_eval; [|reflexivity].
      rewrite bool_decide_eq_false_2; [reflexivity|].
      cbn [fs set_fs]. rewrite lookup_insert_ne by (symmetry; apply path_join_ne).
      rewrite Hhistory. by intros [? ?]. }
    destruct (for_each _ _ _) as [[[]|e] w'] eqn:Hloop; [|done]. intros _.
    apply write_entries_files in Hloop
      as (Hfiles & Hframe & Herr & Hout & Hcalls).
    cbn [snd]. cbn [fs set_fs stderr stdout calls] in Hframe, Herr, Hout, Hcalls.
    assert (∀ stem, conda_meta ≠ conda_meta // (stem +:+ ".json")) as Hdir
      by (intros stem; symmetry; apply path_join_ne).
    assert (∀ stem, conda_meta // "history"
                    ≠ conda_meta // (stem +:+ ".json")) as Hhist.
    { intros stem Heq%path_join_inj. by apply history_not_json in Heq. }
    split.
    { rewrite Hframe by done.
      rewrite lookup_insert_ne by apply path_join_ne. apply lookup_insert_eq. }
    split.
    { rewrite Hframe by done. apply lookup_insert_eq. }
    split.
    { intros dep Hin Hm Hp.
      destruct (Hfiles dep)
        as (stem & entry & fbefore & dep' & fafter & entry' & H0 & Hsplit & H'
            & Hafter & Hfile).
      { apply elem_of_conda_for. done. }
      assert (dep' ∈ List.filter (is_conda_for platform) locked) as Hin'.
      { rewrite Hsplit. apply elem_of_app. right. left. }
      apply elem_of_conda_for in Hin' as (_ & Hm' & Hp').
      apply filter_split in Hsplit as (before & after & -> & _ & <-).
      exists stem, entry, before, dep', after, entry'.
      repeat (split; [done|]). split; [|done].
      intros d e Hd Hdm Hdp. apply Hafter. by apply elem_of_conda_for. }
    split; [|done].
    intros p Hcm Hh Hp. rewrite Hframe by done.
    by rewrite !lookup_insert_ne.
Qed.

End Files.

(** ** Which tool is pinned *)

Lemma name_of_string_base (dir base : string) :
  base ≠ "" → base ≠ "." → lacks "/" base →
  PurePosixPath.name (PurePosixPath.of_string (dir +:+ String "/" base)) = base
  ∧ PurePosixPath.name (PurePosixPath.of_string base) = base.
Proof.
  intros Hne Hdot Hbase. unfold PurePosixPath.name, PurePosixPath.of_string.
  cbn [PurePosixPath.parts]. split.
  - rewrite split_on_app_any, (split_on_lacks "/" base) by done.
    rewrite filter_app, filter_cons_True, filter_nil by done.
    by rewrite last_snoc.
  - rewrite (split_on_lacks "/" base) by done.
    by rewrite filter_cons_True, filter_nil.
Qed.

(** X15. Whether [update_specs_for_arch] pins the packages depends on
    the file name of the executable alone, not on the directory it lies
    in: the pinning is used exactly when that name starts with [mamba]. *)
Theorem uses_pinning_basename (dir base : string) :
  base ≠ "" → base ≠ "." → lacks "/" base →
  uses_pinning (dir +:+ "/" +:+ base) = PyStr.startswith "mamba" base
  ∧ uses_pinning base = PyStr.startswith "mamba" base.
Proof.
  intros Hne Hdot Hbase. unfold uses_pinning.
  destruct (name_of_string_base dir base Hne Hdot Hbase) as [Hdir Hbare].
  change (dir +:+ "/" +:+ base) with (dir +:+ String "/" base).
  by rewrite Hdir, Hbare.
Qed.

(** ** A locked URL that cannot be split *)

Section BadUrl.
Context `{Host}.

Lemma write_entries_raise (conda_meta : string)
    (deps : list LockedDependency.t) (w : World) :
  (∃ dep e, dep ∈ deps ∧ meta_entry dep = Raise e) →
  ∃ dep e w',
    dep ∈ deps ∧ meta_entry dep = Raise e
    ∧ for_each deps (λ dep,
        '(file_name, entry) ← lift (meta_entry dep);
        write_file (conda_meta // file_name) (json_dump entry)) w
      = (Raise e, w').
Proof.
  revert w. induction deps as [|dep deps IH]; intros w (bad & e & Hin & Hbad).
  - by apply elem_of_nil in Hin.
  - cbn [for_each]. destruct (meta_entry dep) as [[file_name entry]|e'] eqn:Hdep.
    + apply elem_of_cons in Hin as [->|Hin]; [congruence|].
      erewrite bind_eval; [|reflexivity].
      destruct (IH (set_fs (<[conda_meta // file_name :=
                                File (json_dump entry)]> (fs w)) w))
        as (dep' & e'' & w' & Hin' & Hbad' & Hrun); [by exists bad, e|].
      exists dep', e'', w'. split; [by right|]. split; [done|]. exact Hrun.
    + exists dep, e', w. split; [left|]. split; [done|].
      erewrite bind_eval_raise; reflexivity.
Qed.

(** X16. When the URL of a locked conda package of the platform cannot
    be split, [update_specs_for_arch] raises the exception of [urlsplit]
    for such a package, and the tool is not run at all. *)
Theorem update_with_bad_url (conda : string) (specs : list string)
    (locked : PyDict.t LockedDependency.t) (update : list string)
    (platform : string) (channels : list string) (w : World) :
  let out := update_specs_for_arch conda specs locked update platform channels
               w in
  (∃ dep e, dep ∈ PyDict.values locked
            ∧ LockedDependency.manager dep = "conda"
            ∧ LockedDependency.platform dep = platform
            ∧ UrlParse.urlsplit (LockedDependency.url dep) = Raise e) →
  (∃ dep e, dep ∈ PyDict.values locked
            ∧ LockedDependency.manager dep = "conda"
            ∧ LockedDependency.platform dep = platform
            ∧ UrlParse.urlsplit (LockedDependency.url dep) = Raise e
            ∧ out.1 = Raise e)
  ∧ calls out.2 = calls w.
Proof.
  intros out (bad & e & Hin & Hm & Hp & Hbad).
  unfold out, update_specs_for_arch. rewrite fake_conda_environment_run.
  cbv zeta. set (prefix := mkdtemp (fs w)).
  set (w0 := set_fs (<[prefix := Dir]> (fs w)) w).
  pose proof (quiet_write_metadata prefix (PyDict.values locked) platform w0)
    as Hquiet.
  assert (∃ dep e w1,
            dep ∈ PyDict.values locked
            ∧ LockedDependency.manager dep = "conda"
            ∧ LockedDependency.platform dep = platform
            ∧ UrlParse.urlsplit (LockedDependency.url dep) = Raise e
            ∧ write_metadata prefix (PyDict.values locked) platform w0
              = (Raise e, w1)) as (dep & e' & w1 & Hin' & Hm' & Hp' & Hbad' & Hrun).
  { unfold write_metadata.
    assert (fs w0 !! (prefix // "conda-meta") = None) as Hnone.
    { unfold w0. cbn [fs set_fs].
      rewrite lookup_insert_ne by (symmetry; apply path_join_ne).
      apply mkdtemp_fresh, under_join. }
    erewrite bind_eval; cycle 1.
    { unfold mkdir, exists_. erewrite bind_eval; [|reflexivity].
      rewrite bool_decide_eq_false_2; [reflexivity|].
      rewrite Hnone. by intros [? ?]. }
    match goal with
    | |- context [(touch ?p ≫= _) ?w1] =>
        destruct (touch p w1) as [[[]|e1] w2] eqn:Htouch
    end.
    2:{ unfold touch, exists_ in Htouch.
        erewrite bind_eval in Htouch; [|reflexivity].
        by case_bool_decide. }
    rewrite (bind_eval _ _ _ _ _ Htouch).
    destruct (write_entries_raise (prefix // "conda-meta")
                (List.filter (is_conda_for platform) (PyDict.values locked)) w2)
      as (dep & e' & w3 & Hin' & Hraise & Hrun).
    { exists bad, e. split; [by apply elem_of_conda_for|].
      unfold meta_entry. by rewrite Hbad. }
    apply elem_of_conda_for in Hin' as (Hin' & Hm' & Hp').
    exists dep, e', w3. repeat (split; [done|]).
    split; [|exact Hrun].
    unfold meta_entry in Hraise.
    destruct (UrlParse.urlsplit (LockedDependency.url dep)) as [url|e0];
      [|by injection Hraise as ->].
    exfalso. unfold mbind at 1, result_bind_inst, result_bind in Hraise.
    destruct (strip_suffixes_any
                (S (String.length
                      (PurePosixPath.name
                         (PurePosixPath.of_string (UrlParse.path url)))))
                (PurePosixPath.of_string (UrlParse.path url)))
      as (p' & tail & Hstrip & _); [lia|].
    by rewrite Hstrip in Hraise. }
  rewrite Hrun in Hquiet. cbn [snd] in Hquiet.
  rewrite (bind_eval_raise _ _ _ _ _ Hrun). cbn [fst snd].
  split; [by exists dep, e'|]. unfold set_fs. cbn [calls]. by rewrite Hquiet.
Qed.

End BadUrl.

(** ** An installed package that the lock does not hold *)

Section NotLocked.
Context `{Host}.

Lemma item_raise {A} (key : string) (field : option A) (e : exn) :
  item key field = Raise e → e = KeyError key.
Proof. destruct field; [done|]. by intros [= <-]. Qed.

Lemma carry_one_not_locked (conda : string)
    (locked : PyDict.t LockedDependency.t) (installed : gmap string Action.t)
    (acts : InstallActions) (package : string) :
  PyDict.get package locked = None →
  ∃ key, carry_one conda locked installed acts package = Raise (KeyError key).
Proof.
  intros Hnone. unfold carry_one. rewrite Hnone.
  destruct (installed !! package) as [entry|]; [|by eexists].
  cbn [item]. unfold mbind at 1, result_bind_inst, result_bind.
  destruct (Action.dist_name entry) as [dist_name|]; [|by eexists].
  cbn [item]. unfold mbind at 1, result_bind_inst, result_bind.
  destruct (is_micromamba conda).
  - destruct (Action.base_url entry); by eexists.
  - destruct (Action.base_url entry); [|by eexists].
    destruct (Action.platform entry); by eexists.
Qed.

Lemma rbind_raise {A B} (r : result A) (k : A → result B) (e : exn) :
  r ≫= k = Raise e → r = Raise e ∨ ∃ a, r = Ok a ∧ k a = Raise e.
Proof.
  unfold mbind, result_bind_inst, result_bind.
  destruct r as [a|e']; intros Hr; [right; exists a|left].
  - split; [done|exact Hr].
  - by injection Hr as ->.
Qed.

Lemma rbind_item_raise {A B} (key : string) (field : option A)
    (k : A → result B) (e : exn) :
  item key field ≫= k = Raise e →
  e = KeyError key ∨ ∃ a, field = Some a ∧ k a = Raise e.
Proof.
  unfold mbind, result_bind_inst, result_bind.
  destruct field as [a|]; intros Hr; [right; exists a|left].
  - split; [done|exact Hr].
  - symmetry. by injection Hr.
Qed.

(** Whatever goes wrong when a package is carried over is a missing
    key. *)
Lemma carry_one_raise (conda : string) (locked : PyDict.t LockedDependency.t)
    (installed : gmap string Action.t) (acts : InstallActions)
    (package : string) (e : exn) :
  carry_one conda locked installed acts package = Raise e →
  ∃ key, e = KeyError key.
Proof.
  unfold carry_one. intros Hc.
  apply rbind_item_raise in Hc as [->|(entry & _ & Hc)]; [by eexists|].
  apply rbind_item_raise in Hc as [->|(dist_name & _ & Hc)]; [by eexists|].
  apply rbind_raise in Hc as [Hc|(channel & _ & Hc)].
  { destruct (is_micromamba conda).
    - apply item_raise in Hc. by eexists.
    - apply rbind_item_raise in Hc as [->|(b & _ & Hc)]; [by eexists|].
      apply rbind_item_raise in Hc as [->|(p & _ & Hc)]; [by eexists|]. done. }
  apply rbind_item_raise in Hc as [->|(prior & _ & Hc)]; [by eexists|].
  apply rbind_item_raise in Hc as [->|(fetch & _ & Hc)]; [by eexists|].
  apply rbind_item_raise in Hc as [->|(name & _ & Hc)]; [by eexists|].
  apply rbind_item_raise in Hc as [->|(version & _ & Hc)]; [by eexists|].
  apply rbind_item_raise in Hc as [->|(prior' & _ & Hc)]; [by eexists|].
  apply rbind_item_raise in Hc as [->|(subdir & _ & Hc)]; [by eexists|].
  apply rbind_item_raise in Hc as [->|(link & _ & Hc)]; [by eexists|].
  done.
Qed.

Lemma carry_forward_not_locked (conda : string)
    (locked : PyDict.t LockedDependency.t) (installed : gmap string Action.t)
    (packages : list string) (acts : InstallActions) (package : string) :
  package ∈ packages → PyDict.get package locked = None →
  ∃ key, carry_forward conda locked installed packages acts
         = Raise (KeyError key).
Proof.
  intros Hin Hnone. revert acts.
  induction packages as [|p packages IH]; intros acts.
  - by apply elem_of_nil in Hin.
  - cbn [carry_forward].
    destruct (carry_one conda locked installed acts p) as [acts'|e] eqn:Hone.
    + apply elem_of_cons in Hin as [->|Hin].
      * destruct (carry_one_not_locked conda locked installed acts p Hnone)
          as [key Hkey]. congruence.
      * apply (IH Hin).
    + apply carry_one_raise in Hone as [key ->]. by exists key.
Qed.

(** X17. When the synthetic environment lists a package that the plan of
    the dry run does not link and that the previous lock does not hold,
    the completion of the plan in [update_specs_for_arch] raises
    [KeyError]. *)
Theorem complete_plan_not_locked (conda : string)
    (locked : PyDict.t LockedDependency.t) (installed : gmap string Action.t)
    (dryrun : DryRunInstall) (link : list Action.t)
    (updated : gmap string Action.t) (package : string) :
  LINK (default no_actions (actions dryrun)) = Some link →
  by_name link = Ok updated →
  package ∈ dom installed → package ∉ dom updated →
  PyDict.get package locked = None →
  ∃ key, complete_plan conda locked installed dryrun = Raise (KeyError key).
Proof.
  intros Hlink Hupdated Hinst Hnew Hnone. unfold complete_plan.
  fold no_actions. rewrite Hlink. cbn [item].
  unfold mbind at 1, result_bind_inst, result_bind. rewrite Hupdated.
  unfold mbind at 1, result_bind_inst, result_bind.
  destruct (carry_forward_not_locked conda locked installed
              (set_iter (dom installed ∖ dom updated))
              (default no_actions (actions dryrun)) package)
    as [key Hkey]; [|done|].
  { apply set_iter_elem_of. by apply elem_of_difference. }
  exists key. unfold mbind, result_bind_inst, result_bind. by rewrite Hkey.
Qed.

End NotLocked.

(** ** No installed package is lost in an update *)

Section Kept.
Context `{Host}.


End Kept.

(** ** Examples for the rest of the adapter *)

Lemma spec_for_name_match_spec_witness :
  let deps := [("zlib", ">=1.2"); ("libpng", "")] in
  NoDup deps.*1
  ∧ Forall (λ nv, lacks "[" nv.1) deps
  ∧ spec_for_name ["zlib[version='>=1.2']"; "libpng"] !! "zlib"
    = Some "zlib[version='>=1.2']".
Proof.
  intros deps.
  assert (NoDup deps.*1) as Hnodup by by_decide.
  assert (Forall (λ nv, lacks "[" nv.1) deps) as Hall
    by (repeat constructor; done).
  split; [exact Hnodup|]. split; [exact Hall|].
  exact (spec_for_name_match_spec deps "zlib" Hnodup Hall).
Defined.

Lemma reconstruct_asks_when_needed_witness :
  let plan := plan_of [zlib_link] [] in
  let h := cache_host plan in
  (_reconstruct_fetch_actions (H := h) "conda" "linux-64" plan cache_world).2
  = ran (H := h) ["conda"; "info"; "--json"] [("CONDA_SUBDIR", "linux-64")]
        cache_world.
Proof.
  intros plan h.
  exact (reconstruct_asks_when_needed (H := h) "conda" "linux-64" plan
           (mkInstallActions (Some [zlib_link]) (Some []))
           {[ "zlib" := zlib_link ]} ∅ cache_world eq_refl eq_refl eq_refl).
Defined.


Lemma update_without_spec_witness :
  let out := update_specs_for_arch (H := listing_host) "conda" ["zlib"]
               prior_lock ["libpng"] "linux-64" ["conda-forge"] empty_world in
  spec_for_name ["zlib"] !! "libpng" = None
  ∧ (∃ name, out.1 = Raise (KeyError name))
  ∧ length (calls out.2) = 1.
Proof.
  intros out.
  assert (spec_for_name ["zlib"] !! "libpng" = None) as Hnone by by_compute.
  split; [exact Hnone|].
  destruct (update_without_spec (H := listing_host) "conda" ["zlib"] prior_lock
              ["libpng"] "linux-64" ["conda-forge"] empty_world
              (written (H := listing_host) prior_lock "linux-64" empty_world)
              (listed (H := listing_host) "conda" prior_lock "linux-64"
                 empty_world)
              installed_packages)
    as [(name & _ & _ & _ & Hraise) Hcalls].
  - by_compute.
  - by_compute.
  - exists "libpng". split; [by_decide|]. split; [by_decide|]. exact Hnone.
  - split; [by exists name|]. fold out in Hcalls. by rewrite Hcalls.
Defined.

Lemma update_without_pinning_witness :
  let h := update_host "install" libpng_plan in
  let out := update_specs_for_arch (H := h) "conda" ["zlib"; "libpng"]
               prior_lock ["libpng"] "linux-64" ["conda-forge"] empty_world in
  let w2 := listed (H := h) "conda" prior_lock "linux-64" empty_world in
  uses_pinning "conda" = false
  ∧ ∃ later,
      calls out.2
      = calls w2
        ++ mkCall ["conda"; "install"; "--channel"; "conda-forge"; "-p"; "/tmp/x";
                   "--json"; "--dry-run"; "libpng"]
                  [("CONDA_SUBDIR", "linux-64")] (fs w2)
           :: later.
Proof.
  intros h out w2.
  assert (uses_pinning "conda" = false) as Hpin by reflexivity.
  split; [exact Hpin|].
  destruct (update_without_pinning (H := h) "conda" ["zlib"; "libpng"]
              prior_lock ["libpng"] "linux-64" ["conda-forge"] empty_world
              (written (H := h) prior_lock "linux-64" empty_world) w2
              installed_packages ["libpng"] Hpin) as [later Hlater].
  - by_compute.
  - by_compute.
  - by_compute.
  - discriminate.
  - exists later. exact Hlater.
Defined.

Lemma solve_conda_fresh_witness :
  (∀ dep, dep ∈ PyDict.values prior_lock →
          LockedDependency.manager dep = "conda" →
          LockedDependency.name dep ∉ ["python"])
  ∧ solve_conda (H := solve_host) "conda"
      [("zlib", VersionedDependency "zlib" "conda" ">=1.2")] prior_lock
      ["python"] "linux-64" ["conda-forge"]
    = solve_conda (H := solve_host) "conda"
        [("zlib", VersionedDependency "zlib" "conda" ">=1.2")] [] []
        "linux-64" ["conda-forge"].
Proof.
  assert (∀ dep, dep ∈ PyDict.values prior_lock →
                 LockedDependency.manager dep = "conda" →
                 LockedDependency.name dep ∉ ["python"]) as Hfresh.
  { intros dep Hin _. change (PyDict.values prior_lock)
      with [zlib_locked; libpng_locked] in Hin.
    apply elem_of_cons in Hin as [->|Hin];
      [|apply list_elem_of_singleton in Hin; subst dep]; by_decide. }
  split; [exact Hfresh|].
  exact (solve_conda_fresh (H := solve_host) "conda" _ prior_lock ["python"]
           "linux-64" ["conda-forge"] Hfresh).
Defined.

Lemma carried_read_back_witness :
  ∃ acts',
    carry_one (H := listing_host) "conda" prior_lock installed_packages
      no_actions "zlib" = Ok acts'
    ∧ ∃ r, FETCH acts' = Some [r]
           ∧ locked_of_action (H := listing_host) "linux-64" r
             = Ok ("zlib",
                   LockedDependency.mk "zlib" "1.2.11" "conda" "linux-64"
                     [("libgcc-ng", ">=7.5.0"); ("libstdcxx-ng", "")]
                     "https://conda.anaconda.org/conda-forge/linux-64/zlib-1.2.11-h36c2ea0_1013.tar.bz2"
                     "md5:md5:5c35" true "main").
Proof.
  destruct (carry_one (H := listing_host) "conda" prior_lock installed_packages
              no_actions "zlib") as [acts'|e] eqn:Hrun;
    [|vm_compute in Hrun; discriminate Hrun].
  exists acts'. split; [reflexivity|].
  destruct (carried_read_back (H := listing_host) "conda" prior_lock
              installed_packages no_actions acts' "zlib" "linux-64" Hrun)
    as (entry & prior & fetch & r & version & base_url & subdir & dist_name
        & Hentry & Hprior & Hfetch & Hfetch' & Hversion & Hbase & Hsubdir
        & Hdist & Hread).
  vm_compute in Hentry. injection Hentry as <-.
  vm_compute in Hprior. injection Hprior as <-.
  injection Hfetch as <-. injection Hversion as <-. injection Hbase as <-.
  injection Hsubdir as <-. injection Hdist as <-.
  exists r. split; [exact Hfetch'|].
  apply Hread; [reflexivity|by_decide|].
  repeat constructor; done.
Defined.

Lemma solve_conda_planned_witness :
  ∃ planned w' d,
    solve_conda (H := solve_host) "conda"
      [("zlib", VersionedDependency "zlib" "conda" ">=1.2")] [] []
      "linux-64" ["conda-forge"] empty_world = (Ok planned, w')
    ∧ PyDict.get "zlib" planned = Some d
    ∧ ∃ action, read_from "linux-64" action "zlib" d.
Proof.
  destruct (solve_conda (H := solve_host) "conda"
              [("zlib", VersionedDependency "zlib" "conda" ">=1.2")] [] []
              "linux-64" ["conda-forge"] empty_world)
    as [[planned|e] w'] eqn:Hrun; [|vm_compute in Hrun; discriminate Hrun].
  destruct (solve_conda_planned _ _ _ _ _ _ _ _ _ Hrun)
    as (plan & acts & fetch & _ & _ & _ & _ & Hread).
  vm_compute in Hrun. injection Hrun as <- <-.
  eexists _, _, _. split; [reflexivity|]. split; [reflexivity|].
  destruct (Hread "zlib" _ eq_refl) as (before & action & after & _ & _ & Hr).
  by exists action.
Defined.

Lemma uses_pinning_basename_witness :
  uses_pinning "/opt/conda/bin/mamba" = true
  ∧ uses_pinning "/opt/mamba/bin/conda" = false.
Proof.
  split.
  - apply (uses_pinning_basename "/opt/conda/bin" "mamba"); done.
  - apply (uses_pinning_basename "/opt/mamba/bin" "conda"); done.
Defined.

(** A URL whose host opens a bracket that it does not close. *)
Definition bracket_locked : LockedDependency.t :=
  LockedDependency.mk "zlib" "1.2.11" "conda" "linux-64" []
    "http://[conda/linux-64/zlib-1.2.11-h36c2ea0_1013.tar.bz2"
    "md5:5c35" false "main".

Lemma update_with_bad_url_witness :
  let out := update_specs_for_arch (H := listing_host) "conda" ["zlib"]
               [("zlib", bracket_locked)] ["zlib"] "linux-64" ["conda-forge"]
               empty_world in
  out.1 = Raise (ValueError "Invalid IPv6 URL") ∧ calls out.2 = [].
Proof.
  intros out.
  destruct (update_with_bad_url (H := listing_host) "conda" ["zlib"]
              [("zlib", bracket_locked)] ["zlib"] "linux-64" ["conda-forge"]
              empty_world) as [(dep & e & Hin & _ & _ & Hbad & Hraise) Hcalls].
  - exists bracket_locked, (ValueError "Invalid IPv6 URL").
    split; [left|]. split; [reflexivity|]. split; [reflexivity|]. by_compute.
  - apply list_elem_of_singleton in Hin. subst dep.
    vm_compute in Hbad. injection Hbad as <-.
    split; [exact Hraise|exact Hcalls].
Defined.

Lemma complete_plan_not_locked_witness :
  ∃ key,
    complete_plan (H := listing_host) "conda" [("zlib", zlib_locked)]
      installed_packages empty_plan = Raise (KeyError key).
Proof.
  apply (complete_plan_not_locked (H := listing_host) "conda"
           [("zlib", zlib_locked)] installed_packages empty_plan [] ∅ "libpng").
  - reflexivity.
  - reflexivity.
  - by_decide.
  - by_decide.
  - reflexivity.
Defined.

